(** * The Blue Brain Nexus store of nexus-forge: a shallow embedding

    Source: [kgforge/specializations/stores/bluebrain_nexus.py],
    [kgforge/core/commons/files.py], [kgforge/core/archetypes/mapping.py]
    and, for the linking of entities,
    [kgforge/specializations/resolvers/entity_linking/service/entity_linking_elastic_service.py].

    Python [str] values are [string]s; a [string] is read as the UTF-8
    bytes of the text, and the character classes below are the ASCII ones.
    Code that raises returns an [Outcome]; code that talks to the store runs
    in the monad [M], which threads the log of HTTP requests and keeps every
    effect made before an exception is raised, as Python does. *)

From Stdlib Require Import String Ascii List Bool Arith ZArith Lia.
From Stdlib Require Import DecimalString.
Import ListNotations.

Local Open Scope list_scope.
Local Open Scope string_scope.



(** ** Python [str] operations *)

Module PyStr.

Definition chr_eqb (a b : ascii) : bool := Ascii.eqb a b.

(** [c in s] for a one-character [c]. *)
Fixpoint has_char (c : ascii) (s : string) : bool :=
  match s with
  | EmptyString => false
  | String a s' => if chr_eqb a c then true else has_char c s'
  end.

(** [all(p(c) for c in s)]. *)
Fixpoint all_chars (p : ascii -> bool) (s : string) : bool :=
  match s with
  | EmptyString => true
  | String a s' => if p a then all_chars p s' else false
  end.

(** [s.startswith(p)]. *)
Definition startswith (s p : string) : bool := String.prefix p s.

(** [s[n:]]. *)
Fixpoint drop (n : nat) (s : string) : string :=
  match n, s with
  | O, _ => s
  | S n', String _ s' => drop n' s'
  | S _, EmptyString => EmptyString
  end.

(** [s[:n]]. *)
Fixpoint take (n : nat) (s : string) : string :=
  match n, s with
  | O, _ => EmptyString
  | S n', String a s' => String a (take n' s')
  | S _, EmptyString => EmptyString
  end.

(** [sub in s]. *)
Fixpoint contains (sub s : string) : bool :=
  if String.prefix sub s then true
  else match s with
       | EmptyString => false
       | String _ s' => contains sub s'
       end.

(** [s.partition(c)] for a one-character [c]: [None] when [c] is not in
    [s], else the text before and after its first occurrence. *)
Fixpoint cut (c : ascii) (s : string) : option (string * string) :=
  match s with
  | EmptyString => None
  | String a s' =>
      if chr_eqb a c then Some (EmptyString, s')
      else match cut c s' with
           | Some (l, r) => Some (String a l, r)
           | None => None
           end
  end.

Definition rev_string (acc : list ascii) : string :=
  string_of_list_ascii (rev acc).

(** [s.split(sep)] for a non-empty [sep]: a scan from the left; [skip]
    counts the characters of a separator just matched that are still to be
    passed over, [cur] holds the current piece, reversed. *)
Fixpoint split_scan (sep : string) (skip : nat) (cur : list ascii)
         (s : string) : list string :=
  match s with
  | EmptyString => [rev_string cur]
  | String a s' =>
      match skip with
      | S k => split_scan sep k cur s'
      | O =>
          if String.prefix sep s
          then rev_string cur :: split_scan sep (String.length sep - 1) [] s'
          else split_scan sep 0 (a :: cur) s'
      end
  end.

Definition split (sep s : string) : list string := split_scan sep 0 [] s.

(** [s.replace(old, new)] for a non-empty [old]. *)
Fixpoint replace_scan (old new : string) (skip : nat) (s : string) : string :=
  match s with
  | EmptyString => EmptyString
  | String a s' =>
      match skip with
      | S k => replace_scan old new k s'
      | O =>
          if String.prefix old s
          then new ++ replace_scan old new (String.length old - 1) s'
          else String a (replace_scan old new 0 s')
      end
  end.

(** [s.replace("", new)]: [new] before every character and at the end. *)
Fixpoint intersperse (new s : string) : string :=
  match s with
  | EmptyString => new
  | String a s' => new ++ String a (intersperse new s')
  end.

Definition replace (s old new : string) : string :=
  match old with
  | EmptyString => intersperse new s
  | _ => replace_scan old new 0 s
  end.

(** [sep.join(parts)]. *)
Definition join (sep : string) (parts : list string) : string :=
  String.concat sep parts.

Definition is_upper (c : ascii) : bool :=
  let n := nat_of_ascii c in (65 <=? n)%nat && (n <=? 90)%nat.
Definition is_lower (c : ascii) : bool :=
  let n := nat_of_ascii c in (97 <=? n)%nat && (n <=? 122)%nat.
Definition is_digit (c : ascii) : bool :=
  let n := nat_of_ascii c in (48 <=? n)%nat && (n <=? 57)%nat.
Definition is_alpha (c : ascii) : bool := is_upper c || is_lower c.
Definition is_alnum (c : ascii) : bool := is_alpha c || is_digit c.

Definition lower_chr (c : ascii) : ascii :=
  if is_upper c then ascii_of_nat (nat_of_ascii c + 32) else c.

(** [s.lower()]. *)
Fixpoint lower (s : string) : string :=
  match s with
  | EmptyString => EmptyString
  | String a s' => String (lower_chr a) (lower s')
  end.

(** [s[-1]] of a list, as [parts[-1]]. *)
Definition last_part (parts : list string) : string := last parts EmptyString.

(** [str(n)] for an [int]. *)
Definition str_of_Z (z : Z) : string := NilZero.string_of_int (Z.to_int z).

End PyStr.

(** ** [_create_select_query] *)

(** The two locals of [_create_select_query]. *)
Definition where_clauses (statements : string) (search_in_graph : bool) : string :=
  if search_in_graph then "{ Graph ?g {" ++ statements ++ "}}"
  else "{" ++ statements ++ "}".

Definition select_vars (vars_ : list string) (distinct : bool) : string :=
  let join_vars_ := PyStr.join " " vars_ in
  if distinct then "DISTINCT " ++ join_vars_ else join_vars_.

Definition _create_select_query (vars_ : list string) (statements : string)
           (distinct search_in_graph : bool) : string :=
  "SELECT " ++ select_vars vars_ distinct ++ " WHERE "
    ++ where_clauses statements search_in_graph.

(** ** Exceptions and outcomes *)

Inductive exn_kind : Type :=
| ValueError | TypeError | KeyError | IndexError | AttributeError
| JSONDecodeError | OSError
| NotSupportedError
| RegistrationError | UploadingError | RetrievalError | DownloadingError
| UpdatingError | TaggingError | DeprecationError | QueryingError.

Record exn : Type := Exn { kind : exn_kind; message : string }.

Inductive Outcome (A : Type) : Type :=
| Return (a : A)
| Raise (e : exn).
Arguments Return {A} a.
Arguments Raise {A} e.

Definition exn_kind_eqb (a b : exn_kind) : bool :=
  match a, b with
  | ValueError, ValueError | TypeError, TypeError | KeyError, KeyError
  | IndexError, IndexError | AttributeError, AttributeError
  | JSONDecodeError, JSONDecodeError | OSError, OSError
  | NotSupportedError, NotSupportedError
  | RegistrationError, RegistrationError | UploadingError, UploadingError
  | RetrievalError, RetrievalError | DownloadingError, DownloadingError
  | UpdatingError, UpdatingError | TaggingError, TaggingError
  | DeprecationError, DeprecationError | QueryingError, QueryingError => true
  | _, _ => false
  end.

Definition raised {A : Type} (o : Outcome A) : bool :=
  match o with Raise _ => true | Return _ => false end.

Definition raised_kind {A : Type} (o : Outcome A) : option exn_kind :=
  match o with Raise e => Some (kind e) | Return _ => None end.

(** ** [urllib.parse] *)

Module Urllib.
Import PyStr.

Definition hex_digit (n : nat) : ascii :=
  if (n <? 10)%nat then ascii_of_nat (48 + n) else ascii_of_nat (55 + n).

Definition hex_value (c : ascii) : option nat :=
  let n := nat_of_ascii c in
  if is_digit c then Some (n - 48)
  else if (65 <=? n)%nat && (n <=? 70)%nat then Some (n - 55)
  else if (97 <=? n)%nat && (n <=? 102)%nat then Some (n - 87)
  else None.

(** The characters [quote] never escapes: letters, digits and [_.-~]. *)
Definition always_safe (c : ascii) : bool :=
  is_alnum c
  || chr_eqb c "_" || chr_eqb c "." || chr_eqb c "-" || chr_eqb c "~".

Definition quote_chr (c : ascii) : string :=
  if always_safe c then String c EmptyString
  else if chr_eqb c " " then "+"
  else
    let n := nat_of_ascii c in
    String "%" (String (hex_digit (n / 16)) (String (hex_digit (n mod 16)) EmptyString)).

(** [quote_plus(s)] with the default [safe=''] (and [encoding=None], which
    is UTF-8). *)
Fixpoint quote_plus (s : string) : string :=
  match s with
  | EmptyString => EmptyString
  | String a s' => quote_chr a ++ quote_plus s'
  end.

(** [unquote(s)]: every [%XX] with two hexadecimal digits becomes the byte
    it names, anything else is kept.  Python then decodes each run of such
    bytes as UTF-8 and puts U+FFFD for what is not valid: this function is
    [unquote] on the texts whose [%XX] runs name valid UTF-8, among them
    every text without a percent sign and every result of [quote_plus]. *)
Fixpoint unquote (s : string) : string :=
  match s with
  | EmptyString => EmptyString
  | String c s' =>
      if chr_eqb c "%" then
        match s' with
        | String h (String l rest) =>
            match hex_value h, hex_value l with
            | Some x, Some y => String (ascii_of_nat (16 * x + y)) (unquote rest)
            | _, _ => String c (unquote s')
            end
        | _ => String c (unquote s')
        end
      else String c (unquote s')
  end.

Record ParseResult : Type := mkParseResult {
  scheme : string;
  netloc : string;
  path : string;
  params : string;
  query : string;
  fragment : string
}.

Definition scheme_char (c : ascii) : bool :=
  is_alnum c || chr_eqb c "+" || chr_eqb c "-" || chr_eqb c ".".

(** A C0 control character or a space, stripped from the left of a URL. *)
Definition c0_or_space (c : ascii) : bool := (nat_of_ascii c <=? 32)%nat.

Fixpoint lstrip (p : ascii -> bool) (s : string) : string :=
  match s with
  | EmptyString => EmptyString
  | String a s' => if p a then lstrip p s' else s
  end.

(** Tab, carriage return and line feed are removed from a URL. *)
Definition unsafe_byte (c : ascii) : bool :=
  let n := nat_of_ascii c in
  (n =? 9)%nat || (n =? 10)%nat || (n =? 13)%nat.

Fixpoint remove_chars (p : ascii -> bool) (s : string) : string :=
  match s with
  | EmptyString => EmptyString
  | String a s' => if p a then remove_chars p s' else String a (remove_chars p s')
  end.

(** The scheme of a URL and what follows its colon. *)
Definition split_scheme (url : string) : string * string :=
  match cut ":" url with
  | Some (String a0 r as pre, rest) =>
      if is_alpha a0 && all_chars scheme_char pre
      then (lower pre, rest)
      else (EmptyString, url)
  | _ => (EmptyString, url)
  end.

(** [_splitnetloc(url, 2)]: the network location runs to the first of
    [/], [?] and [#]. *)
Fixpoint span_netloc (s : string) : string * string :=
  match s with
  | EmptyString => (EmptyString, EmptyString)
  | String a s' =>
      if chr_eqb a "/" || chr_eqb a "?" || chr_eqb a "#"
      then (EmptyString, s)
      else let '(n, r) := span_netloc s' in (String a n, r)
  end.

Definition split_netloc (url : string) : string * string :=
  if String.prefix "//" url then span_netloc (drop 2 url)
  else (EmptyString, url).

(** [url.split(c, 1)] when [c] is in [url]. *)
Definition split_once (c : ascii) (url : string) : string * string :=
  match cut c url with
  | Some (l, r) => (l, r)
  | None => (url, EmptyString)
  end.

(** *** The addresses a bracketed host may hold ([ipaddress]) *)

(** [int(s)] for a text of decimal digits. *)
Definition decimal_value (s : string) : nat :=
  fold_left (fun n c => 10 * n + (nat_of_ascii c - 48)) (list_ascii_of_string s) 0.

(** [_BaseV4._parse_octet] accepts the text: one to three decimal digits,
    no leading zero, at most 255. *)
Definition is_octet (s : string) : bool :=
  if negb (String.eqb s "") && all_chars is_digit s && (String.length s <=? 3)%nat
  then (String.eqb s "0" || negb (String.prefix "0" s))
       && (decimal_value s <=? 255)%nat
  else false.

(** [IPv4Address(s)] does not raise. *)
Definition is_ipv4 (s : string) : bool :=
  negb (has_char "/" s)
  && negb (String.eqb s "")
  && match split "." s with
     | [a; b; c; d] => is_octet a && is_octet b && is_octet c && is_octet d
     | _ => false
     end.

(** [_BaseV6._parse_hextet] accepts the text: one to four hexadecimal
    digits. *)
Definition is_hextet (s : string) : bool :=
  all_chars (fun c => match hex_value c with Some _ => true | None => false end) s
  && (String.length s <=? 4)%nat
  && negb (String.eqb s "").

(** The indices from [1] to [len(parts) - 2] of the parts that are empty. *)
Fixpoint inner_empty (i : nat) (parts : list string) : list nat :=
  match parts with
  | [] | [_] => []
  | p :: rest => ((if String.eqb p "" then [i] else []) ++ inner_empty (S i) rest)%list
  end.

(** [_BaseV6._ip_int_from_string] does not raise. *)
Definition is_ipv6_address (ip_str : string) : bool :=
  let parts := split ":" ip_str in
  let last_ := last_part parts in
  (* An IPv4-style suffix stands for two hextets, well formed whatever the
     address it names. *)
  let suffix := has_char "." last_ in
  let parts := if suffix then (removelast parts ++ ["0"; "0"])%list else parts in
  let n := List.length parts in
  let first_empty := String.eqb (nth 0 parts "") "" in
  let last_empty := String.eqb (last_part parts) "" in
  negb (String.eqb ip_str "")
  && (3 <=? List.length (split ":" ip_str))%nat
  && (if suffix then is_ipv4 last_ else true)
  && (n <=? 9)%nat
  && match inner_empty 1 (tl parts) with
     | _ :: _ :: _ => false
     | [skip_index] =>
         let parts_hi := if first_empty then skip_index - 1 else skip_index in
         let parts_lo :=
           if last_empty then n - skip_index - 1 - 1 else n - skip_index - 1 in
         (if first_empty then (parts_hi =? 0)%nat else true)
         && (if last_empty then (parts_lo =? 0)%nat else true)
         && (1 <=? 8 - (parts_hi + parts_lo))%nat
         && forallb is_hextet (firstn parts_hi parts)
         && forallb is_hextet (skipn (n - parts_lo) parts)
     | [] =>
         (n =? 8)%nat && negb first_empty && negb last_empty
         && forallb is_hextet parts
     end.

(** [IPv6Address(s)] does not raise: an address, with a zone after a
    percent sign or without. *)
Definition is_ipv6 (s : string) : bool :=
  negb (has_char "/" s)
  && match cut "%" s with
     | Some (addr, scope_id) =>
         negb (String.eqb scope_id "") && negb (has_char "%" scope_id)
         && is_ipv6_address addr
     | None => is_ipv6_address s
     end.

(** [re.match(r"\Av[a-fA-F0-9]+\..+\Z", hostname)] finds a match. *)
Fixpoint hex_then_dot (seen : bool) (s : string) : bool :=
  match s with
  | EmptyString => false
  | String c s' =>
      match hex_value c with
      | Some _ => hex_then_dot true s'
      | None => seen && chr_eqb c "." && negb (String.eqb s' "")
      end
  end.

Definition is_ipvfuture (hostname : string) : bool :=
  match hostname with
  | String c rest => chr_eqb c "v" && hex_then_dot false rest
  | EmptyString => false
  end.

(** [_check_bracketed_host] *)
Definition check_bracketed_host (hostname : string) : Outcome unit :=
  if String.prefix "v" hostname then
    if is_ipvfuture hostname then Return tt
    else Raise (Exn ValueError "IPvFuture address is invalid")
  else if is_ipv4 hostname
  then Raise (Exn ValueError "An IPv4 address cannot be in brackets")
  else if is_ipv6 hostname then Return tt
  else Raise (Exn ValueError
                ("'" ++ hostname ++ "' does not appear to be an IPv4 or IPv6 address")).

(** [s.rpartition(c)[2]]: the text after the last [c], or the whole. *)
Fixpoint after_last (c : ascii) (s : string) : string :=
  match s with
  | EmptyString => EmptyString
  | String a s' => if has_char c s' then after_last c s'
                   else if chr_eqb a c then s' else s
  end.

(** [_check_bracketed_netloc] *)
Definition check_bracketed_netloc (netloc_ : string) : Outcome unit :=
  let hostname_and_port := after_last "@" netloc_ in
  match cut "[" hostname_and_port with
  | Some (before_bracket, bracketed) =>
      (* No data is allowed before a bracket. *)
      if negb (String.eqb before_bracket "")
      then Raise (Exn ValueError "Invalid IPv6 URL")
      else
        let '(hostname, port) :=
          match cut "]" bracketed with
          | Some (h, p) => (h, p)
          | None => (bracketed, EmptyString)
          end in
        (* No data is allowed after the bracket but before the port delimiter. *)
        if negb (String.eqb port "") && negb (String.prefix ":" port)
        then Raise (Exn ValueError "Invalid IPv6 URL")
        else check_bracketed_host hostname
  | None =>
      check_bracketed_host
        (match cut ":" hostname_and_port with
         | Some (h, _) => h
         | None => hostname_and_port
         end)
  end.

(** *** [_checknetloc] *)

Definition utf8 (bytes : list nat) : string :=
  string_of_list_ascii (map ascii_of_nat bytes).

(** The characters whose NFKC form has one of [/?#@:], in UTF-8 (Unicode
    14): U+2047 to U+2049, U+2100, U+2101, U+2105, U+2106, U+2A74, U+FE13,
    U+FE16, U+FE55, U+FE56, U+FE5F, U+FE6B, U+FF03, U+FF0F, U+FF1A, U+FF1F
    and U+FF20.  None of the five characters is composed with another by
    the normalisation, so the normal form of a network location has one of
    them exactly when the location has one of these characters (a network
    location has no [/], [?] or [#] itself, and its [@] and [:] are set
    aside by the check). *)
Definition nfkc_expanding : list string :=
  [utf8 [226; 129; 135]; utf8 [226; 129; 136]; utf8 [226; 129; 137];
   utf8 [226; 132; 128]; utf8 [226; 132; 129]; utf8 [226; 132; 133];
   utf8 [226; 132; 134]; utf8 [226; 169; 180]; utf8 [239; 184; 147];
   utf8 [239; 184; 150]; utf8 [239; 185; 149]; utf8 [239; 185; 150];
   utf8 [239; 185; 159]; utf8 [239; 185; 171]; utf8 [239; 188; 131];
   utf8 [239; 188; 143]; utf8 [239; 188; 154]; utf8 [239; 188; 159];
   utf8 [239; 188; 160]].

(** [_checknetloc(netloc)] raises. *)
Definition nfkc_unsafe (netloc_ : string) : bool :=
  existsb (fun u => contains u netloc_) nfkc_expanding.

(** [urlsplit]: [ValueError] for a network location with one square
    bracket and not the other, for one whose bracketed host is not an IPv6
    or IPvFuture address, and for one that has a reserved character under
    NFKC normalisation. *)
Definition urlsplit (url0 : string) : Outcome ParseResult :=
  let url := remove_chars unsafe_byte (lstrip c0_or_space url0) in
  let '(sch, url) := split_scheme url in
  let '(loc, url) := split_netloc url in
  if xorb (has_char "[" loc) (has_char "]" loc)
  then Raise (Exn ValueError "Invalid IPv6 URL")
  else
    match (if has_char "[" loc && has_char "]" loc
           then check_bracketed_netloc loc else Return tt) with
    | Raise e => Raise e
    | Return _ =>
        let '(url, frag) := split_once "#" url in
        let '(url, qry) := split_once "?" url in
        if nfkc_unsafe loc
        then Raise (Exn ValueError
                      ("netloc '" ++ loc
                         ++ "' contains invalid characters under NFKC normalization"))
        else Return (mkParseResult sch loc url EmptyString qry frag)
    end.

Definition uses_params : list string :=
  [""; "ftp"; "hdl"; "prospero"; "http"; "imap"; "https"; "shttp"; "rtsp";
   "rtspu"; "sip"; "sips"; "mms"; "sftp"; "tel"].

(** The text up to and including the last [/], and the text after it. *)
Fixpoint rsplit_slash (s : string) : string * string :=
  match s with
  | EmptyString => (EmptyString, EmptyString)
  | String a s' =>
      let '(h, t) := rsplit_slash s' in
      if has_char "/" s' then (String a h, t)
      else if chr_eqb a "/" then (String a EmptyString, s')
      else (EmptyString, s)
  end.

(** [_splitparams]: the parameters follow the first [;] of the last path
    segment. *)
Definition splitparams (url : string) : string * string :=
  let '(h, t) := rsplit_slash url in
  match cut ";" t with
  | Some (l, r) => (h ++ l, r)
  | None => (url, EmptyString)
  end.

Definition urlparse (url : string) : Outcome ParseResult :=
  match urlsplit url with
  | Raise e => Raise e
  | Return r =>
      if existsb (String.eqb (scheme r)) uses_params && has_char ";" (path r)
      then let '(p, prm) := splitparams (path r) in
           Return (mkParseResult (scheme r) (netloc r) p prm (query r) (fragment r))
      else Return r
  end.

(** [parse_qsl(qs)] with its defaults: fields are separated by [&], a
    field without [=] or with an empty value is dropped, [+] is a space. *)
Definition parse_field (name_value : string) : list (string * string) :=
  match cut "=" name_value with
  | Some (n, v) =>
      match v with
      | EmptyString => []
      | _ => [(unquote (replace n "+" " "), unquote (replace v "+" " "))]
      end
  | None => []
  end.

Definition parse_qsl (qs : string) : list (string * string) :=
  match qs with
  | EmptyString => []
  | _ => flat_map parse_field (split "&" qs)
  end.

(** [parsed_result[name].append(value)] or [parsed_result[name] = [value]]. *)
Fixpoint add_value (name value : string) (d : list (string * list string))
  : list (string * list string) :=
  match d with
  | [] => [(name, [value])]
  | (k, vs) :: d' =>
      if String.eqb k name then (k, (vs ++ [value])%list) :: d'
      else (k, vs) :: add_value name value d'
  end.

Definition parse_qs (qs : string) : list (string * list string) :=
  fold_left (fun d nv => add_value (fst nv) (snd nv) d) (parse_qsl qs) [].

End Urllib.

(** ** [is_valid_url] ([kgforge/core/commons/files.py]) *)

Definition is_valid_url (url : string) : bool :=
  match Urllib.urlparse url with
  | Return result =>
      negb (String.eqb (Urllib.scheme result) "")
      && negb (String.eqb (Urllib.netloc result) "")
  | Raise _ => false
  end.

(** ** The regular expressions of the module *)

Module Re.
Import PyStr.

(** [\w], on ASCII text.  In a pattern for [str], Python's [\w] also
    matches the letters and the digits outside ASCII, which this class
    leaves out: [re_match] below is [re.match] on the texts that are
    ASCII. *)
Definition word_char (c : ascii) : bool := is_alnum c || chr_eqb c "_".

(** A pattern is a sequence of items: a literal character, or [cls+] for a
    character class, greedy, captured as a group or not. *)
Inductive item : Type :=
| Lit (c : ascii)
| Plus (group : bool) (cls : ascii -> bool).

(** The length of the longest prefix of [s] inside the class. *)
Fixpoint run_length (cls : ascii -> bool) (s : string) : nat :=
  match s with
  | EmptyString => 0
  | String a s' => if cls a then S (run_length cls s') else 0
  end.

(** Backtracking of a greedy [+]: the longest repetition first, down to
    one. *)
Fixpoint longest_first {A : Type} (n : nat) (k : nat -> option A) : option A :=
  match n with
  | O => None
  | S m =>
      match k n with
      | Some r => Some r
      | None => longest_first m k
      end
  end.

(** [re.match(pattern, s)]: the groups of the first match the backtracking
    search finds at the start of [s], or [None]. *)
Fixpoint match_items (items : list item) (s : string) (groups : list string)
  : option (list string) :=
  match items with
  | [] => Some (rev groups)
  | Lit c :: rest =>
      match s with
      | String a s' => if chr_eqb a c then match_items rest s' groups else None
      | EmptyString => None
      end
  | Plus g cls :: rest =>
      longest_first (run_length cls s)
        (fun n => match_items rest (drop n s)
                    (if g then take n s :: groups else groups))
  end.

Definition re_match (items : list item) (s : string) : option (list string) :=
  match_items items s [].

(** [[\w\.:%/-]] *)
Definition schema_head_char (c : ascii) : bool :=
  word_char c || chr_eqb c "." || chr_eqb c ":" || chr_eqb c "%"
  || chr_eqb c "/" || chr_eqb c "-".

(** [[\w\.-/:%]]: inside the brackets [\.-/] is the range from [.] to [/]. *)
Definition schema_tail_char (c : ascii) : bool :=
  word_char c
  || ((nat_of_ascii "." <=? nat_of_ascii c)%nat && (nat_of_ascii c <=? nat_of_ascii "/")%nat)
  || chr_eqb c ":" || chr_eqb c "%".

(** [r"[\w\.:%/-]+/(\w+):(\w+)/[\w\.-/:%]+"] *)
Definition prefixed_schema : list item :=
  [Plus false schema_head_char; Lit "/"; Plus true word_char; Lit ":";
   Plus true word_char; Lit "/"; Plus false schema_tail_char].

(** [re.findall("[A-Z][^A-Z]*", s)]: each capital letter with the
    characters up to the next one; [cur] is the piece being read,
    reversed. *)
Fixpoint capital_runs (cur : option (list ascii)) (s : string) : list string :=
  let flush := match cur with Some r => [rev_string r] | None => [] end in
  match s with
  | EmptyString => flush
  | String a s' =>
      if is_upper a then (flush ++ capital_runs (Some [a]) s')%list
      else match cur with
           | Some r => capital_runs (Some (a :: r)) s'
           | None => capital_runs None s'
           end
  end.

Definition findall_capitalised (s : string) : list string := capital_runs None s.

End Re.

(** ** JSON values, as [response.json()] and [json.dumps] see them *)

#[warnings="-register-all"]
Inductive json : Type :=
| JNull
| JBool (b : bool)
| JNum (z : Z)
| JStr (s : string)
| JArr (items : list json)
| JObj (fields : list (string * json)).

(** [d[key]] on the fields of an object. *)
Fixpoint lookup (key : string) (fields : list (string * json)) : option json :=
  match fields with
  | [] => None
  | (k, v) :: rest => if String.eqb k key then Some v else lookup key rest
  end.

(** [bool(v)]. *)
Definition truthy (v : json) : bool :=
  match v with
  | JNull => false
  | JBool b => b
  | JNum z => negb (Z.eqb z 0)
  | JStr s => negb (String.eqb s "")
  | JArr l => match l with [] => false | _ => true end
  | JObj l => match l with [] => false | _ => true end
  end.

Definition is_str (s : string) (v : json) : bool :=
  match v with JStr t => String.eqb s t | _ => false end.

(** [key in v]: a key of an object, an element of an array, a substring of
    a string; [TypeError] for the other values. *)
Definition json_contains (key : string) (v : json) : Outcome bool :=
  match v with
  | JObj fields => Return (match lookup key fields with Some _ => true | None => false end)
  | JArr l => Return (existsb (is_str key) l)
  | JStr s => Return (PyStr.contains key s)
  | _ => Raise (Exn TypeError "argument is not iterable")
  end.

(** [v[key]] for a string [key]. *)
Definition json_getitem (key : string) (v : json) : Outcome json :=
  match v with
  | JObj fields =>
      match lookup key fields with
      | Some x => Return x
      | None => Raise (Exn KeyError key)
      end
  | _ => Raise (Exn TypeError "indices must be integers")
  end.

(** ** HTTP: requests, responses and the log of what was sent *)

Inductive Method : Type := GET | POST | PUT | DELETE.

(** A value of a [params] dict: [parse_qs] gives lists of strings, a
    version gives an [int] or a [str]. *)
Inductive param_value : Type :=
| PList (values : list string)
| PInt (z : Z)
| PStr (s : string)
| PBool (b : bool).

Definition Params : Type := list (string * param_value).

(** [d.update({key: v})] on a dict kept in insertion order. *)
Fixpoint dict_set {V : Type} (key : string) (v : V) (d : list (string * V))
  : list (string * V) :=
  match d with
  | [] => [(key, v)]
  | (k, x) :: rest =>
      if String.eqb k key then (k, v) :: rest else (k, x) :: dict_set key v rest
  end.

Definition dict_update {V : Type} (d other : list (string * V)) : list (string * V) :=
  fold_left (fun acc kv => dict_set (fst kv) (snd kv) acc) other d.

Inductive Body : Type :=
| NoBody
| JsonBody (data : json)
| TextBody (data : string)
| FileBody (file_path mime_type filename : string).

Record Request : Type := mkRequest {
  req_method : Method;
  req_url : string;
  req_params : option Params;
  req_body : Body
}.

(** [content] is [None] when the body is not JSON. *)
Record Response : Type := mkResponse {
  status_code : Z;
  content : option json
}.

(** [Response.raise_for_status] raises for the statuses from 400 to 599;
    [bool(response)] is [response.ok], true when it does not raise. *)
Definition ok (r : Response) : bool :=
  negb ((400 <=? status_code r)%Z && (status_code r <? 600)%Z).

(** [response.json()] *)
Definition response_json (r : Response) : Outcome json :=
  match content r with
  | Some v => Return v
  | None => Raise (Exn JSONDecodeError "Expecting value")
  end.

(** ** Filters and the list objects that hold them *)

Record Filter : Type := mkFilter {
  path : list string;
  operator : string;
  value : json
}.

(** An element of the [filters] a caller hands to [search]: [None], a
    nested mapping, or a [Filter]. *)
Inductive filter_item : Type :=
| ItemNone
| ItemDict (d : json)
| ItemFilter (f : Filter).

(** The [filters] argument: [None], a reference to a list object of the
    heap, or a tuple. *)
Inductive pyfilters : Type :=
| FNone
| FList (ref : nat)
| FTuple (items : list filter_item).

(** ** The world: the requests sent so far and the heap of list objects *)

Record World : Type := mkWorld {
  log : list Request;
  heap : list (list filter_item)
}.

(** Code that runs on a state [S] and may raise: the state reached is kept
    when it raises. *)
Definition ST (S A : Type) : Type := S -> Outcome A * S.

Definition M (A : Type) : Type := ST World A.

Definition ret {S A : Type} (a : A) : ST S A := fun w => (Return a, w).
Definition raise {S A : Type} (e : exn) : ST S A := fun w => (Raise e, w).

Definition bind {S A B : Type} (m : ST S A) (k : A -> ST S B) : ST S B :=
  fun w =>
    match m w with
    | (Return a, w') => k a w'
    | (Raise e, w') => (Raise e, w')
    end.

Notation "x <- m ;; k" := (bind m (fun x => k))
  (at level 61, m at next level, right associativity).
Notation "m ;;; k" := (bind m (fun _ => k))
  (at level 61, right associativity).
Notation "' pat <- m ;; k" := (bind m (fun x => match x with pat => k end))
  (at level 61, pat pattern, m at next level, right associativity).

(** A pure computation that may raise, run on a state. *)
Definition lift {S A : Type} (o : Outcome A) : ST S A := fun w => (o, w).

(** [try: m  except <kind> as er: handler(er)] *)
Definition try_except {S A : Type} (m : ST S A) (catches : exn -> bool)
           (handler : exn -> ST S A) : ST S A :=
  fun w =>
    match m w with
    | (Raise e, w') => if catches e then handler e w' else (Raise e, w')
    | r => r
    end.

(** The binding of the pure outcomes. *)
Definition obind {A B : Type} (o : Outcome A) (k : A -> Outcome B) : Outcome B :=
  match o with
  | Return a => k a
  | Raise e => Raise e
  end.

Notation "x <~ o ;; k" := (obind o (fun x => k))
  (at level 61, o at next level, right associativity).
Notation "' pat <~ o ;; k" := (obind o (fun x => match x with pat => k end))
  (at level 61, pat pattern, o at next level, right associativity).

(** [[f(x) for x in l]] in [M], from the left. *)
Fixpoint mapM {S A B : Type} (f : A -> ST S B) (l : list A) : ST S (list B) :=
  match l with
  | [] => ret []
  | x :: rest =>
      y <- f x ;;
      ys <- mapM f rest ;;
      ret (y :: ys)
  end.

(** The heap: allocation of a fresh list, reading, and [list.append]. *)
Definition alloc (l : list filter_item) : M nat :=
  fun w => (Return (length (heap w)),
            mkWorld (log w) (heap w ++ [l])%list).

Definition deref (r : nat) : M (list filter_item) :=
  fun w => (Return (nth r (heap w) []), w).

Fixpoint update_nth {A : Type} (n : nat) (f : A -> A) (l : list A) : list A :=
  match n, l with
  | O, x :: rest => f x :: rest
  | S m, x :: rest => x :: update_nth m f rest
  | _, [] => []
  end.

Definition list_append (r : nat) (x : filter_item) : M unit :=
  fun w => (Return tt,
            mkWorld (log w) (update_nth r (fun l => l ++ [x])%list (heap w))).

(** ** The collaborators of the store *)

Record Context : Type := mkContext {
  iri : option string;
  is_http_iri : bool;
  document_context : Outcome json;     (* [context.document["@context"]] *)
  expand : string -> option string;
  resolve_iri : string -> Outcome string
}.

Record Action : Type := mkAction {
  operation : string;
  succeeded : bool;
  error : option exn
}.

(** A resource: [res_id] and [res_context] are [None] when the attribute is
    not set. *)
Record Resource : Type := mkResource {
  res_id : option json;
  res_context : option json;
  properties : list (string * json);
  _store_metadata : option json;
  _synchronized : bool;
  _validated : bool;
  _last_action : option Action
}.

(** Code on one resource object and the world: the resource is the object
    the caller passed, changed in place. *)
Definition RM (A : Type) : Type := ST (Resource * World) A.

Definition on_world {A : Type} (m : M A) : RM A :=
  fun rw =>
    let '(o, w') := m (snd rw) in (o, (fst rw, w')).

(** Code that only sends requests, run on the world. *)
Definition on_log {A : Type} (m : ST (list Request) A) : M A :=
  fun w =>
    let '(o, l') := m (log w) in (o, mkWorld l' (heap w)).

Definition get_resource : RM Resource := fun rw => (Return (fst rw), rw).

Definition modify_resource (f : Resource -> Resource) : RM unit :=
  fun rw => (Return tt, (f (fst rw), snd rw)).

Inductive BatchAction : Type := CREATE | FETCH | DEPRECATE | UPDATE | TAG | UPLOAD | DOWNLOAD.

(** What a batch keeps of one resource: the resource and the decoded
    response, or the exception that stands for its failure. *)
Record BatchResult : Type := mkBatchResult {
  resource : Resource;
  response : json + exn
}.

(** What the store reads from its [Service] object (of
    [kgforge.specializations.stores.nexus.service], which is not part of
    these sources): its attributes, and the methods the store calls, kept as
    they are given. *)
Record Service : Type := mkService {
  service_endpoint : string;
  url_resources : string;
  url_resolver : string;
  url_files : string;
  max_connection : Z;
  service_params : list (string * Params);
  service_context : option Context;
  sparql_endpoint_type : string;
  sparql_endpoint_url : string;
  elastic_endpoint_type : string;
  elastic_endpoint_url : string;
  fetch_elastic_view : ST (list Request) json;
  default_str_keyword_field : json;
  deprecated_property : string;
  project_property : string;
  revision_property : string;
  store_metadata_keys : list string;
  metadata_term_id : string -> Outcome string;
  deprecated_term_name : option string;
  project_term_name : option string;
  _error_message : Response -> string;
  to_resource : json -> Outcome Resource;
  hit_to_resource : json -> Outcome Resource;
  sync_metadata : Resource -> json -> Resource;
  execute_lazy_actions : Resource -> Outcome Resource;
  prepare_batch_request :
    BatchAction -> Resource -> option string -> Params -> Request
}.

(** The store itself: its own attributes and the functions of other modules
    it calls ([as_jsonld], [as_json], the query builders, the [sparql] and
    [elastic] wrappers of the [Store] archetype, [create_filters_from_dict],
    [mimetypes.guess_type]). *)
Record Store : Type := mkStore {
  endpoint : string;
  bucket : string;
  organisation : string;
  project : string;
  service : Service;
  model_context : option Context;
  as_jsonld : Resource -> option Context -> Outcome json;
  as_json : Resource -> Outcome json;
  create_filters_from_dict : json -> Outcome (list Filter);
  sparql_build : option Context -> option (list filter_item) ->
                 Outcome (list string * list string);
  es_build : option json -> option Context -> list filter_item -> json ->
             json -> json -> Outcome json;
  dump_query : json -> string;
  prepare_query : string -> json -> json -> json -> Outcome string;
  build_resource_from_response : string -> json -> option Context -> Outcome (list Resource);
  guess_type : string -> option string
}.

(** Modelled from the spec: the success of a response, for
    [catch_http_error] and the requests of a batch: the errors stand for
    "non-2xx responses". *)
Definition success (r : Response) : bool :=
  (200 <=? status_code r)%Z && (status_code r <? 300)%Z.

(** Modelled from the spec: [catch_http_error] of
    [kgforge.core.commons.execution]: it "classif[ies] non-2xx responses
    into the matching typed error", "raised when the backend responds with a
    non-success status", whose "message includes the classified
    server-provided reason". *)
Definition catch_http_error (r : Response) (e : exn_kind)
           (error_message_formatter : Response -> string) : Outcome unit :=
  if success r then Return tt else Raise (Exn e (error_message_formatter r)).

(** [catch_http_error_nexus], with its default formatter [_error_message]. *)
Definition catch_http_error_nexus (svc : Service) (r : Response) (e : exn_kind)
  : Outcome unit :=
  catch_http_error r e (_error_message svc).

(** Modelled from the spec: [not_supported] of
    [kgforge.core.commons.execution]: "Not-supported errors -- raised for
    parameter combinations structurally impossible for the selected
    backend". *)
Definition not_supported {A : Type} (arg : string) : Outcome A :=
  Raise (Exn NotSupportedError ("BlueBrainNexus is not supporting search() with " ++ arg)).

(** Modelled from the spec: [Service.synchronize_resource]: a success has
    the "server-assigned identifier/revision/metadata" written back into the
    resource; "any failed operation leaves the resource unsynchronized and
    attaches the raised error". *)
Definition synchronize_resource (svc : Service) (r : Resource) (resp : json + exn)
           (action_name : string) (succeeded_ synchronized : bool) : Resource :=
  let r' :=
    match succeeded_, resp with
    | true, inl data => sync_metadata svc r data
    | _, _ => r
    end in
  let err := match succeeded_, resp with
             | false, inr e => Some e
             | _, _ => None
             end in
  mkResource (res_id r') (res_context r') (properties r') (_store_metadata r')
             synchronized (_validated r')
             (Some (mkAction action_name succeeded_ err)).




(** [copy.deepcopy(self.service.params.get(name, {}))] *)
Definition params_get (svc : Service) (name : string) : option Params :=
  match find (fun kv => String.eqb (fst kv) name) (service_params svc) with
  | Some kv => Some (snd kv)
  | None => None
  end.

Definition params_get_or_empty (svc : Service) (name : string) : Params :=
  match params_get svc name with Some p => p | None => [] end.

(** The [version] argument of [retrieve]: [None], an [int], a [str], or
    anything else. *)
Inductive pyversion : Type :=
| VerNone
| VerInt (z : Z)
| VerStr (s : string)
| VerOther.

(** The keyword arguments of [search]; a field is [None] when the key is not
    given, and [p_filters] says whether a key ["filters"] is. *)
Record SearchParams : Type := mkSearchParams {
  p_debug : option json;
  p_limit : option json;
  p_offset : option json;
  p_deprecated : option json;
  p_cross_bucket : option json;
  p_bucket : option json;
  p_search_in_graph : option json;
  p_distinct : option json;
  p_includes : option json;
  p_excludes : option json;
  p_search_endpoint : option json;
  p_retrieve_source : option json;
  p_filters : bool
}.

(** [params.get(key, default)] *)
Definition get_param (o : option json) (default : json) : json :=
  match o with Some v => v | None => default end.

(** A line feed. *)
Definition nl : string := String (ascii_of_nat 10) EmptyString.

(** [format_type[CategoryDataType.BOOLEAN]] *)
Definition format_boolean (x : json) : string :=
  if truthy x then "'true'^^xsd:boolean" else "'false'^^xsd:boolean".

Section Transport.

(** The store at the other end: the response to a request, given the
    requests it has received before. *)
Variable server : list Request -> Request -> Response.

(** [requests.get], [.post], [.put], [.delete] and the session's
    requests of a batch: the request is logged and answered. *)
Definition send (req : Request) : M Response :=
  fun w => (Return (server (log w) req),
            mkWorld (log w ++ [req])%list (heap w)).

(** Modelled from the spec: the result of one call of
    [Service.batch_request]: "any per-item exception is wrapped in the
    operation-specific error kind and carried as that item's result rather
    than raised". *)
Definition item_outcome (svc : Service) (error_type : exn_kind) (resp : Response)
  : json + exn :=
  if success resp then
    match content resp with
    | Some body => inl body
    | None => inr (Exn error_type "Expecting value")
    end
  else inr (Exn error_type (_error_message svc resp)).

(** Modelled from the spec: [Service.batch_request], one resource of the
    batch: the call is made, and its completion "triggers a callback that
    synchronizes that resource's local metadata from the response". *)
Definition batch_one (svc : Service) (action : BatchAction)
           (callback : option (BatchResult -> Resource)) (error_type : exn_kind)
           (schema_id : option string) (params : Params) (r : Resource)
  : M BatchResult :=
  resp <- send (prepare_batch_request svc action r schema_id params) ;;
  let outcome := item_outcome svc error_type resp in
  let result := mkBatchResult r outcome in
  match callback with
  | Some f => ret (mkBatchResult (f result) outcome)
  | None => ret result
  end.

(** Modelled from the spec: [Service.batch_request]: "after a batch call
    returns, every submitted resource has had exactly one synchronization
    attempt".  The batch is run in the order of the list; the spec promises
    no order across resources, and none of the results below depends on
    one. *)
Definition batch_request (svc : Service) (resources : list Resource)
           (action : BatchAction) (callback : option (BatchResult -> Resource))
           (error_type : exn_kind) (schema_id : option string) (params : Params)
  : M (list BatchResult) :=
  mapM (batch_one svc action callback error_type schema_id params) resources.

Variable self : Store.

(** [self.model_context() or self.context] *)
Definition model_or_service_context : option Context :=
  match model_context self with
  | Some c => Some c
  | None => service_context (service self)
  end.

(** ** Registration *)

Definition set_id (r : Resource) (i : json) : Resource :=
  mkResource (Some i) (res_context r) (properties r) (_store_metadata r)
             (_synchronized r) (_validated r) (_last_action r).

Definition set_context (r : Resource) (c : json) : Resource :=
  mkResource (res_id r) (Some c) (properties r) (_store_metadata r)
             (_synchronized r) (_validated r) (_last_action r).




(** [resource.get_identifier()] *)
Definition get_identifier (r : Resource) : option json := res_id r.

Definition quote_plus_json (v : json) : Outcome string :=
  match v with
  | JStr s => Return (Urllib.quote_plus s)
  | _ => Raise (Exn TypeError "quote_from_bytes() expected bytes")
  end.

(** The request of [_register_one]: a [PUT] to the address of the
    identifier when the resource has one, a [POST] otherwise. *)
Definition register_request (r : Resource) (schema_id : option string) (data : json)
  : Outcome Request :=
  let svc := service self in
  let schema := match schema_id with
                | Some s => if String.eqb s "" then "_" else Urllib.quote_plus s
                | None => "_"
                end in
  let url_base := url_resources svc ++ "/" ++ schema in
  let params_register := params_get svc "register" in
  match get_identifier r with
  | Some i =>
      if truthy i then
        q <~ quote_plus_json i ;;
        Return (mkRequest PUT (url_base ++ "/" ++ q) params_register (JsonBody data))
      else Return (mkRequest POST url_base params_register (JsonBody data))
  | None => Return (mkRequest POST url_base params_register (JsonBody data))
  end.

(** [_register_one], on the resource object it is given. *)
Definition _register_one (schema_id : option string) : RM unit :=
  let svc := service self in
  let context := model_or_service_context in
  r <- get_resource ;;
  data <- lift (as_jsonld self r context) ;;
  req <- lift (register_request r schema_id data) ;;
  resp <- on_world (send req) ;;
  lift (catch_http_error_nexus svc resp RegistrationError) ;;;
  response_json_ <- lift (response_json resp) ;;
  i <- lift (json_getitem "@id" response_json_) ;;
  modify_resource (fun r => set_id r i) ;;;
  r1 <- get_resource ;;
  (match res_context r1 with
   | Some _ => ret tt
   | None =>
       c <- lift (json_getitem "@context" data) ;;
       modify_resource (fun r => set_context r c)
   end) ;;;
  modify_resource (fun r => sync_metadata svc r response_json_).

(** ** The other batch operations *)




(** ** Upload *)

(** [path.name] *)
Definition path_name (p : string) : string := snd (Urllib.rsplit_slash p).

Definition json_str (v : json) : Outcome string :=
  match v with
  | JStr s => Return s
  | _ => Raise (Exn TypeError "expected string or bytes-like object")
  end.

(** What [path.open("rb")] does for each path: [None] when the file is
    opened, the [OSError] raised when it is not.  The file system is not
    part of these sources. *)
Variable open_rb : string -> option exn.

(** The request of one upload: the form [_create_task] builds for the
    path, posted by [_upload]. *)
Definition upload_request (content_type : option string) (p : string) : Request :=
  let svc := service self in
  let default := "application/octet-stream" in
  let mime_type :=
    match content_type with
    | Some (String _ _ as c) => c
    | _ => match guess_type self p with
           | Some (String _ _ as g) => g
           | _ => default
           end
    end in
  mkRequest POST (url_files svc) None (FileBody p mime_type (path_name p)).

(** The message of an [UploadingError]: the words of the [@type] of the
    body, in lower case. *)
Definition upload_error_message (type_ : string) : string :=
  PyStr.lower (PyStr.join " " (Re.findall_capitalised type_)).

(** [_create_task]: the file is opened when the task is created; the
    task holds the form to post. *)
Definition _create_task (content_type : option string) (path : string)
  : Outcome Request :=
  match open_rb path with
  | Some e => Raise e
  | None => Return (upload_request content_type path)
  end.

(** The generator of the tasks over [paths], as the call of
    [asyncio.gather] unpacks it: every task is created, and so every file opened, before the loop
    runs the first of them; an exception leaves the tasks already created
    to be cancelled unstarted. *)
Fixpoint create_tasks (content_type : option string) (paths : list string)
  : Outcome (list Request) :=
  match paths with
  | [] => Return []
  | path :: rest =>
      task <~ _create_task content_type path ;;
      tasks <~ create_tasks content_type rest ;;
      Return (task :: tasks)
  end.

Definition _upload (data : Request) : M json :=
  resp <- send data ;;
  body <- lift (response_json resp) ;;
  if (status_code resp <? 400)%Z then ret body
  else
    t <- lift (json_getitem "@type" body) ;;
    t <- lift (json_str t) ;;
    raise (Exn UploadingError (upload_error_message t)).

(** [_upload_many]: [asyncio.gather] without [return_exceptions] hands the
    first exception of a task to the caller of the batch.  The uploads are
    run in the order of the list; the tasks behind a failing one may or
    may not have sent their request, which the log below does not show. *)
Definition _upload_many (paths : list string) (content_type : option string)
  : M (list json) :=
  tasks <- lift (create_tasks content_type paths) ;;
  mapM _upload tasks.

(** ** Retrieval *)

Definition qs_params (d : list (string * list string)) : Params :=
  map (fun kv => (fst kv, PList (snd kv))) d.

(** [raise ValueError(e) from e] *)
Definition as_value_error {A : Type} (o : Outcome A) : Outcome A :=
  match o with
  | Raise e => Raise (Exn ValueError (message e))
  | r => r
  end.

Definition is_kind (k : exn_kind) (e : exn) : bool := exn_kind_eqb (kind e) k.

Definition get (u : string) (params : option Params) : Request :=
  mkRequest GET u params NoBody.

(** The identifier of [retrieve] without its query, and the query
    parameters found in it. *)
Definition split_identifier (id_ : string)
  : Outcome (Urllib.ParseResult * option string * option Params) :=
  parsed_id <~ Urllib.urlparse id_ ;;
  if PyStr.has_char "?" (Urllib.fragment parsed_id) then
    fragment_parts <~ Urllib.urlparse (Urllib.fragment parsed_id) ;;
    Return (parsed_id, Some (Urllib.path fragment_parts),
            Some (qs_params (Urllib.parse_qs (Urllib.query fragment_parts))))
  else if negb (String.eqb (Urllib.fragment parsed_id) "") then
    Return (parsed_id, Some (Urllib.fragment parsed_id), None)
  else if negb (String.eqb (Urllib.query parsed_id) "") then
    Return (parsed_id, None, Some (qs_params (Urllib.parse_qs (Urllib.query parsed_id))))
  else Return (parsed_id, None, None).

Definition version_params_of (version : pyversion) : Outcome (option (string * param_value)) :=
  match version with
  | VerNone => Return None
  | VerInt z => Return (Some ("rev", PInt z))
  | VerStr s => Return (Some ("tag", PStr s))
  | VerOther => Raise (Exn RetrievalError "incorrect 'version'")
  end.

Definition merge_version (version_params : option (string * param_value))
           (query_params : option Params) : option Params :=
  match version_params with
  | Some (k, v) =>
      Some (dict_set k v (match query_params with Some d => d | None => [] end))
  | None => query_params
  end.

Definition id_without_query_of (parsed_id : Urllib.ParseResult)
           (fragment : option string) : string :=
  Urllib.scheme parsed_id ++ "://" ++ Urllib.netloc parsed_id ++ Urllib.path parsed_id
  ++ match fragment with Some f => "#" ++ f | None => "" end.

(** [nexus_path] and the [url] of the [except] branch of [retrieve]. *)
Definition nexus_path (cross_bucket : bool) : string :=
  let svc := service self in
  if cross_bucket then service_endpoint svc ++ "/resources/" else url_resources svc.

Definition fallback_url (id_without_query : string) (cross_bucket retrieve_source : bool)
  : string :=
  if retrieve_source && negb cross_bucket
  then PyStr.join "/" [id_without_query; "source"]
  else id_without_query.

(** The [try] of [retrieve] and its [except RetrievalError]: the response
    kept, and the value of [url_resource] after it. *)
Definition first_lookup (id_ id_without_query url url_resource : string)
           (query_params : option Params) (cross_bucket retrieve_source : bool)
  : M (Response * string) :=
  let svc := service self in
  try_except
    (response_ <- send (get url query_params) ;;
     lift (catch_http_error_nexus svc response_ RetrievalError) ;;;
     ret (response_, url_resource))
    (is_kind RetrievalError)
    (fun er =>
       (* Try to use the id as it was given *)
       if PyStr.startswith id_ (nexus_path cross_bucket) then
         let url_resource := id_without_query in
         let url := fallback_url id_without_query cross_bucket retrieve_source in
         response_ <- send (get url query_params) ;;
         lift (catch_http_error_nexus svc response_ RetrievalError) ;;;
         ret (response_, url_resource)
       else raise er).

(** The second request of [retrieve]; [None] stands for
    [response_metadata = True]. *)
Definition fetch_metadata (response_ : Response) (url_resource : string)
           (query_params : option Params) (cross_bucket retrieve_source : bool)
  : M (option Response) :=
  let svc := service self in
  if retrieve_source && negb cross_bucket then
    response_metadata <- send (get url_resource query_params) ;;
    lift (catch_http_error_nexus svc response_metadata RetrievalError) ;;;
    ret (Some response_metadata)
  else if retrieve_source && cross_bucket && ok response_ then
    j <- lift (response_json response_) ;;
    has_self <- lift (json_contains "_self" j) ;;
    if (has_self : bool) then
      self_ <- lift (json_getitem "_self" j) ;;
      self_ <- lift (json_str self_) ;;
      response_metadata <- send (get (PyStr.join "/" [self_; "source"]) query_params) ;;
      lift (catch_http_error_nexus svc response_ RetrievalError) ;;;
      ret (Some response_metadata)
    else ret None
  else ret None.

Definition metadata_json (response_metadata : option Response) : Outcome json :=
  match response_metadata with
  | Some rm => response_json rm
  | None => Raise (Exn AttributeError "'bool' object has no attribute 'json'")
  end.

(** The end of [retrieve]: the resource built from the responses, or
    [None] when the guard [if response and response_metadata] fails. *)
Definition build_resource (response_ : Response) (response_metadata : option Response)
           (cross_bucket retrieve_source : bool) : Outcome (option Resource) :=
  let svc := service self in
  if ok response_ && match response_metadata with Some rm => ok rm | None => true end
  then
    '(data, resource_) <~ as_value_error
        (data <~ response_json response_ ;;
         resource_ <~ to_resource svc data ;;
         Return (data, resource_)) ;;
    '(data, resource_) <~ as_value_error
        (data <~ (if retrieve_source && negb cross_bucket
                  then metadata_json response_metadata else Return data) ;;
         resource_ <~ (if retrieve_source && cross_bucket
                       then j <~ metadata_json response_metadata ;; to_resource svc j
                       else Return resource_) ;;
         Return (data, resource_)) ;;
    Return (Some (synchronize_resource svc resource_ (inl data) "retrieve" true true))
  else Return None.

(** [url_resource] and [url] of [retrieve], before the [try]. *)
Definition resource_url (id_without_query : string) (cross_bucket : bool) : string :=
  let svc := service self in
  let url_base := if cross_bucket then url_resolver svc else url_resources svc in
  PyStr.join "/" [url_base; "_"; Urllib.quote_plus id_without_query].

Definition lookup_url (id_without_query : string) (cross_bucket retrieve_source : bool)
  : string :=
  let url_resource := resource_url id_without_query cross_bucket in
  if retrieve_source && negb cross_bucket
  then PyStr.join "/" [url_resource; "source"]
  else url_resource.

Definition retrieve (id_ : string) (version : pyversion)
           (cross_bucket retrieve_source : bool) : M (option Resource) :=
  version_params <- lift (version_params_of version) ;;
  '(parsed_id, fragment_, query_params) <- lift (split_identifier id_) ;;
  let query_params := merge_version version_params query_params in
  let id_without_query := id_without_query_of parsed_id fragment_ in
  let url_resource := resource_url id_without_query cross_bucket in
  let url := lookup_url id_without_query cross_bucket retrieve_source in
  '(response_, url_resource) <-
    first_lookup id_ id_without_query url url_resource query_params
                 cross_bucket retrieve_source ;;
  response_metadata <-
    fetch_metadata response_ url_resource query_params cross_bucket retrieve_source ;;
  lift (build_resource response_ response_metadata cross_bucket retrieve_source).

(** ** Search *)

Definition json_str_or_type_error (v : json) : Outcome string :=
  match v with
  | JStr s => Return s
  | _ => Raise (Exn TypeError "sequence item 2: expected str instance")
  end.

(** [bool(filters)] *)
Definition filters_truthy (filters : pyfilters) : M bool :=
  match filters with
  | FNone => ret false
  | FList r => l <- deref r ;; ret (match l with [] => false | _ => true end)
  | FTuple items => ret (match items with [] => false | _ => true end)
  end.

(** The normalisation of [filters]: a list whose first element is a
    mapping is replaced by the new list [create_filters_from_dict] builds,
    another iterable by [list(filters)]; a list of filters is kept as the
    object it is. *)
Definition normalize_filters (filters : pyfilters) : M pyfilters :=
  t <- filters_truthy filters ;;
  if (t : bool) then
    match filters with
    | FList r =>
        l <- deref r ;;
        match l with
        | ItemNone :: _ => raise (Exn ValueError "Filters cannot be None")
        | ItemDict d :: _ =>
            fs <- lift (create_filters_from_dict self d) ;;
            r' <- alloc (map ItemFilter fs) ;;
            ret (FList r')
        | _ => ret filters
        end
    | FTuple items => r' <- alloc items ;; ret (FList r')
    | FNone => ret filters
    end
  else ret filters.

(** [filters.append(f)] *)
Definition filters_append (filters : pyfilters) (f : Filter) : M unit :=
  match filters with
  | FList r => list_append r (ItemFilter f)
  | FNone => raise (Exn AttributeError "'NoneType' object has no attribute 'append'")
  | FTuple _ => raise (Exn AttributeError "'tuple' object has no attribute 'append'")
  end.

Definition filters_content (filters : pyfilters) : M (option (list filter_item)) :=
  match filters with
  | FList r => l <- deref r ;; ret (Some l)
  | FTuple items => ret (Some items)
  | FNone => ret None
  end.

(** [_sparql] *)
Definition _sparql (query_ : string) : M (list Resource) :=
  let svc := service self in
  response_ <- send (mkRequest POST (sparql_endpoint_url svc) None (TextBody query_)) ;;
  lift (catch_http_error_nexus svc response_ QueryingError) ;;;
  data <- lift (response_json response_) ;;
  lift (build_resource_from_response self query_ data model_or_service_context).

(** [[... for hit in results["hits"]["hits"]]] *)
Definition hits_to_resources (hits : json) : Outcome (list Resource) :=
  let svc := service self in
  match hits with
  | JArr l =>
      fold_right (fun hit acc =>
                    r <~ hit_to_resource svc hit ;;
                    rest <~ acc ;;
                    Return (r :: rest)) (Return []) l
  | JObj [] | JStr EmptyString => Return []
  | JObj _ | JStr _ => Raise (Exn TypeError "string indices must be integers")
  | _ => Raise (Exn TypeError "object is not iterable")
  end.

(** [_elastic] *)
Definition _elastic (query_ : string) : M (list Resource) :=
  let svc := service self in
  response_ <- send (mkRequest POST (elastic_endpoint_url svc) None (TextBody query_)) ;;
  lift (catch_http_error_nexus svc response_ QueryingError) ;;;
  results <- lift (response_json response_) ;;
  hits <- lift (json_getitem "hits" results) ;;
  hits <- lift (json_getitem "hits" hits) ;;
  lift (hits_to_resources hits).

(** [self.sparql] and [self.elastic] of the [Store] archetype: the query
    is prepared with [debug], [limit] and [offset] and handed over. *)
Definition sparql (query_ : string) (debug limit offset : json) : M (list Resource) :=
  q <- lift (prepare_query self query_ debug limit offset) ;;
  _sparql q.

Definition elastic (query_ : string) (debug limit offset : json) : M (list Resource) :=
  q <- lift (prepare_query self query_ debug limit offset) ;;
  _elastic q.

(** The project the search is restricted to, if any. *)
Definition project_scope (bucket_ cross_bucket : json) : Outcome (option string) :=
  if truthy bucket_ then
    b <~ json_str_or_type_error bucket_ ;;
    Return (Some (PyStr.join "/" [endpoint self; "projects"; b]))
  else if negb (truthy cross_bucket) then
    Return (Some (PyStr.join "/" [endpoint self; "projects"; organisation self; project self]))
  else Return None.

(** One result of the fetch that follows a SPARQL query. *)
Definition search_result (retrieve_source : bool) (result : BatchResult)
  : Outcome Resource :=
  let svc := service self in
  store_metadata_response <~
    (if retrieve_source
     then j <~ as_json self (resource result) ;; Return (inl j)
     else Return (response result)) ;;
  r <~ as_value_error
         (match response result with
          | inl d => to_resource svc d
          | inr e => Raise (Exn TypeError (message e))
          end) ;;
  Return (synchronize_resource svc r store_metadata_response "search" true false).

Definition search_sparql (filters : pyfilters) (params : SearchParams)
           (debug limit offset deprecated cross_bucket bucket_
              search_in_graph distinct includes excludes : json)
  : M (list Resource) :=
  let svc := service self in
  if truthy includes || truthy excludes then
    raise (Exn ValueError
             "Field inclusion and exclusion are not supported when using SPARQL")
  else
    scope <- lift (project_scope bucket_ cross_bucket) ;;
    let project_filter :=
      match scope with
      | Some p => "Filter (?_project = <" ++ p ++ ">)"
      | None => ""
      end in
    content_ <- filters_content filters ;;
    '(query_statements, query_filters) <-
      lift (sparql_build self (model_context self) content_) ;;
    let retrieve_source := truthy (get_param (p_retrieve_source params) (JBool true)) in
    '(_vars, store_metadata_statements, query_statements, query_filters) <-
      (if retrieve_source then
         stmts <- lift (fold_right
                          (fun k acc =>
                             i <~ metadata_term_id svc k ;;
                             rest <~ acc ;;
                             Return (("<" ++ i ++ "> ?" ++ k) :: rest))
                          (Return []) (store_metadata_keys svc)) ;;
         let deprecated_filter :=
           "Filter (?_deprecated = " ++ format_boolean deprecated ++ ")" in
         ret ("?id" :: map (fun k => "?" ++ k) (store_metadata_keys svc), stmts,
              query_statements, (query_filters ++ [deprecated_filter])%list)
       else
         let deprecated_statement :=
           "<" ++ deprecated_property svc ++ "> " ++ format_boolean deprecated in
         ret (["?id"; "?_project"; "?_rev"],
              ["<" ++ revision_property svc ++ "> ?_rev";
               "<" ++ project_property svc ++ "> ?_project"],
              (query_statements ++ [deprecated_statement])%list,
              query_filters)) ;;
    let query_statements := (query_statements ++ store_metadata_statements)%list in
    let statements := PyStr.join (";" ++ nl ++ " ") query_statements in
    let _filters := PyStr.join nl [PyStr.join ("." ++ nl ++ " ") query_filters; project_filter] in
    let query_ :=
      _create_select_query _vars ("?id " ++ statements ++ " . " ++ nl ++ " " ++ _filters)
        (truthy distinct) (truthy search_in_graph) in
    resources <- sparql query_ debug limit offset ;;
    let params_retrieve :=
      dict_set "retrieve_source" (PBool retrieve_source) (params_get_or_empty svc "retrieve") in
    results <- batch_request svc resources FETCH None QueryingError None params_retrieve ;;
    mapM (fun result => lift (search_result retrieve_source result)) results.

Definition search_elastic (filters : pyfilters)
           (debug limit offset deprecated cross_bucket bucket_ includes excludes : json)
  : M (list Resource) :=
  let svc := service self in
  view <- on_log (fetch_elastic_view svc) ;;
  has_mapping <- lift (json_contains "mapping" view) ;;
  elastic_mapping <- (if (has_mapping : bool)
                      then m <- lift (json_getitem "mapping" view) ;; ret (Some m)
                      else ret None) ;;
  filters_append filters
    (mkFilter [match deprecated_term_name svc with Some n => n | None => "_deprecated" end]
              "__eq__" deprecated) ;;;
  _project <- lift (project_scope bucket_ cross_bucket) ;;
  (match _project with
   | Some (String _ _ as p) =>
       filters_append filters
         (mkFilter [match project_term_name svc with Some n => n | None => "_project" end]
                   "__eq__" (JStr p))
   | _ => ret tt
   end) ;;;
  content_ <- filters_content filters ;;
  query_ <- lift (es_build self elastic_mapping (model_context self)
                    (match content_ with Some l => l | None => [] end)
                    (default_str_keyword_field svc) includes excludes) ;;
  elastic (dump_query self query_) debug limit offset.

Definition search (filters : pyfilters) (params : SearchParams) : M (list Resource) :=
  let svc := service self in
  match model_context self with
  | None => raise (Exn ValueError "context model missing")
  | Some _ =>
      let debug := get_param (p_debug params) (JBool false) in
      let limit := get_param (p_limit params) (JNum 100) in
      let offset := get_param (p_offset params) JNull in
      let deprecated := get_param (p_deprecated params) (JBool false) in
      let cross_bucket := get_param (p_cross_bucket params) (JBool false) in
      let bucket_ := get_param (p_bucket params) JNull in
      let search_in_graph := get_param (p_search_in_graph params) (JBool true) in
      let distinct := get_param (p_distinct params) (JBool false) in
      let includes := get_param (p_includes params) JNull in
      let excludes := get_param (p_excludes params) JNull in
      let search_endpoint :=
        get_param (p_search_endpoint params) (JStr (sparql_endpoint_type svc)) in
      if negb (is_str (sparql_endpoint_type svc) search_endpoint
               || is_str (elastic_endpoint_type svc) search_endpoint)
      then raise (Exn ValueError "The provided search_endpoint value is not supported.")
      else if p_filters params
      then raise (Exn ValueError
                    "A 'filters' key was provided as params. Filters should be provided as iterable.")
      else if truthy bucket_ && negb (truthy cross_bucket)
      then lift (not_supported "bucket=True")
      else
        filters <- normalize_filters filters ;;
        if is_str (sparql_endpoint_type svc) search_endpoint
        then search_sparql filters params debug limit offset deprecated cross_bucket
               bucket_ search_in_graph distinct includes excludes
        else search_elastic filters debug limit offset deprecated cross_bucket
               bucket_ includes excludes
  end.

End Transport.

(** ** [rewrite_uri] *)

(** [parts[1]] *)
Definition second (parts : list string) : Outcome string :=
  match parts with
  | _ :: x :: _ => Return x
  | _ => Raise (Exn IndexError "list index out of range")
  end.

Definition resolve_id (context : Context) (id_ : string) : Outcome string :=
  if negb (is_valid_url id_) then resolve_iri context id_ else Return id_.

(** [resolved + groups[1]] and [''.join([resolved, groups[1]])] *)
Definition concat_resolved (resolved : option string) (name : string) : Outcome string :=
  match resolved with
  | Some r => Return (r ++ name)
  | None => Raise (Exn TypeError "unsupported operand type(s) for +: 'NoneType' and 'str'")
  end.

(** [url_base] of [rewrite_uri] *)
Definition uri_base (self : Store) (is_file : bool) : string :=
  if is_file then PyStr.join "/" [endpoint self; "files"; bucket self]
  else PyStr.join "/" [endpoint self; "resources"; bucket self].

(** The part of [rewrite_uri] after the schema prefix has been looked at:
    [url] is the decoded address, with its schema expanded if it had a
    prefixed one. *)
Definition rewrite_plain (self : Store) (uri url : string) (context : Context)
           (is_file : bool) : Outcome string :=
  let url_base := uri_base self is_file in
  if PyStr.startswith url url_base then
    schema_and_id <~ second (PyStr.split url_base url) ;;
    let id_ :=
      if PyStr.contains "/_/" schema_and_id
      then PyStr.last_part (PyStr.split "/_/" schema_and_id)
      else PyStr.last_part (PyStr.split "/" schema_and_id) in
    resolved_id <~ resolve_id context id_ ;;
    if PyStr.contains resolved_id schema_and_id then Return uri
    else Return (PyStr.replace url id_ (Urllib.quote_plus resolved_id))
  else if negb is_file && negb (PyStr.contains "/_/" url)
  then Return (PyStr.join "/" [url_base; "_"; Urllib.quote_plus url])
  else Return (PyStr.join "/" [url_base; Urllib.quote_plus url]).

Definition rewrite_uri (self : Store) (uri : string) (context : Context)
           (is_file : bool) : Outcome string :=
  let raw_url := Urllib.unquote uri in
  let url_base := uri_base self is_file in
  match Re.re_match Re.prefixed_schema raw_url with
  | Some groups =>
      let g0 := nth 0 groups "" in
      let g1 := nth 1 groups "" in
      let old_schema := g0 ++ ":" ++ g1 in
      let resolved := expand context g0 in
      if PyStr.startswith raw_url url_base then
        extended_schema <~ concat_resolved resolved g1 ;;
        let url := PyStr.replace raw_url old_schema (Urllib.quote_plus extended_schema) in
        schema_and_id <~ second (PyStr.split (url_base ++ "/") url) ;;
        let id_ :=
          PyStr.last_part
            (PyStr.split (Urllib.quote_plus extended_schema ++ "/") schema_and_id) in
        resolved_id <~ resolve_id context id_ ;;
        Return (PyStr.replace url id_ (Urllib.quote_plus resolved_id))
      else
        extended_schema <~ concat_resolved resolved g1 ;;
        rewrite_plain self uri (PyStr.replace raw_url old_schema extended_schema)
          context is_file
  | None => rewrite_plain self uri raw_url context is_file
  end.

(** ** [_initialize_service] *)

(** The arguments [Service(...)] is built with. *)
Record ServiceConfig : Type := mkServiceConfig {
  cfg_endpoint : option string;
  cfg_org : string;
  cfg_prj : string;
  cfg_token : option string;
  cfg_model_context : option Context;
  cfg_max_connection : json;
  cfg_searchendpoints : option json;
  cfg_store_context : json;
  cfg_store_local_context : json;
  cfg_namespace : json;
  cfg_project_property : json;
  cfg_deprecated_property : json;
  cfg_content_type : json;
  cfg_accept : json;
  cfg_files_upload_config : json;
  cfg_files_download_config : json;
  cfg_params : json
}.

(** [d.pop(key, default)] and [d.get(key, default)], read only. *)
Definition config_get (key : string) (default : json) (d : list (string * json)) : json :=
  match lookup key d with Some v => v | None => default end.

(** [v.get(key, default)] on a value that has to be a mapping. *)
Definition json_get (key : string) (default : json) (v : json) : Outcome json :=
  match v with
  | JObj fields => Return (config_get key default fields)
  | _ => Raise (Exn AttributeError "object has no attribute 'get'")
  end.

(** [self.organisation, self.project = self.bucket.split("/")] *)
Definition split_bucket (bucket_ : option string) : Outcome (string * string) :=
  match bucket_ with
  | None => Raise (Exn AttributeError "'NoneType' object has no attribute 'split'")
  | Some b =>
      match PyStr.split "/" b with
      | [org; prj] => Return (org, prj)
      | [] | [_] => Raise (Exn ValueError "not enough values to unpack (expected 2, got 1)")
      | _ => Raise (Exn ValueError "too many values to unpack (expected 2)")
      end
  end.

(** [if max_connection <= 0: raise ValueError(...)] *)
Definition check_max_connection (max_connection_ : json) : Outcome unit :=
  match max_connection_ with
  | JNum z =>
      if (z <=? 0)%Z
      then Raise (Exn ValueError
                    ("max_connection value should be great than 0 but "
                       ++ PyStr.str_of_Z z ++ " is provided"))
      else Return tt
  | JBool true => Return tt
  | JBool false =>
      Raise (Exn ValueError
               "max_connection value should be great than 0 but False is provided")
  | _ => Raise (Exn TypeError "'<=' not supported between instances")
  end.

Definition NEXUS_CONTEXT_FALLBACK_entry (fallback : json) : json :=
  JObj [("iri", fallback); ("local_iri", fallback)].

(** The [try] block of [_initialize_service]; the fall-back values of the
    [Service] class are taken as they are given. *)
Definition read_store_config (bucket_ : option string) (endpoint_ token : option string)
           (searchendpoints : option json) (model_context_ : option Context)
           (context_fallback namespace_fallback project_fallback deprecated_fallback : json)
           (store_config : list (string * json)) : Outcome ServiceConfig :=
  '(org, prj) <~ split_bucket bucket_ ;;
  let max_connection_ := config_get "max_connection" (JNum 50) store_config in
  _ok <~ check_max_connection max_connection_ ;;
  (let store_context_config := config_get "vocabulary" (JObj []) store_config in
   nexus_metadata_context <~
     json_get "metadata" (NEXUS_CONTEXT_FALLBACK_entry context_fallback) store_context_config ;;
   nexus_context_iri <~ json_get "iri" JNull nexus_metadata_context ;;
   nexus_context_local_iri <~ json_get "local_iri" JNull nexus_metadata_context ;;
   namespace <~ json_get "namespace" namespace_fallback store_context_config ;;
   project_property_ <~ json_get "project_property" project_fallback store_context_config ;;
   deprecated_property_ <~
     json_get "deprecated_property" deprecated_fallback store_context_config ;;
   let content_type := config_get "Content-Type" (JStr "application/ld+json") store_config in
   let accept := config_get "Accept" (JStr "application/ld+json") store_config in
   let files_upload_config :=
     config_get "files_upload" (JObj [("Accept", JStr "application/ld+json")]) store_config in
   let files_download_config :=
     config_get "files_download" (JObj [("Accept", JStr "*/*")]) store_config in
   let params_ := config_get "params" (JObj []) store_config in
   Return (mkServiceConfig endpoint_ org prj token model_context_ max_connection_
             searchendpoints nexus_context_iri nexus_context_local_iri namespace
             project_property_ deprecated_property_ content_type accept
             files_upload_config files_download_config params_)).

(** [except Exception as ve: raise ValueError(f"Store configuration error: {ve}")] *)
Definition as_configuration_error {A : Type} (o : Outcome A) : Outcome A :=
  match o with
  | Raise ve => Raise (Exn ValueError ("Store configuration error: " ++ message ve))
  | r => r
  end.

(** [_initialize_service]; [new_service] is the constructor [Service(...)],
    which reads the project and its contexts from the store. *)
Definition _initialize_service (new_service : ServiceConfig -> M Service)
           (bucket_ : option string) (endpoint_ token : option string)
           (searchendpoints : option json) (model_context_ : option Context)
           (context_fallback namespace_fallback project_fallback deprecated_fallback : json)
           (store_config : list (string * json)) : M Service :=
  cfg <- lift (as_configuration_error
                 (read_store_config bucket_ endpoint_ token searchendpoints model_context_
                    context_fallback namespace_fallback project_fallback deprecated_fallback
                    store_config)) ;;
  match cfg_params cfg with
  | JObj _ => new_service cfg
  | _ => raise (Exn TypeError "argument after ** must be a mapping")
  end.

(** ** The operations on one resource *)

(** [d.get(key)] on a dict kept in insertion order. *)
Fixpoint dict_get {V : Type} (key : string) (d : list (string * V)) : option V :=
  match d with
  | [] => None
  | (k, v) :: rest => if String.eqb k key then Some v else dict_get key rest
  end.

Section OneResource.

Variable server : list Request -> Request -> Response.
Variable self : Store.

(** [Service._prepare_uri] and [Service._prepare_tag], which are not part of
    these sources: the address of the resource (and the body of a tag), and
    the parameters that carry its revision. *)
Variable _prepare_uri : Resource -> option string -> Outcome (string * Params).
Variable _prepare_tag : Resource -> string -> Outcome (string * json * Params).

(** The request of [_update_one]: the configured parameters of the
    operation, updated with the ones [_prepare_uri] gives. *)
Definition update_request (r : Resource) (schema_id : option string) : Outcome Request :=
  let svc := service self in
  data <~ as_jsonld self r (model_or_service_context self) ;;
  '(url, params) <~ _prepare_uri r schema_id ;;
  let params_update := dict_update (params_get_or_empty svc "update") params in
  Return (mkRequest PUT url (Some params_update) (JsonBody data)).

Definition _update_one (schema_id : option string) : RM unit :=
  let svc := service self in
  r <- get_resource ;;
  req <- lift (update_request r schema_id) ;;
  resp <- on_world (send server req) ;;
  lift (catch_http_error_nexus svc resp UpdatingError) ;;;
  j <- lift (response_json resp) ;;
  modify_resource (fun r => sync_metadata svc r j).

(** The request of [_tag_one]. *)
Definition tag_request (r : Resource) (value_ : string) : Outcome Request :=
  let svc := service self in
  '(url, data, rev_param) <~ _prepare_tag r value_ ;;
  let params_tag := dict_update (params_get_or_empty svc "tag") rev_param in
  Return (mkRequest POST url (Some params_tag) (JsonBody data)).

Definition _tag_one (value_ : string) : RM unit :=
  let svc := service self in
  r <- get_resource ;;
  req <- lift (tag_request r value_) ;;
  resp <- on_world (send server req) ;;
  lift (catch_http_error_nexus svc resp TaggingError) ;;;
  j <- lift (response_json resp) ;;
  modify_resource (fun r => sync_metadata svc r j).

(** The request of [_deprecate_one]: without configured parameters, the
    ones [_prepare_uri] gives are sent as they are. *)
Definition deprecate_request (r : Resource) : Outcome Request :=
  let svc := service self in
  '(url, params) <~ _prepare_uri r None ;;
  let params_deprecate :=
    match params_get svc "deprecate" with
    | Some configured => dict_update configured params
    | None => params
    end in
  Return (mkRequest DELETE url (Some params_deprecate) NoBody).

Definition _deprecate_one : RM unit :=
  let svc := service self in
  r <- get_resource ;;
  req <- lift (deprecate_request r) ;;
  resp <- on_world (send server req) ;;
  lift (catch_http_error_nexus svc resp DeprecationError) ;;;
  j <- lift (response_json resp) ;;
  modify_resource (fun r => sync_metadata svc r j).

(** [_retrieve_filename] *)
Definition _retrieve_filename (id_ : string) : M (json * json) :=
  let svc := service self in
  resp <- send server (mkRequest GET id_ None NoBody) ;;
  lift (catch_http_error_nexus svc resp DownloadingError) ;;;
  metadata <- lift (response_json resp) ;;
  filename <- lift (json_getitem "_filename" metadata) ;;
  media_type <- lift (json_getitem "_mediaType" metadata) ;;
  ret (filename, media_type).

End OneResource.

(** ** Downloads *)

(** [parts[-1 - n]] *)
Definition nth_from_end (n : nat) (parts : list string) : Outcome string :=
  match nth_error (rev parts) n with
  | Some x => Return x
  | None => Raise (Exn IndexError "list index out of range")
  end.

(** [store_metadata._project], ready for its [split]: the metadata is a
    mapping read through its attributes, and the project a [str]. *)
Definition metadata_project (store_metadata : json) : Outcome string :=
  match store_metadata with
  | JObj fields =>
      match lookup "_project" fields with
      | Some (JStr p) => Return p
      | Some _ => Raise (Exn AttributeError "object has no attribute 'split'")
      | None => Raise (Exn AttributeError "object has no attribute '_project'")
      end
  | _ => Raise (Exn AttributeError "object has no attribute '_project'")
  end.

(** The files written: the bytes under each path. *)
Definition Disk : Type := list (string * string).

(** Code that sends requests and writes files. *)
Definition FM (A : Type) : Type := ST (World * Disk) A.

Definition in_world {A : Type} (m : M A) : FM A :=
  fun s =>
    let '(o, w') := m (fst s) in (o, (w', snd s)).

(** [with open(path, "wb") as f: f.write(data)], on a path that can be
    written. *)
Definition write_file (path_ data : string) : FM unit :=
  fun s => (Return tt, (fst s, dict_set path_ data (snd s))).

(** [zip(urls, paths, store_metadata, buckets)] *)
Fixpoint zip4 {A B C D : Type} (a : list A) (b : list B) (c : list C) (d : list D)
  : list (A * B * C * D) :=
  match a, b, c, d with
  | x :: a', y :: b', z :: c', u :: d' => (x, y, z, u) :: zip4 a' b' c' d'
  | _, _, _, _ => []
  end.

Section Downloads.

Variable server : list Request -> Request -> Response.
Variable self : Store.

(** The attributes of the [Service] object the downloads read besides the
    ones above, and the bytes of the body of a response. *)
Variable url_base_files : string.
Variable service_organisation : string.
Variable service_project : string.
Variable response_content : Response -> string.

Definition _prepare_download_one (url : string) (store_metadata : option json)
           (cross_bucket : bool) : Outcome (string * string) :=
  '(org, project_) <~
    (if cross_bucket then
       match store_metadata with
       | Some m =>
           p <~ metadata_project m ;;
           project_ <~ nth_from_end 0 (PyStr.split "/" p) ;;
           org <~ nth_from_end 1 (PyStr.split "/" p) ;;
           Return (org, project_)
       | None =>
           Raise (Exn ValueError
                    "Downloading non registered file is not allowed when cross_bucket is set to True")
       end
     else Return (service_organisation, service_project)) ;;
  let file_id := PyStr.last_part (PyStr.split "/" url) in
  let file_id := Urllib.unquote file_id in
  if (String.length file_id <? 1)%nat
  then Raise (Exn DownloadingError ("Invalid file url: " ++ url))
  else
    let url_base :=
      if PyStr.startswith file_id "http" then url
      else
        (* this is a hack since _self and _id have the same uuid *)
        PyStr.join "/" [url_base_files; Urllib.quote_plus org;
                        Urllib.quote_plus project_; Urllib.quote_plus file_id] in
    Return (url_base, org ++ "/" ++ project_).

(** [_download_one]; [content_type] only sets the [Accept] header, which the
    requests of this model do not carry, and the other arguments left out
    are not read. *)
Definition _download_one (url path_ bucket_ : string) : FM unit :=
  let svc := service self in
  let params_download := params_get_or_empty svc "download" in
  resp <- in_world (send server (mkRequest GET url (Some params_download) NoBody)) ;;
  lift (catch_http_error resp DownloadingError
          (fun e => "Downloading from bucket " ++ bucket_ ++ " failed: "
                      ++ _error_message svc e)) ;;;
  write_file path_ (response_content resp).

(** One task of [_download_many]. *)
Definition _download (item : string * string * option json * string) : FM unit :=
  let svc := service self in
  let '(url, path_, _, bucket_) := item in
  let params_download := params_get_or_empty svc "download" in
  resp <- in_world (send server (mkRequest GET url (Some params_download) NoBody)) ;;
  lift (catch_http_error resp DownloadingError
          (fun e => "Downloading url " ++ url ++ " from bucket " ++ bucket_
                      ++ " failed: " ++ _error_message svc e)) ;;;
  write_file path_ (response_content resp).

(** [_download_many]: as for the uploads, the tasks are run in the order of
    the lists, and the first exception is the one of the batch. *)
Definition _download_many (urls paths : list string) (store_metadata : list (option json))
           (buckets : list string) : FM (list unit) :=
  mapM _download (zip4 urls paths store_metadata buckets).

End Downloads.

(** ** The contexts of the store *)

Section Contexts.

(** Of the [Context] class and of the [Store] archetype, which are not part
    of these sources: the document of a context, its prefixes and its
    vocabulary, and [_context_to_dict].  A context object is true. *)
Variable document : Context -> json.
Variable prefixes : Context -> option (list (string * string)).
Variable vocab : Context -> option string.
Variable _context_to_dict : Context -> list (string * json).

Definition reformat_contexts (model_context_ : Context) (metadata_context : option Context)
  : list (string * json) * option (list (string * string)) * option string :=
  let ctx := [] in
  let ctx :=
    match metadata_context with
    | Some m =>
        if truthy (document m) then dict_update ctx (_context_to_dict m) else ctx
    | None => ctx
    end in
  let ctx := dict_update ctx (_context_to_dict model_context_) in
  let prefixes_ := prefixes model_context_ in
  (ctx, prefixes_, vocab model_context_).

End Contexts.

(** ** Loading from a file, an address or a text

    [load_file_as_byte] of [kgforge/core/commons/files.py] and
    [Mapping.load] of [kgforge/core/archetypes/mapping.py]. *)

(** What is there to be read: the files that exist and can be read, with
    what they hold; for another path, the [OSError] that the look at the
    path raises, if it raises one ([Path.is_file] answers [False] for a
    path that does not exist, and raises for one it cannot examine: a
    component that is too long, a directory that may not be searched); and
    the answer to a [requests.get]: the reason of the [RequestException]
    when the request itself raises (no such address, no connection), else
    the status and the body of the response. *)
Record Sources : Type := mkSources {
  file_content : string -> option string;
  file_error : string -> option exn;
  http_get : string -> string + (Z * string);
  (* [str(e)] of the [HTTPError] of [raise_for_status] *)
  http_error : Z -> string -> string
}.

(** Code that loads: the state is the list of the addresses requested. *)
Definition Fetch (A : Type) : Type := ST (list string) A.

(** [requests.get(url)] followed by [response.raise_for_status()]: the
    body, or the reason of the [RequestException]. *)
Definition get_text (src : Sources) (url : string) : list string -> (string + string) * list string :=
  fun requested =>
    (match http_get src url with
     | inl reason => inl reason
     | inr (status, body) =>
         if (400 <=? status)%Z && (status <? 600)%Z
         then inl (http_error src status url)
         else inr body
     end, (requested ++ [url])%list).

(** [filepath.is_file()] and, for a file, [filepath.read_bytes()]: the
    bytes of the file, [None] for a path that is no file, or the [OSError]
    of a path that cannot be examined.  Both stand outside the [try] of
    [load_file_as_byte]. *)
Definition read_if_file (src : Sources) (filepath : string) : Outcome (option string) :=
  match file_content src filepath with
  | Some data => Return (Some data)
  | None =>
      match file_error src filepath with
      | Some e => Raise e
      | None => Return None
      end
  end.

Definition load_file_as_byte (src : Sources) (source : string) : Fetch string :=
  fun requested =>
    match read_if_file src source with
    | Raise e => (Raise e, requested)
    | Return (Some data) => (Return data, requested)
    | Return None =>
        match get_text src source requested with
        | (inr data, requested') => (Return data, requested')
        | (inl re, requested') =>
            (Raise (Exn AttributeError
                      ("Failed to load the configuration from " ++ source ++ ". "
                         ++ "The provided source is not a valid file path or URL: "
                         ++ re)),
             requested')
        end
    end.

Module Mapping.

Inductive MappingType : Type := URL | FILE | STR.

(** The [mapping_type] argument of [load]: [None], a member of
    [MappingType], or anything else. *)
Inductive mapping_type_arg : Type :=
| TypeNone
| TypeOf (t : MappingType)
| TypeOther.

(** What [load] raises: its own exceptions, or the one that a method of the
    implementation ([_load_rules], [load_str]) raised. *)
Inductive load_exn : Type :=
| FileNotFoundError
| RequestException (reason : string)
| MappingLoadError (msg : string)
| NotImplementedError
| Raised (e : exn).

Inductive Loaded (A : Type) : Type :=
| Got (a : A)
| Failed (e : load_exn).
Arguments Got {A} a.
Arguments Failed {A} e.

Section Implementation.

(** The implementation of the archetype: the rules a mapping is made of,
    read from a text by [_load_rules], and [load_str].  The exceptions they
    raise are taken to be neither an [OSError] nor a [RequestException]. *)
Variable Rules : Type.
Variable _load_rules : string -> Outcome Rules.
Variable load_str : string -> bool -> Outcome (option Rules).

Variable src : Sources.

(** [cls(mapping)] *)
Definition cls (mapping_ : string) : Loaded (option Rules) :=
  match _load_rules mapping_ with
  | Return rules => Got (Some rules)
  | Raise e => Failed (Raised e)
  end.

(** An [OSError] of [is_file] is caught with the one [load_file] raises
    itself: there is a text only for a file that is read. *)
Definition load_file (filepath : string) (raise_ex : bool)
  : list string -> Loaded (option Rules) * list string :=
  fun requested =>
    match file_content src filepath with
    | Some text => (cls text, requested)
    | None =>
        (if raise_ex then Failed FileNotFoundError else Got None, requested)
    end.

Definition load_url (url : string) (raise_ex : bool)
  : list string -> Loaded (option Rules) * list string :=
  fun requested =>
    match get_text src url requested with
    | (inr text, requested') => (cls text, requested')
    | (inl e, requested') =>
        (if raise_ex then Failed (RequestException e) else Got None, requested')
    end.

Definition load_str_ (source : string) (raise_ex : bool)
  : list string -> Loaded (option Rules) * list string :=
  fun requested =>
    (match load_str source raise_ex with
     | Return r => Got r
     | Raise e => Failed (Raised e)
     end, requested).

(** [e = e if e is not None else next(...)] *)
Definition or_else (first : Loaded (option Rules) * list string)
           (next : list string -> Loaded (option Rules) * list string)
  : Loaded (option Rules) * list string :=
  match first with
  | (Got None, requested) => next requested
  | r => r
  end.

Definition load (source : string) (mapping_type : mapping_type_arg)
  : list string -> Loaded (option Rules) * list string :=
  fun requested =>
    match mapping_type with
    | TypeNone =>
        let e := load_file source false requested in
        let e := or_else e (load_url source false) in
        let e := or_else e (load_str_ source false) in
        match e with
        | (Got None, requested') =>
            (Failed (MappingLoadError "Mapping loading failed"), requested')
        | r => r
        end
    | TypeOf FILE => load_file source true requested
    | TypeOf URL => load_url source true requested
    | TypeOf STR => load_str_ source true requested
    | TypeOther => (Failed NotImplementedError, requested)
    end.

End Implementation.

End Mapping.

(** ** Candidates for the linking of entities

    [generate_candidates] and [_similar] of
    [kgforge/specializations/resolvers/entity_linking/service/entity_linking_elastic_service.py]. *)

Section EntityLinking.

(** What the service obtains from its collaborators, which are not part of
    these sources: for a mention, the embedding its encoder and its mapper
    give ([None] when the mapper gives none), as the field of the vector
    and the vector; the resources the search of the target store finds for
    a vector; and the JSON form of a resource. *)
Variable embedding_of : string -> Outcome (option (string * json)).
Variable search_similar : string -> json -> Outcome (list Resource).
Variable resource_as_json : Resource -> json.

(** [r._store_metadata._score], when [hasattr] finds it. *)
Definition score_of (r : Resource) : option json :=
  match _store_metadata r with
  | Some (JObj fields) => lookup "_score" fields
  | _ => None
  end.

(** [[r._store_metadata._score for r in resources if hasattr(...)]] *)
Definition scores_of (resources : list Resource) : list json :=
  flat_map (fun r => match score_of r with Some s => [s] | None => [] end) resources.

Definition _similar (vector_field : string) (item_embedding : json)
  : Outcome (option (list json * list json)) :=
  resources <~ search_similar vector_field item_embedding ;;
  if (0 <? List.length resources)%nat then
    let scores := scores_of resources in
    Return (Some (map resource_as_json resources, scores))
  else Return None.

(** The loop over the labels: the resources and the scores found, one entry
    for each label that has an embedding. *)
Fixpoint collect (labels : list string)
  : Outcome (list (list json) * list (list json)) :=
  match labels with
  | [] => Return ([], [])
  | mention :: rest =>
      embedding <~ embedding_of mention ;;
      match embedding with
      | Some (vector_field, vector) =>
          found <~ _similar vector_field vector ;;
          match found with
          | Some (mention_resources, mention_resources_scores) =>
              '(resources, scores) <~ collect rest ;;
              Return (mention_resources :: resources, mention_resources_scores :: scores)
          | None => Raise (Exn TypeError "cannot unpack non-iterable NoneType object")
          end
      | None => collect rest
      end
  end.

(** [[_(scores[j][i], resource) for i, resource in enumerate(rs)]]: a
    candidate is a resource with its score. *)
Fixpoint candidates (scores_j : list json) (rs : list json) : Outcome (list (json * json)) :=
  match rs with
  | [] => Return []
  | resource_ :: rs' =>
      match scores_j with
      | score :: scores' =>
          rest <~ candidates scores' rs' ;;
          Return ((score, resource_) :: rest)
      | [] => Raise (Exn IndexError "list index out of range")
      end
  end.

(** The dict [i_res]: the labels, in their order, zipped with the resources
    found, each entry set in turn.  (The labels are cycled through; there
    are never more entries of resources than labels.) *)
Fixpoint filed (i_res : list (string * list (json * json))) (labels : list string)
         (resources scores : list (list json))
  : Outcome (list (string * list (json * json))) :=
  match labels, resources, scores with
  | m :: labels', rs :: resources', scores_j :: scores' =>
      c <~ candidates scores_j rs ;;
      filed (dict_set m c i_res) labels' resources' scores'
  | _, _, _ => Return i_res
  end.

(** [generate_candidates]: [labels] is the set of the mentions in the order
    in which it is iterated. *)
Definition generate_candidates (labels mentions : list string)
  : Outcome (list (string * list (json * json))) :=
  '(resources, scores) <~ collect labels ;;
  i_res <~ filed [] labels resources scores ;;
  Return (flat_map (fun m => match dict_get m i_res with
                             | Some c => [(m, c)]
                             | None => []
                             end) mentions).

End EntityLinking.

(** ** A store for the examples

    The project of the repository's tests: endpoint
    [https://nexus-instance.org], bucket [test/kgforge], a context with base
    [http://data.net] and the prefix [datashapes]. *)

Definition test_context : Context :=
  mkContext None false (Return (JObj [("@base", JStr "http://data.net")]))
    (fun p => if String.eqb p "datashapes"
              then Some "https://neuroshapes.org/dash/" else None)
    (fun s => Return ("http://data.net/" ++ s)).

Definition blank_resource : Resource :=
  mkResource None None [] None false false None.

Definition test_service : Service :=
  mkService "https://nexus-instance.org"
    "https://nexus-instance.org/resources/test/kgforge"
    "https://nexus-instance.org/resolvers/test/kgforge"
    "https://nexus-instance.org/files/test/kgforge"
    50 [] (Some test_context)
    "sparql" "https://nexus-instance.org/views/test/kgforge/graph/sparql"
    "elastic" "https://nexus-instance.org/views/test/kgforge/documents/_search"
    (ret (JObj [])) (JStr "keyword")
    "https://bluebrain.github.io/nexus/vocabulary/deprecated"
    "https://bluebrain.github.io/nexus/vocabulary/project"
    "https://bluebrain.github.io/nexus/vocabulary/rev"
    ["_rev"; "_deprecated"]
    (fun k => Return ("https://bluebrain.github.io/nexus/vocabulary/" ++ k))
    (Some "_deprecated") (Some "_project")
    (fun r => "status " ++ PyStr.str_of_Z (status_code r))
    (fun j => Return (mkResource (lookup "@id" (match j with JObj f => f | _ => [] end))
                        None [] None false false None))
    (fun j => Return blank_resource)
    (fun r j => mkResource (res_id r) (res_context r) (properties r) (Some j)
                  (_synchronized r) (_validated r) (_last_action r))
    (fun r => Return r)
    (fun action r schema_id params =>
       mkRequest (match action with
                  | CREATE => POST | UPDATE => PUT | TAG => POST
                  | DEPRECATE => DELETE | _ => GET
                  end)
         ("https://nexus-instance.org/resources/test/kgforge/_/"
            ++ match res_id r with Some (JStr i) => Urllib.quote_plus i | _ => "" end)
         (Some params) NoBody).

Definition test_store : Store :=
  mkStore "https://nexus-instance.org" "test/kgforge" "test" "kgforge"
    test_service (Some test_context)
    (fun r c => Return (JObj (("@context", JStr "http://data.net/context") :: properties r)))
    (fun r => Return (JObj (properties r)))
    (fun d => Return (match d with
                      | JObj fields => map (fun kv => mkFilter [fst kv] "__eq__" (snd kv)) fields
                      | _ => []
                      end))
    (fun c f => Return ([], []))
    (fun m c f k i e => Return (JObj []))
    (fun q => "{}")
    (fun q d l o => Return q)
    (fun q d c => Return [])
    (fun p => None).

Definition empty_world : World := mkWorld [] [].

(** ** The vocabulary of the properties

    What the statements below are written with: observations on the results
    of the functions above, the properties as the specification words them,
    and the stores and inputs of the examples. *)

(** *** Queries *)

(** The number of occurrences of a character. *)
Fixpoint count_chr (c : ascii) (s : string) : nat :=
  match s with
  | EmptyString => 0
  | String a s' => (if Ascii.eqb a c then 1 else 0) + count_chr c s'
  end.

(** A SPARQL variable starts with a question mark. *)
Definition sparql_variable (v : string) : bool := PyStr.startswith v "?".

(** The query asks for distinct rows: it starts with [SELECT DISTINCT]. *)
Definition selects_distinct (q : string) : bool := PyStr.startswith q "SELECT DISTINCT ".

(** The body of the query is the statements inside the [Graph ?g] wrapper. *)
Definition graph_wrapped (q statements : string) : Prop :=
  exists head, q = head ++ " WHERE { Graph ?g {" ++ statements ++ "}}".

(** *** Retrieval *)

(** The world after some more requests. *)
Definition sent (w : World) (reqs : list Request) : World :=
  mkWorld (log w ++ reqs) (heap w).

(** A store whose first answer carries a [_self] address and whose later
    answers are 404. *)
Definition self_then_not_found : list Request -> Request -> Response :=
  fun received _ =>
    match received with
    | [] => mkResponse 200
              (Some (JObj [("_self",
                            JStr "https://nexus-instance.org/resources/test/kgforge/_/x")]))
    | _ => mkResponse 404 None
    end.

(** The property as the specification words it: for an identifier whose
    first lookup fails, the retry with the identifier as the address is made
    only after a 404, and a retry that fails too leaves the error of the
    first lookup as the one raised. *)
Definition fallback_only_on_404_reraising_first : Prop :=
  forall (server : list Request -> Request -> Response) (self : Store)
         (id_ : string) (version : pyversion) (cross_bucket retrieve_source : bool)
         (w : World) (version_params : option (string * param_value))
         (parsed_id : Urllib.ParseResult) (fragment_ : option string)
         (query_params : option Params) (out : Outcome (option Resource))
         (more : list Request),
    version_params_of version = Return version_params ->
    split_identifier id_ = Return (parsed_id, fragment_, query_params) ->
    let params := merge_version version_params query_params in
    let id_without_query := id_without_query_of parsed_id fragment_ in
    let first := get (lookup_url self id_without_query cross_bucket retrieve_source) params in
    let retry := get (fallback_url id_without_query cross_bucket retrieve_source) params in
    success (server (log w) first) = false ->
    retrieve server self id_ version cross_bucket retrieve_source w
    = (out, sent w (first :: retry :: more)) ->
    status_code (server (log w) first) = 404%Z
    /\ (success (server (log w ++ [first])%list retry) = false ->
        out = Raise (Exn RetrievalError
                       (_error_message (service self) (server (log w) first)))).

(** A store that answers 500 to the first request and 403 to the next. *)
Definition error_then_forbidden : list Request -> Request -> Response :=
  fun received _ =>
    match received with
    | [] => mkResponse 500 None
    | _ => mkResponse 403 None
    end.

(** *** Search *)

(** The endpoint a call of [search] selects. *)
Definition selected_endpoint (self : Store) (params : SearchParams) : json :=
  get_param (p_search_endpoint params) (JStr (sparql_endpoint_type (service self))).

Definition selects_sparql (self : Store) (params : SearchParams) : bool :=
  is_str (sparql_endpoint_type (service self)) (selected_endpoint self params).

Definition selects_elastic (self : Store) (params : SearchParams) : bool :=
  is_str (elastic_endpoint_type (service self)) (selected_endpoint self params).

(** [bucket and not cross_bucket] *)
Definition bucket_without_cross_bucket (params : SearchParams) : bool :=
  truthy (get_param (p_bucket params) JNull)
  && negb (truthy (get_param (p_cross_bucket params) (JBool false))).

(** [includes or excludes] *)
Definition projects_fields (params : SearchParams) : bool :=
  truthy (get_param (p_includes params) JNull)
  || truthy (get_param (p_excludes params) JNull).

(** Calls of [search] with one keyword argument. *)
Definition with_endpoint (e : string) : SearchParams :=
  mkSearchParams None None None None None None None None None None (Some (JStr e)) None false.

Definition with_bucket (b : string) : SearchParams :=
  mkSearchParams None None None None None (Some (JStr b)) None None None None None None false.

Definition with_includes (fields : list json) : SearchParams :=
  mkSearchParams None None None None None None None None (Some (JArr fields)) None None None false.

(** A store that answers every request with an empty result set. *)
Definition no_hits : list Request -> Request -> Response :=
  fun _ _ => mkResponse 200 (Some (JObj [("hits", JObj [("hits", JArr [])])])).

(** The two filters the Elasticsearch path appends. *)
Definition deprecation_filter (self : Store) (params : SearchParams) : Filter :=
  mkFilter [match deprecated_term_name (service self) with
            | Some n => n | None => "_deprecated" end]
           "__eq__" (get_param (p_deprecated params) (JBool false)).

Definition project_filter_of (self : Store) (p : string) : Filter :=
  mkFilter [match project_term_name (service self) with
            | Some n => n | None => "_project" end]
           "__eq__" (JStr p).

(** What is appended: the deprecation filter, and the project filter when
    the search has a project to be restricted to. *)
Definition appended_filters (self : Store) (params : SearchParams) : list filter_item :=
  ItemFilter (deprecation_filter self params)
  :: match project_scope self (get_param (p_bucket params) JNull)
             (get_param (p_cross_bucket params) (JBool false)) with
     | Return (Some (String a p)) => [ItemFilter (project_filter_of self (String a p))]
     | _ => []
     end.

(** The property as the specification words it: on the Elasticsearch path
    the list object of the caller has one or two more entries when [search]
    returns. *)
Definition elastic_search_grows_the_callers_list : Prop :=
  forall (server : list Request -> Request -> Response) (self : Store)
         (r : nat) (params : SearchParams) (w w' : World)
         (l : list filter_item) (found : list Resource),
    nth_error (heap w) r = Some l ->
    selects_sparql self params = false ->
    search server self (FList r) params w = (Return found, w') ->
    exists added,
      nth_error (heap w') r = Some (l ++ added)%list
      /\ (List.length added = 1 \/ List.length added = 2).

(** *** Batch operations *)






(** The answers of the store to a series of requests, each one received
    after the ones before it. *)
Fixpoint answers (server : list Request -> Request -> Response)
         (received : list Request) (reqs : list Request) : list Response :=
  match reqs with
  | [] => []
  | q :: rest => server received q :: answers server (received ++ [q]) rest
  end.





(** The answers to the uploads of a list of paths. *)
Definition upload_answers (server : list Request -> Request -> Response) (self : Store)
           (content_type : option string) (w : World) (paths : list string)
  : list Response :=
  answers server (log w) (map (upload_request self content_type) paths).

(** An upload succeeded: a status under 400 and a JSON body. *)
Definition uploaded (a : Response) : bool :=
  (status_code a <? 400)%Z && match content a with Some _ => true | None => false end.

(** Every file of the list can be opened. *)
Definition opened (open_rb : string -> option exn) (paths : list string) : Prop :=
  Forall (fun p => open_rb p = None) paths.

(** A file system where every file can be opened, and one where [b.txt] is
    missing. *)
Definition every_file_opens : string -> option exn := fun _ => None.

Definition b_txt_missing : string -> option exn :=
  fun p =>
    if String.eqb p "b.txt"
    then Some (Exn OSError "[Errno 2] No such file or directory: 'b.txt'")
    else None.





(** Two resources to update, and a store that accepts the first request and
    fails on the second. *)
Definition resource_a : Resource :=
  mkResource (Some (JStr "http://data.net/a")) None [] None false false None.



(** *** Addresses and identifiers *)

(** ASCII text, on which the pattern of [rewrite_uri] is matched as Python
    matches it. *)
Definition ascii_text (s : string) : bool :=
  PyStr.all_chars (fun c => (nat_of_ascii c <? 128)%nat) s.

(** The property as the specification words it: [rewrite_uri] applied to
    its own result gives that result again. *)
Definition rewrite_uri_idempotent : Prop :=
  forall (self : Store) (uri : string) (context : Context) (is_file : bool)
         (rewritten : string),
    rewrite_uri self uri context is_file = Return rewritten ->
    rewrite_uri self rewritten context is_file = Return rewritten.

(** A visible character: neither a control character nor a space. *)
Definition graphic (c : ascii) : bool := (32 <? nat_of_ascii c)%nat.

Definition netloc_char (c : ascii) : bool :=
  graphic c && negb (PyStr.has_char c "/?#[]").

Definition path_char (c : ascii) : bool :=
  graphic c && negb (PyStr.has_char c "?#;").

Definition fragment_char (c : ascii) : bool :=
  graphic c && negb (PyStr.has_char c "#?:;").

(** The shape of an identifier [scheme://netloc/path#fragment?key=value]:
    a scheme that starts with a letter, a network location without square
    brackets, a path that is empty or starts with a slash, a fragment, and
    a key and a non-empty value made of unreserved characters. *)
Definition identifier_shape (scheme netloc path fragment key value_ : string) : bool :=
  match scheme with String a _ => PyStr.is_alpha a | EmptyString => false end
  && PyStr.all_chars Urllib.scheme_char scheme
  && PyStr.all_chars netloc_char netloc
  && PyStr.all_chars path_char path
  && (String.eqb path "" || PyStr.startswith path "/")
  && PyStr.all_chars fragment_char fragment
  && negb (PyStr.startswith fragment "//")
  && PyStr.all_chars Urllib.always_safe key
  && PyStr.all_chars Urllib.always_safe value_
  && negb (String.eqb value_ "").

(** The parts of an identifier that [urlparse] accepts: of that shape, with
    a network location that has no character [urlsplit] refuses under NFKC
    normalisation. *)
Definition identifier_parts (scheme netloc path fragment key value_ : string) : bool :=
  identifier_shape scheme netloc path fragment key value_
  && negb (Urllib.nfkc_unsafe netloc).

(** What [urlsplit] raises for a network location it refuses. *)
Definition nfkc_error (netloc : string) : exn :=
  Exn ValueError
    ("netloc '" ++ netloc ++ "' contains invalid characters under NFKC normalization").

(** A network location with the sign [a/c], U+2100, whose normal form has
    a slash. *)
Definition host_with_account_of : string :=
  "exa" ++ Urllib.utf8 [226; 132; 128] ++ "mple.com".

Definition identifier_of (scheme netloc path fragment key value_ : string) : string :=
  scheme ++ "://" ++ netloc ++ path ++ "#" ++ fragment ++ "?" ++ key ++ "=" ++ value_.

(** *** The operations on one resource *)

(** The keys of a dict are distinct. *)
Definition keys_unique {V : Type} (d : list (string * V)) : Prop :=
  NoDup (map fst d).

(** What is sent is the prepared parameters over the configured ones: a
    key of the prepared ones has their value, another key the configured
    one. *)
Definition prepared_over_configured (prepared configured sent_ : Params) : Prop :=
  forall k,
    dict_get k sent_
    = match dict_get k prepared with
      | Some v => Some v
      | None => dict_get k configured
      end.

(** A [_prepare_uri] for the examples: the address of the resource under
    the resources of the project, and its revision. *)
Definition prepare_uri_example (r : Resource) (schema_id : option string)
  : Outcome (string * Params) :=
  match res_id r with
  | Some (JStr i) =>
      Return ("https://nexus-instance.org/resources/test/kgforge/_/" ++ Urllib.quote_plus i,
              [("rev", PInt 1)])
  | _ => Raise (Exn ValueError "resource has no id")
  end.

Definition prepare_tag_example (r : Resource) (value_ : string)
  : Outcome (string * json * Params) :=
  '(url, params) <~ prepare_uri_example r None ;;
  Return (url ++ "/tags", JObj [("tag", JStr value_); ("rev", JNum 1)], params).

(** A store configured with parameters for its updates. *)
Definition configured_store : Store :=
  let svc := test_service in
  let svc' :=
    mkService (service_endpoint svc) (url_resources svc) (url_resolver svc)
      (url_files svc) (max_connection svc)
      [("update", [("rev", PInt 7); ("indexing", PStr "sync")])]
      (service_context svc) (sparql_endpoint_type svc) (sparql_endpoint_url svc)
      (elastic_endpoint_type svc) (elastic_endpoint_url svc) (fetch_elastic_view svc)
      (default_str_keyword_field svc) (deprecated_property svc) (project_property svc)
      (revision_property svc) (store_metadata_keys svc) (metadata_term_id svc)
      (deprecated_term_name svc) (project_term_name svc) (_error_message svc)
      (to_resource svc) (hit_to_resource svc) (sync_metadata svc)
      (execute_lazy_actions svc) (prepare_batch_request svc) in
  mkStore (endpoint test_store) (bucket test_store) (organisation test_store)
    (project test_store) svc' (model_context test_store) (as_jsonld test_store)
    (as_json test_store) (create_filters_from_dict test_store) (sparql_build test_store)
    (es_build test_store) (dump_query test_store) (prepare_query test_store)
    (build_resource_from_response test_store) (guess_type test_store).

(** A store that refuses every request. *)
Definition always_conflict : list Request -> Request -> Response :=
  fun _ _ => mkResponse 409 None.

(** *** What [retrieve] sends *)

(** A request that only reads. *)
Definition reading (q : Request) : Prop :=
  req_method q = GET /\ req_body q = NoBody.

(** From [w] to [w'], at most [n] requests were sent, all of them reading
    ones, and nothing else was changed. *)
Definition reads_only (w w' : World) (n : nat) : Prop :=
  exists reqs, w' = sent w reqs /\ List.length reqs <= n /\ Forall reading reqs.

(** An identifier [scheme://netloc/path?key=value]. *)
Definition identifier_with_query (scheme netloc path key value_ : string) : string :=
  scheme ++ "://" ++ netloc ++ path ++ "?" ++ key ++ "=" ++ value_.

(** A store that answers every request with the same resource. *)
Definition always_found : list Request -> Request -> Response :=
  fun _ _ => mkResponse 200 (Some (JObj [("@id", JStr "http://data.net/a"); ("_rev", JNum 2)])).

(** *** What [search] does to the lists of the heap *)

(** Code that leaves the heap as it finds it, whatever its outcome. *)
Definition keeps_heap {A : Type} (m : M A) : Prop :=
  forall w, heap (snd (m w)) = heap w.

(** A list of filters [search] works on as it is: empty, or with a
    [Filter] first. *)
Definition plain_filters (l : list filter_item) : bool :=
  match l with
  | [] | ItemFilter _ :: _ => true
  | _ => false
  end.

(** The checks of [search] pass, for the Elasticsearch endpoint. *)
Definition elastic_search_accepted (self : Store) (params : SearchParams) : bool :=
  match model_context self with Some _ => true | None => false end
  && negb (selects_sparql self params)
  && selects_elastic self params
  && negb (p_filters params)
  && negb (bucket_without_cross_bucket params).

(** A store whose Elasticsearch view refuses every query. *)
Definition query_refused : list Request -> Request -> Response :=
  fun _ _ => mkResponse 400 None.

(** *** Downloads *)

(** The request of a download. *)
Definition download_request (self : Store) (url : string) : Request :=
  mkRequest GET url (Some (params_get_or_empty (service self) "download")) NoBody.

(** The bytes of the examples: the status of the response, as a text. *)
Definition status_text (r : Response) : string := PyStr.str_of_Z (status_code r).

(** *** The braces of a query *)

(** The opening braces minus the closing ones are counted on both sides. *)
Definition braces (s : string) : nat * nat := (count_chr "{" s, count_chr "}" s).

Definition balanced (s : string) : Prop := fst (braces s) = snd (braces s).

(** A variable has no brace. *)
Definition brace_free (v : string) : bool :=
  negb (PyStr.has_char "{" v) && negb (PyStr.has_char "}" v).

(** *** The checks of [search] *)

(** A call of [search] with a key ["filters"] among its parameters. *)
Definition with_filters_key : SearchParams :=
  mkSearchParams None None None None None None None None None None None None true.

(** A call of [search] with no parameter. *)
Definition no_params : SearchParams :=
  mkSearchParams None None None None None None None None None None None None false.

(** The checks of [search] that come before the reading of the filters
    pass. *)
Definition search_accepted (self : Store) (params : SearchParams) : bool :=
  match model_context self with Some _ => true | None => false end
  && (selects_sparql self params || selects_elastic self params)
  && negb (p_filters params)
  && negb (bucket_without_cross_bucket params).

(** *** An identifier [scheme://netloc/path] *)



(** *** Contexts and sources for the examples *)

(** A metadata context, told from the model context of the examples by its
    address, and the terms of the two: both define [name]. *)
Definition metadata_context_example : Context :=
  mkContext (Some "https://bluebrain.github.io/nexus/contexts/metadata.json") true
    (Return (JObj [])) (fun _ => None) (fun s => Return s).

Definition terms_example (c : Context) : list (string * json) :=
  if is_http_iri c
  then [("_rev", JStr "https://bluebrain.github.io/nexus/vocabulary/rev");
        ("name", JStr "https://bluebrain.github.io/nexus/vocabulary/name")]
  else [("name", JStr "http://schema.org/name");
        ("Person", JStr "http://schema.org/Person")].

(** A path with a component of 300 letters. *)
Definition long_name : string :=
  string_of_list_ascii (repeat "a"%char 300) ++ ".yml".

(** A file system with one file, where a path as long as [long_name]
    cannot be examined, and a network on which nothing is found. *)
Definition one_file : Sources :=
  mkSources (fun p => if String.eqb p "mapping.hjson" then Some "{ id: x }" else None)
    (fun p => if (255 <? String.length p)%nat
              then Some (Exn OSError ("[Errno 36] File name too long: '" ++ p ++ "'"))
              else None)
    (fun url => inr (404%Z, "not found"))
    (fun status url => PyStr.str_of_Z status ++ " Client Error for url: " ++ url).

(** The outcome of [load], without the addresses requested. *)
Definition is_mapping_load_error {A : Type} (o : Mapping.Loaded A) : Prop :=
  exists msg, o = Mapping.Failed (Mapping.MappingLoadError msg).

(** *** Candidates for the linking of entities *)

(** Every resource found carries a score. *)
Definition all_scored (resources : list Resource) : bool :=
  forallb (fun r => match score_of r with Some _ => true | None => false end) resources.

(** The candidates of a mention: the resources found for it, each with its
    score. *)
Definition candidates_of (resource_as_json : Resource -> json) (resources : list Resource)
  : list (json * json) :=
  combine (scores_of resources) (map resource_as_json resources).

(** What is found for a label: its embedding, and the resources the search
    finds for that embedding, at least one. *)
Definition found_for (embedding_of : string -> Outcome (option (string * json)))
           (search_similar : string -> json -> Outcome (list Resource))
           (m : string) (resources : list Resource) : Prop :=
  exists vector_field vector,
    embedding_of m = Return (Some (vector_field, vector))
    /\ search_similar vector_field vector = Return resources
    /\ resources <> [].

(** An encoder that knows every mention but ["unknown"], and a store with
    one resource for ["neuron"], one without a score for ["axon"], and none
    for another mention. *)
Definition embedding_example (m : string) : Outcome (option (string * json)) :=
  if String.eqb m "unknown" then Return None else Return (Some ("embedding", JStr m)).

Definition scored (i : string) (score : Z) : Resource :=
  mkResource (Some (JStr i)) None [] (Some (JObj [("_score", JNum score)]))
             true false None.

Definition search_example (vector_field : string) (vector : json)
  : Outcome (list Resource) :=
  if is_str "neuron" vector then Return [scored "http://data.net/neuron" 9]
  else if is_str "axon" vector then Return [resource_a]
  else Return [].

Definition json_example (r : Resource) : json :=
  match res_id r with Some i => i | None => JNull end.

(** * Properties *)

(** Goals about closed terms are settled by evaluation. *)
Ltac by_computation := vm_compute; reflexivity.

(** ** Facts about strings *)

Lemma append_assoc (a b c : string) : (a ++ b) ++ c = a ++ b ++ c.
Proof. induction a as [|x a IH]; simpl; [reflexivity | now rewrite IH]. Qed.

Lemma append_empty_r (a : string) : a ++ "" = a.
Proof. induction a as [|x a IH]; simpl; [reflexivity | now rewrite IH]. Qed.

Lemma length_append (a b : string) :
  String.length (a ++ b) = String.length a + String.length b.
Proof. induction a as [|x a IH]; simpl; [reflexivity | now rewrite IH]. Qed.

Lemma prefix_append (a b : string) : String.prefix a (a ++ b) = true.
Proof.
  induction a as [|x a IH]; simpl.
  - destruct b; reflexivity.
  - destruct (ascii_dec x x) as [_|n]; [exact IH | now elim n].
Qed.

Lemma prefix_cons (x y : ascii) (a b : string) :
  String.prefix (String x a) (String y b) = if Ascii.eqb x y then String.prefix a b else false.
Proof.
  simpl. destruct (ascii_dec x y) as [->|n].
  - now rewrite Ascii.eqb_refl.
  - destruct (Ascii.eqb_spec x y); [contradiction | reflexivity].
Qed.

Lemma prefix_empty (s : string) : String.prefix "" s = true.
Proof. destruct s; reflexivity. Qed.

(** Two ways of cutting one string into a head and a tail: tails of the
    same length are the same tail. *)
Lemma same_length_tails (a b u v : string) :
  a ++ u = b ++ v -> String.length u = String.length v -> u = v.
Proof.
  revert b; induction a as [|x a IH]; intros [|y b] E L; simpl in E.
  - exact E.
  - exfalso. apply (f_equal String.length) in E. simpl in E.
    rewrite length_append in E. lia.
  - exfalso. apply (f_equal String.length) in E. simpl in E.
    rewrite length_append in E. lia.
  - injection E as _ E. exact (IH b E L).
Qed.

Lemma count_chr_append (c : ascii) (a b : string) :
  count_chr c (a ++ b) = count_chr c a + count_chr c b.
Proof. induction a as [|x a IH]; simpl; [reflexivity | rewrite IH; lia]. Qed.

(** ** [_create_select_query] (C7) *)

Lemma braces_unbalanced (st : string) : String "{" (st ++ "}") <> st ++ "}}".
Proof.
  intro E. apply (f_equal (count_chr "{")) in E.
  simpl in E. rewrite !count_chr_append in E. simpl in E. lia.
Qed.

Lemma plain_body_not_wrapped (head head' st : string) :
  head ++ "{" ++ st ++ "}" <> head' ++ " WHERE { Graph ?g {" ++ st ++ "}}".
Proof.
  intro E.
  change (head' ++ " WHERE { Graph ?g {" ++ st ++ "}}")
    with (head' ++ (" WHERE { Graph ?g {" ++ (st ++ "}}"))) in E.
  rewrite <- (append_assoc head' " WHERE { Graph ?g {" (st ++ "}}")) in E.
  apply same_length_tails in E.
  - simpl in E. exact (braces_unbalanced st E).
  - simpl. rewrite !length_append. simpl. lia.
Qed.

Lemma join_of_variables_head (vars_ : list string) (rest : string) :
  forallb sparql_variable vars_ = true ->
  String.prefix "DISTINCT " (PyStr.join " " vars_ ++ " WHERE " ++ rest) = false.
Proof.
  destruct vars_ as [|v vs]; intro H.
  - reflexivity.
  - simpl in H. apply andb_true_iff in H as [Hv _].
    unfold sparql_variable, PyStr.startswith in Hv.
    destruct v as [|c v]; [discriminate|].
    rewrite prefix_cons in Hv.
    destruct (Ascii.eqb_spec "?"%char c) as [<-|]; [|discriminate].
    unfold PyStr.join. destruct vs; simpl; reflexivity.
Qed.

(** C7. [_create_select_query ["?id"; "?project"] "?id type <X>"] with
    [distinct] and [search_in_graph] set is exactly
    [SELECT DISTINCT ?id ?project WHERE { Graph ?g {?id type <X>}}].  For
    every list of variables and every statements string the query is
    [SELECT], the select clause, [WHERE], the where clause; the select
    clause carries the [DISTINCT] keyword exactly when [distinct] is set,
    and the where clause is the [Graph ?g] wrapper exactly when
    [search_in_graph] is set.  Seen from the query text: the body is wrapped
    exactly when [search_in_graph] is set, and for SPARQL variables the
    query starts with [SELECT DISTINCT] exactly when [distinct] is set. *)
Theorem create_select_query_keywords :
  _create_select_query ["?id"; "?project"] "?id type <X>" true true
  = "SELECT DISTINCT ?id ?project WHERE { Graph ?g {?id type <X>}}"
  /\ (forall vars_ statements distinct search_in_graph,
         _create_select_query vars_ statements distinct search_in_graph
         = "SELECT " ++ select_vars vars_ distinct ++ " WHERE "
             ++ where_clauses statements search_in_graph
         /\ (select_vars vars_ distinct = "DISTINCT " ++ PyStr.join " " vars_
             <-> distinct = true)
         /\ (where_clauses statements search_in_graph
             = "{ Graph ?g {" ++ statements ++ "}}"
             <-> search_in_graph = true)
         /\ (graph_wrapped
               (_create_select_query vars_ statements distinct search_in_graph)
               statements
             <-> search_in_graph = true))
  /\ (forall vars_ statements distinct search_in_graph,
         forallb sparql_variable vars_ = true ->
         selects_distinct
           (_create_select_query vars_ statements distinct search_in_graph)
         = distinct).
Proof.
  split; [reflexivity|]. split.
  - intros vars_ statements distinct search_in_graph.
    split; [reflexivity|]. split; [|split].
    + destruct distinct; simpl; split; intro H; try reflexivity; try discriminate.
      exfalso. apply (f_equal String.length) in H. simpl in H. lia.
    + destruct search_in_graph; simpl; split; intro H; try reflexivity; try discriminate.
      exfalso. injection H as H. apply (f_equal String.length) in H.
      simpl in H. rewrite !length_append in H. simpl in H. lia.
    + unfold graph_wrapped, _create_select_query.
      destruct search_in_graph; split; intro H; try reflexivity; try discriminate.
      * exists ("SELECT " ++ select_vars vars_ distinct).
        unfold where_clauses. now rewrite append_assoc.
      * exfalso. destruct H as [head H]. unfold where_clauses in H.
        rewrite <- (append_assoc "SELECT " _ _) in H.
        rewrite <- (append_assoc _ " WHERE " _) in H.
        exact (plain_body_not_wrapped _ _ _ H).
  - intros vars_ statements distinct search_in_graph Hvars.
    unfold selects_distinct, PyStr.startswith, _create_select_query, select_vars.
    destruct distinct.
    + simpl. apply prefix_empty.
    + change (String.prefix "SELECT DISTINCT "
                ("SELECT " ++ PyStr.join " " vars_ ++ " WHERE "
                   ++ where_clauses statements search_in_graph))
        with (String.prefix "DISTINCT "
                (PyStr.join " " vars_ ++ " WHERE "
                   ++ where_clauses statements search_in_graph)).
      now apply join_of_variables_head.
Qed.

Lemma create_select_query_keywords_witness :
  forallb sparql_variable ["?id"; "?project"] = true
  /\ selects_distinct (_create_select_query ["?id"; "?project"] "?id type <X>" false true)
     = false.
Proof.
  split; [reflexivity|].
  apply (proj2 (proj2 create_select_query_keywords)). reflexivity.
Defined.

(** ** Construction of the store (C8) *)

Lemma split_bucket_unpacks (b : string) :
  List.length (PyStr.split "/" b) <> 2 ->
  exists msg, split_bucket (Some b) = Raise (Exn ValueError msg).
Proof.
  unfold split_bucket. intro H.
  destruct (PyStr.split "/" b) as [|x [|y [|z l]]]; simpl in H.
  - now eexists.
  - now eexists.
  - now elim H.
  - now eexists.
Qed.

(** C8. Building the service of a store whose bucket does not split on [/]
    into exactly an organisation and a project, or whose [max_connection] is
    zero or negative, raises a [ValueError] ("Store configuration error")
    at once: the world is left as it was, no request is sent, and the
    [Service] is not built, whatever its constructor would do. *)
Theorem initialize_service_configuration_error :
  forall (new_service : ServiceConfig -> M Service) (b : string)
         (endpoint_ token : option string) (searchendpoints : option json)
         (model_context_ : option Context)
         (context_fallback namespace_fallback project_fallback deprecated_fallback : json)
         (store_config : list (string * json)) (w : World),
    (List.length (PyStr.split "/" b) <> 2
     \/ exists z, lookup "max_connection" store_config = Some (JNum z) /\ (z <= 0)%Z) ->
    exists msg,
      _initialize_service new_service (Some b) endpoint_ token searchendpoints
        model_context_ context_fallback namespace_fallback project_fallback
        deprecated_fallback store_config w
      = (Raise (Exn ValueError ("Store configuration error: " ++ msg)), w).
Proof.
  intros new_service b endpoint_ token se mc cf nf pf df store_config w H.
  unfold _initialize_service, bind, lift, read_store_config.
  destruct (Nat.eq_dec (List.length (PyStr.split "/" b)) 2) as [two|bad].
  - destruct H as [bad | (z & Hz & neg)]; [contradiction|].
    unfold split_bucket.
    destruct (PyStr.split "/" b) as [|org [|prj [|x l]]]; try discriminate two.
    unfold obind at 1. unfold config_get at 1. rewrite Hz.
    unfold check_max_connection.
    destruct (Z.leb_spec z 0) as [_|pos]; [|lia].
    eexists. reflexivity.
  - destruct (split_bucket_unpacks b bad) as [msg E].
    rewrite E. exists msg. reflexivity.
Qed.

Lemma initialize_service_configuration_error_witness :
  (exists msg,
      _initialize_service (fun _ => ret test_service) (Some "invalid") (Some "test")
        (Some "") None None JNull JNull JNull JNull [] empty_world
      = (Raise (Exn ValueError ("Store configuration error: " ++ msg)), empty_world))
  /\ (exists msg,
         _initialize_service (fun _ => ret test_service) (Some "test/kgforge")
           (Some "test") (Some "") None None JNull JNull JNull JNull
           [("max_connection", JNum 0)] empty_world
         = (Raise (Exn ValueError ("Store configuration error: " ++ msg)), empty_world)).
Proof.
  split.
  - apply initialize_service_configuration_error.
    left. vm_compute. discriminate.
  - apply initialize_service_configuration_error.
    right. exists 0%Z. split; [reflexivity | lia].
Defined.

(** ** Registration of one resource (C5) *)

(** C5. When the store answers the request of [_register_one] with a status
    that is not a success, [_register_one] raises a [RegistrationError] and
    the resource is exactly as it was before the call: identifier, context
    and store metadata are written only after the check of the status.  The
    one effect is the request in the log. *)
Theorem register_one_failure_leaves_resource :
  forall (server : list Request -> Request -> Response) (self : Store)
         (schema_id : option string) (r : Resource) (w : World)
         (data : json) (req : Request),
    as_jsonld self r (model_or_service_context self) = Return data ->
    register_request self r schema_id data = Return req ->
    success (server (log w) req) = false ->
    _register_one server self schema_id (r, w)
    = (Raise (Exn RegistrationError
                (_error_message (service self) (server (log w) req))),
       (r, mkWorld (log w ++ [req]) (heap w))).
Proof.
  intros server self schema_id r w data req Hdata Hreq Hfail.
  unfold _register_one, bind, get_resource, lift. simpl.
  rewrite Hdata, Hreq. unfold on_world, send. simpl.
  unfold catch_http_error_nexus, catch_http_error. rewrite Hfail. reflexivity.
Qed.

Lemma register_one_failure_leaves_resource_witness :
  _register_one (fun _ _ => mkResponse 409 None) test_store None
    (blank_resource, empty_world)
  = (Raise (Exn RegistrationError "status 409"),
     (blank_resource,
      mkWorld [mkRequest POST "https://nexus-instance.org/resources/test/kgforge/_" None
                 (JsonBody (JObj [("@context", JStr "http://data.net/context")]))] [])).
Proof.
  exact (register_one_failure_leaves_resource
           (fun _ _ => mkResponse 409 None) test_store None blank_resource empty_world
           (JObj [("@context", JStr "http://data.net/context")])
           (mkRequest POST "https://nexus-instance.org/resources/test/kgforge/_" None
              (JsonBody (JObj [("@context", JStr "http://data.net/context")])))
           eq_refl eq_refl eq_refl).
Defined.

(** ** Retrieval *)

Lemma success_ok (r : Response) : success r = true -> ok r = true.
Proof.
  unfold success, ok. intro H. apply andb_true_iff in H as [_ H].
  apply Z.ltb_lt in H.
  destruct (Z.leb_spec 400 (status_code r)); [lia | reflexivity].
Qed.

Lemma sent_sent (w : World) (a b : list Request) :
  sent (sent w a) b = sent w (a ++ b).
Proof. unfold sent. simpl. now rewrite <- app_assoc. Qed.

(** C10. [retrieve] with [retrieve_source] and [cross_bucket] both set: when
    the first lookup succeeds and its body has a [_self] address, and the
    fetch of the source at that address fails, the check that follows is
    made on the first response, nothing is raised, the final guard is
    false, and [retrieve] returns [None]. *)
Theorem retrieve_returns_none :
  forall (server : list Request -> Request -> Response) (self : Store)
         (id_ : string) (version : pyversion) (w : World)
         (version_params : option (string * param_value))
         (parsed_id : Urllib.ParseResult) (fragment_ : option string)
         (query_params : option Params) (fields : list (string * json))
         (self_ : string),
    version_params_of version = Return version_params ->
    split_identifier id_ = Return (parsed_id, fragment_, query_params) ->
    let params := merge_version version_params query_params in
    let lookup_ :=
      get (lookup_url self (id_without_query_of parsed_id fragment_) true true) params in
    let source := get (PyStr.join "/" [self_; "source"]) params in
    success (server (log w) lookup_) = true ->
    content (server (log w) lookup_) = Some (JObj fields) ->
    lookup "_self" fields = Some (JStr self_) ->
    ok (server (log w ++ [lookup_])%list source) = false ->
    retrieve server self id_ version true true w
    = (Return None, sent w [lookup_; source]).
Proof.
  intros server self id_ version w vp parsed_id fragment_ qp fields self_
         Hv Hs params lookup_ source Hok Hbody Hself Hfail.
  unfold retrieve, bind, lift. rewrite Hv, Hs.
  fold params.
  unfold first_lookup, try_except, bind, lift, send, ret.
  fold lookup_. cbn [log heap].
  unfold catch_http_error_nexus, catch_http_error. rewrite Hok.
  unfold fetch_metadata. cbn [andb negb].
  rewrite (success_ok _ Hok).
  unfold bind, lift, response_json. rewrite Hbody.
  cbn [json_contains json_getitem]. rewrite Hself. cbn [json_str].
  unfold send, ret. cbn [log heap]. fold source.
  unfold catch_http_error_nexus, catch_http_error. rewrite Hok.
  unfold build_resource. rewrite (success_ok _ Hok), Hfail.
  unfold sent. simpl. now rewrite <- app_assoc.
Qed.

Lemma retrieve_returns_none_witness :
  exists w',
    retrieve self_then_not_found test_store "http://data.net/x" VerNone true true
      empty_world
    = (Return None, w').
Proof.
  eexists.
  eapply (retrieve_returns_none self_then_not_found test_store "http://data.net/x"
            VerNone empty_world); reflexivity.
Defined.

(** What [fetch_metadata] does to the world: it sends at most one request. *)
Lemma fetch_metadata_sends (server : list Request -> Request -> Response) (self : Store)
      (response_ : Response) (url_resource : string) (query_params : option Params)
      (cross_bucket retrieve_source : bool) (w : World) :
  exists out more,
    fetch_metadata server self response_ url_resource query_params
      cross_bucket retrieve_source w
    = (out, sent w more).
Proof.
  assert (same : w = sent w []) by (destruct w; unfold sent; simpl; now rewrite app_nil_r).
  unfold fetch_metadata.
  destruct (retrieve_source && negb cross_bucket).
  - unfold bind, send, lift, ret. cbn [log heap].
    destruct (catch_http_error_nexus _ _ _); eexists; exists [get url_resource query_params];
      reflexivity.
  - destruct (retrieve_source && cross_bucket && ok response_).
    + unfold bind, lift.
      destruct (response_json response_) as [j|e]; [|now exists (Raise e), []; rewrite <- same].
      destruct (json_contains "_self" j) as [[|]|e];
        [| now eexists; exists []; unfold ret; rewrite <- same
         | now exists (Raise e), []; rewrite <- same].
      destruct (json_getitem "_self" j) as [s|e]; [|now exists (Raise e), []; rewrite <- same].
      destruct (json_str s) as [s'|e]; [|now exists (Raise e), []; rewrite <- same].
      unfold send, ret. cbn [log heap].
      destruct (catch_http_error_nexus _ _ _); eexists;
        exists [get (PyStr.join "/" [s'; "source"]) query_params]; reflexivity.
    + eexists; exists []. unfold ret. now rewrite <- same.
Qed.

(** *** The fallback of [retrieve] (C2) *)

(** C2, refuted: the identifier is an address of the store's resources; the
    first lookup is answered 500, not 404, and the retry is made all the
    same; the retry is answered 403 and the error raised is the one of the
    retry. *)
Lemma fallback_only_on_404_reraising_first_fails :
  ~ fallback_only_on_404_reraising_first.
Proof.
  intro claim.
  edestruct (claim error_then_forbidden test_store
               "https://nexus-instance.org/resources/test/kgforge/_/x"
               VerNone false false empty_world None
               (Urllib.mkParseResult "https" "nexus-instance.org"
                  "/resources/test/kgforge/_/x" "" "" "")
               None None (Raise (Exn RetrievalError "status 403")) [])
    as [is_404 _]; try by_computation.
  vm_compute in is_404. discriminate is_404.
Qed.

(** [retrieve] after its identifier and version have been read: the lookup,
    the second request, the resource. *)
Lemma retrieve_steps (server : list Request -> Request -> Response) (self : Store)
      (id_ : string) (version : pyversion) (cross_bucket retrieve_source : bool)
      (w : World) (version_params : option (string * param_value))
      (parsed_id : Urllib.ParseResult) (fragment_ : option string)
      (query_params : option Params) :
  version_params_of version = Return version_params ->
  split_identifier id_ = Return (parsed_id, fragment_, query_params) ->
  let params := merge_version version_params query_params in
  let id_without_query := id_without_query_of parsed_id fragment_ in
  retrieve server self id_ version cross_bucket retrieve_source w
  = bind (first_lookup server self id_ id_without_query
            (lookup_url self id_without_query cross_bucket retrieve_source)
            (resource_url self id_without_query cross_bucket) params
            cross_bucket retrieve_source)
      (fun x => match x with
                | (response_, url_resource) =>
                    bind (fetch_metadata server self response_ url_resource params
                            cross_bucket retrieve_source)
                      (fun response_metadata =>
                         lift (build_resource self response_ response_metadata
                                 cross_bucket retrieve_source))
                end) w.
Proof.
  intros Hv Hs params id_without_query.
  unfold retrieve, bind at 1 2, lift at 1 2. now rewrite Hv, Hs.
Qed.

(** The lookup of [retrieve] when its first request is not answered with a
    success. *)
Lemma first_lookup_failed (server : list Request -> Request -> Response) (self : Store)
      (id_ id_without_query : string) (params : option Params)
      (cross_bucket retrieve_source : bool) (w : World)
      (k : Response * string -> M (option Resource)) :
  let first := get (lookup_url self id_without_query cross_bucket retrieve_source) params in
  let retry := get (fallback_url id_without_query cross_bucket retrieve_source) params in
  success (server (log w) first) = false ->
  bind (first_lookup server self id_ id_without_query
          (lookup_url self id_without_query cross_bucket retrieve_source)
          (resource_url self id_without_query cross_bucket) params
          cross_bucket retrieve_source) k w
  = if PyStr.startswith id_ (nexus_path self cross_bucket)
    then if success (server (log w ++ [first])%list retry)
         then k (server (log w ++ [first])%list retry, id_without_query)
                (sent w [first; retry])
         else (Raise (Exn RetrievalError
                        (_error_message (service self)
                           (server (log w ++ [first])%list retry))),
               sent w [first; retry])
    else (Raise (Exn RetrievalError
                   (_error_message (service self) (server (log w) first))),
          sent w [first]).
Proof.
  intros first retry Hfail.
  unfold bind, first_lookup, try_except, bind, lift, send, ret, raise.
  fold first. cbn [log heap]. unfold catch_http_error_nexus at 1, catch_http_error at 1.
  rewrite Hfail. cbn [is_kind kind exn_kind_eqb].
  destruct (PyStr.startswith id_ (nexus_path self cross_bucket)); [|reflexivity].
  fold retry. cbn [log heap]. unfold catch_http_error_nexus, catch_http_error.
  unfold sent. cbn [log heap]. rewrite <- app_assoc. simpl.
  destruct (success (server (log w ++ [first])%list retry)); reflexivity.
Qed.

(** C2, as the code has it. When the first lookup of [retrieve] is answered
    with a status that is not a success, whatever the status: if the
    identifier does not start with the path of the store's resources, the
    error of the first lookup is raised and nothing else is sent; if it
    does, the retry with the identifier as the address is sent, and when the
    retry fails too the error raised is the [RetrievalError] of the retry's
    response. *)
Theorem retrieve_fallback :
  forall (server : list Request -> Request -> Response) (self : Store)
         (id_ : string) (version : pyversion) (cross_bucket retrieve_source : bool)
         (w : World) (version_params : option (string * param_value))
         (parsed_id : Urllib.ParseResult) (fragment_ : option string)
         (query_params : option Params),
    version_params_of version = Return version_params ->
    split_identifier id_ = Return (parsed_id, fragment_, query_params) ->
    let params := merge_version version_params query_params in
    let id_without_query := id_without_query_of parsed_id fragment_ in
    let first := get (lookup_url self id_without_query cross_bucket retrieve_source) params in
    let retry := get (fallback_url id_without_query cross_bucket retrieve_source) params in
    let run := retrieve server self id_ version cross_bucket retrieve_source w in
    success (server (log w) first) = false ->
    (PyStr.startswith id_ (nexus_path self cross_bucket) = false ->
     run = (Raise (Exn RetrievalError
                     (_error_message (service self) (server (log w) first))),
            sent w [first]))
    /\ (PyStr.startswith id_ (nexus_path self cross_bucket) = true ->
        (exists out more, run = (out, sent w (first :: retry :: more)))
        /\ (success (server (log w ++ [first])%list retry) = false ->
            run = (Raise (Exn RetrievalError
                            (_error_message (service self)
                               (server (log w ++ [first])%list retry))),
                   sent w [first; retry]))).
Proof.
  intros server self id_ version cross_bucket retrieve_source w vp parsed_id
         fragment_ qp Hv Hs params id_without_query first retry run Hfail.
  subst run.
  rewrite (retrieve_steps server self id_ version cross_bucket retrieve_source w
             vp parsed_id fragment_ qp Hv Hs).
  fold params id_without_query.
  rewrite (first_lookup_failed server self id_ id_without_query params
             cross_bucket retrieve_source w _ Hfail).
  fold first retry.
  split; intro Hpath; rewrite Hpath; [reflexivity|].
  split.
  - destruct (success (server (log w ++ [first])%list retry)).
    + unfold bind.
      destruct (fetch_metadata_sends server self
                  (server (log w ++ [first])%list retry) id_without_query params
                  cross_bucket retrieve_source (sent w [first; retry]))
        as (o & more & E).
      rewrite E, sent_sent. destruct o; unfold lift; eexists; exists more; reflexivity.
    + eexists; exists []. reflexivity.
  - intros ->. reflexivity.
Qed.

Lemma retrieve_fallback_witness :
  retrieve error_then_forbidden test_store
    "https://nexus-instance.org/resources/test/kgforge/_/x" VerNone false false
    empty_world
  = (Raise (Exn RetrievalError "status 403"),
     mkWorld
       [get "https://nexus-instance.org/resources/test/kgforge/_/https%3A%2F%2Fnexus-instance.org%2Fresources%2Ftest%2Fkgforge%2F_%2Fx" None;
        get "https://nexus-instance.org/resources/test/kgforge/_/x" None] []).
Proof.
  etransitivity.
  - apply (proj2 (proj2 (retrieve_fallback error_then_forbidden test_store
                            "https://nexus-instance.org/resources/test/kgforge/_/x"
                            VerNone false false empty_world None
                            (Urllib.mkParseResult "https" "nexus-instance.org"
                               "/resources/test/kgforge/_/x" "" "" "")
                            None None ltac:(by_computation) ltac:(by_computation)
                            ltac:(by_computation))
                   ltac:(by_computation)));
      by_computation.
  - by_computation.
Defined.

(** ** Search *)

Lemma normalize_filters_keeps_log (self : Store) (filters : pyfilters) (w : World) :
  log (snd (normalize_filters self filters w)) = log w.
Proof.
  unfold normalize_filters, bind, filters_truthy.
  destruct filters as [|r|items]; simpl.
  - reflexivity.
  - destruct (nth r (heap w) []) as [|[|d|f] l] eqn:E; simpl; rewrite ?E; simpl;
      try reflexivity.
    unfold lift. destruct (create_filters_from_dict self d); reflexivity.
  - destruct items; reflexivity.
Qed.

(** C4. The validation of [search].  An endpoint that is neither the SPARQL
    nor the Elasticsearch one raises a [ValueError]; a [bucket] without
    [cross_bucket] raises, and the error is the not-supported one as soon as
    the checks before it pass (a model context, a known endpoint, no
    ["filters"] key); [includes] or [excludes] with the SPARQL endpoint
    raises, and the error is the [ValueError] of that check as soon as the
    checks and the reading of the filters before it pass.  In every case the
    log of requests is the one before the call: no request has been sent. *)
Theorem search_validation :
  forall (server : list Request -> Request -> Response) (self : Store)
         (filters : pyfilters) (params : SearchParams) (w : World),
    let run := search server self filters params w in
    (selects_sparql self params || selects_elastic self params = false ->
     exists msg, run = (Raise (Exn ValueError msg), w))
    /\ (bucket_without_cross_bucket params = true ->
        (exists e, run = (Raise e, w))
        /\ (model_context self <> None ->
            selects_sparql self params || selects_elastic self params = true ->
            p_filters params = false ->
            exists msg, run = (Raise (Exn NotSupportedError msg), w)))
    /\ (selects_sparql self params = true -> projects_fields params = true ->
        (exists e w', run = (Raise e, w') /\ log w' = log w)
        /\ (forall filters' w1,
               model_context self <> None ->
               p_filters params = false ->
               bucket_without_cross_bucket params = false ->
               normalize_filters self filters w = (Return filters', w1) ->
               run = (Raise (Exn ValueError
                               "Field inclusion and exclusion are not supported when using SPARQL"),
                      w1))).
Proof.
  intros server self filters params w run.
  unfold selects_sparql, selects_elastic, selected_endpoint,
    bucket_without_cross_bucket, projects_fields.
  subst run. unfold search.
  destruct (model_context self) as [c|] eqn:Hc.
  2:{ split; [|split].
      - intros _. now eexists.
      - intros _. split; [now eexists | intros H; now elim H].
      - intros _ _. split; [now exists (Exn ValueError "context model missing"), w|].
        intros ? ? H; now elim H. }
  set (known := is_str (sparql_endpoint_type (service self))
                  (get_param (p_search_endpoint params)
                     (JStr (sparql_endpoint_type (service self))))
                || is_str (elastic_endpoint_type (service self))
                     (get_param (p_search_endpoint params)
                        (JStr (sparql_endpoint_type (service self))))).
  split; [|split].
  - intros ->. now eexists.
  - intros Hb. split.
    + destruct known; [|now eexists].
      destruct (p_filters params); [now eexists|].
      rewrite Hb. now eexists.
    + intros _ -> ->. rewrite Hb. now eexists.
  - intros Hs Hp.
    assert (Hk : known = true) by (unfold known; now rewrite Hs).
    rewrite Hk. cbn [negb]. split.
    + destruct (p_filters params); [now do 2 eexists|].
      destruct (_ && _); [now do 2 eexists|].
      unfold bind.
      pose proof (normalize_filters_keeps_log self filters w) as Hlog.
      destruct (normalize_filters self filters w) as [[f'|e] w1]; simpl in Hlog.
      * rewrite Hs. unfold search_sparql. rewrite Hp. do 2 eexists. split; [reflexivity|].
        exact Hlog.
      * do 2 eexists. split; [reflexivity | exact Hlog].
    + intros filters' w1 _ -> -> Hn. unfold bind. rewrite Hn, Hs.
      unfold search_sparql. now rewrite Hp.
Qed.

Lemma search_validation_witness :
  (exists msg,
      search no_hits test_store FNone (with_endpoint "graphql") empty_world
      = (Raise (Exn ValueError msg), empty_world))
  /\ (exists msg,
         search no_hits test_store FNone (with_bucket "other/project") empty_world
         = (Raise (Exn NotSupportedError msg), empty_world))
  /\ (exists e w',
         search no_hits test_store FNone (with_includes [JStr "name"]) empty_world
         = (Raise e, w') /\ log w' = log empty_world).
Proof.
  split; [|split].
  - apply (proj1 (search_validation no_hits test_store FNone
                    (with_endpoint "graphql") empty_world)).
    by_computation.
  - apply (proj2 (proj1 (proj2 (search_validation no_hits test_store FNone
                                  (with_bucket "other/project") empty_world))
                    ltac:(by_computation))).
    + discriminate.
    + by_computation.
    + by_computation.
  - apply (proj1 (proj2 (proj2 (search_validation no_hits test_store FNone
                                  (with_includes [JStr "name"]) empty_world))
                    ltac:(by_computation) ltac:(by_computation))).
Defined.

(** *** The filters of the caller on the Elasticsearch path (C9) *)

(** C9, refuted: the caller hands a list that holds one nested mapping; the
    filters are built into a new list, the two filters are appended to that
    one, and the list of the caller is as it was when [search] returns. *)
Lemma elastic_search_grows_the_callers_list_fails :
  ~ elastic_search_grows_the_callers_list.
Proof.
  intro claim.
  pose proof (fun w' =>
                claim no_hits test_store 0 (with_endpoint "elastic")
                  (mkWorld [] [[ItemDict (JObj [("type", JStr "Person")])]])
                  w' [ItemDict (JObj [("type", JStr "Person")])] []) as at_input.
  edestruct at_input as (added & Hheap & Hlen).
  - reflexivity.
  - by_computation.
  - by_computation.
  - vm_compute in Hheap. injection Hheap as Hheap.
    destruct added; simpl in Hlen; [lia | discriminate Hheap].
Qed.

Lemma nth_of_nth_error {A : Type} (h : list A) (r : nat) (l d : A) :
  nth_error h r = Some l -> nth r h d = l.
Proof.
  revert r; induction h as [|x h IH]; intros [|r] H; simpl in *; try discriminate.
  - now injection H.
  - now apply IH.
Qed.

Lemma nth_error_update_same {A : Type} (f : A -> A) (h : list A) (r : nat) (l : A) :
  nth_error h r = Some l -> nth_error (update_nth r f h) r = Some (f l).
Proof.
  revert r; induction h as [|x h IH]; intros [|r] H; simpl in *; try discriminate.
  - now injection H as ->.
  - now apply IH.
Qed.

Lemma nth_error_update_beyond {A : Type} (f : A -> A) (h : list A) (x : A) (r : nat) (l : A) :
  nth_error h r = Some l ->
  nth_error (update_nth (List.length h) f (h ++ [x])) r = Some l.
Proof.
  revert r; induction h as [|y h IH]; intros [|r] H; simpl in *; try discriminate.
  - exact H.
  - now apply IH.
Qed.

Lemma nth_error_update_last {A : Type} (f : A -> A) (h : list A) (x : A) :
  nth_error (update_nth (List.length h) f (h ++ [x])) (List.length h) = Some (f x).
Proof. induction h as [|y h IH]; simpl; [reflexivity | exact IH]. Qed.

Lemma update_nth_twice {A : Type} (f g : A -> A) (h : list A) (r : nat) :
  update_nth r g (update_nth r f h) = update_nth r (fun l => g (f l)) h.
Proof.
  revert r; induction h as [|x h IH]; intros [|r]; simpl; try reflexivity.
  now rewrite IH.
Qed.

Lemma update_nth_ext {A : Type} (f g : A -> A) (h : list A) (r : nat) :
  (forall x, f x = g x) -> update_nth r f h = update_nth r g h.
Proof.
  intro E. revert r; induction h as [|x h IH]; intros [|r]; simpl; try reflexivity.
  - now rewrite E.
  - now rewrite IH.
Qed.

Lemma elastic_keeps_heap (server : list Request -> Request -> Response) (self : Store)
      (q : string) (debug limit offset : json) (w : World) :
  heap (snd (elastic server self q debug limit offset w)) = heap w.
Proof.
  unfold elastic, _elastic, bind, lift, send.
  destruct (prepare_query self q debug limit offset); [|reflexivity]. cbn [log heap].
  destruct (catch_http_error_nexus _ _ _); [|reflexivity].
  destruct (response_json _) as [j|]; [|reflexivity].
  destruct (json_getitem "hits" j) as [j'|]; [|reflexivity].
  destruct (json_getitem "hits" j'); reflexivity.
Qed.

(** The heap after the Elasticsearch path has returned: the list the search
    works on has the deprecation filter and, when there is a project to
    restrict to, the project filter at its end; nothing else has moved. *)
Lemma search_elastic_heap (server : list Request -> Request -> Response) (self : Store)
      (r : nat) (params : SearchParams) (debug limit offset includes excludes : json)
      (w w' : World) (found : list Resource) :
  search_elastic server self (FList r) debug limit offset
    (get_param (p_deprecated params) (JBool false))
    (get_param (p_cross_bucket params) (JBool false))
    (get_param (p_bucket params) JNull) includes excludes w
  = (Return found, w') ->
  heap w' = update_nth r (fun l => (l ++ appended_filters self params)%list) (heap w).
Proof.
  unfold search_elastic, appended_filters. intro H.
  unfold bind at 1 in H. unfold on_log in H.
  destruct (fetch_elastic_view (service self) (log w)) as [[view|e] lg]; [|discriminate H].
  unfold bind at 1, lift at 1 in H.
  destruct (json_contains "mapping" view) as [has|e]; [|discriminate H].
  unfold bind at 1 in H.
  match type of H with
  | context [(if has then ?a else ?b) ?w0] =>
      assert (Hm : (exists m, (if has then a else b) w0 = (Return m, w0))
                   \/ (exists e, (if has then a else b) w0 = (Raise e, w0)))
  end.
  { destruct has.
    - unfold bind, lift, ret. destruct (json_getitem "mapping" view); eauto.
    - unfold ret. eauto. }
  destruct Hm as [[m Hm] | [e Hm]]; rewrite Hm in H; [|discriminate H]. clear Hm.
  unfold bind at 1, filters_append at 1, list_append at 1 in H. cbn [log heap] in H.
  unfold bind at 1, lift at 1 in H.
  destruct (project_scope self _ _) as [[[|a p]|]|e]; [| | |discriminate H].
  - unfold bind at 1, ret at 1 in H.
    unfold bind at 1, filters_content, bind at 1, deref, ret in H. cbn [log heap] in H.
    unfold bind at 1, lift at 1 in H.
    destruct (es_build _ _ _ _ _ _ _); [|discriminate H].
    match type of H with
    | elastic ?s ?st ?q ?d ?l ?o ?w0 = _ =>
        pose proof (elastic_keeps_heap s st q d l o w0) as Hk
    end.
    rewrite H in Hk. simpl in Hk. exact Hk.
  - unfold bind at 1, filters_append at 1, list_append at 1 in H. cbn [log heap] in H.
    unfold bind at 1, filters_content, bind at 1, deref, ret in H. cbn [log heap] in H.
    unfold bind at 1, lift at 1 in H.
    destruct (es_build _ _ _ _ _ _ _); [|discriminate H].
    match type of H with
    | elastic ?s ?st ?q ?d ?l ?o ?w0 = _ =>
        pose proof (elastic_keeps_heap s st q d l o w0) as Hk
    end.
    rewrite H in Hk. simpl in Hk. rewrite Hk, update_nth_twice.
    apply update_nth_ext. intro l. now rewrite <- app_assoc.
  - unfold bind at 1, ret at 1 in H.
    unfold bind at 1, filters_content, bind at 1, deref, ret in H. cbn [log heap] in H.
    unfold bind at 1, lift at 1 in H.
    destruct (es_build _ _ _ _ _ _ _); [|discriminate H].
    match type of H with
    | elastic ?s ?st ?q ?d ?l ?o ?w0 = _ =>
        pose proof (elastic_keeps_heap s st q d l o w0) as Hk
    end.
    rewrite H in Hk. simpl in Hk. exact Hk.
Qed.

(** C9, as the code has it. On the Elasticsearch path, when [search]
    returns: if the list object of the caller is empty or starts with a
    [Filter], the deprecation filter and, when the search has a project to
    be restricted to, the project filter have been appended to that object
    in place, one or two entries; if it starts with a nested mapping, the
    object of the caller is as it was, and the appended filters are at the
    end of the new list built from the mapping. *)
Theorem search_elastic_appends_in_place :
  forall (server : list Request -> Request -> Response) (self : Store)
         (r : nat) (params : SearchParams) (w w' : World)
         (l : list filter_item) (found : list Resource),
    nth_error (heap w) r = Some l ->
    selects_sparql self params = false ->
    search server self (FList r) params w = (Return found, w') ->
    (List.length (appended_filters self params) = 1
     \/ List.length (appended_filters self params) = 2)
    /\ match l with
       | ItemDict d :: _ =>
           nth_error (heap w') r = Some l
           /\ exists fs,
               create_filters_from_dict self d = Return fs
               /\ nth_error (heap w') (List.length (heap w))
                  = Some (map ItemFilter fs ++ appended_filters self params)%list
       | _ => nth_error (heap w') r = Some (l ++ appended_filters self params)%list
       end.
Proof.
  intros server self r params w w' l found Hl Hsel H.
  split.
  { unfold appended_filters.
    destruct (project_scope self _ _) as [[[|a p]|]|e]; simpl; auto. }
  unfold search in H. unfold selects_sparql, selected_endpoint in Hsel.
  destruct (model_context self); [|discriminate H].
  destruct (negb _); [discriminate H|].
  destruct (p_filters params); [discriminate H|].
  destruct (_ && _) in H; [discriminate H|].
  rewrite Hsel in H.
  unfold bind at 1, normalize_filters, bind at 1, filters_truthy, bind at 1, deref, ret in H.
  cbn [log heap] in H.
  rewrite (nth_of_nth_error (heap w) r l [] Hl) in H.
  destruct l as [|[|d|f] l].
  - apply search_elastic_heap in H. rewrite H.
    exact (nth_error_update_same
             (fun l => (l ++ appended_filters self params)%list) (heap w) r _ Hl).
  - unfold bind at 1 in H. rewrite (nth_of_nth_error (heap w) r _ [] Hl) in H.
    discriminate H.
  - unfold bind at 1 in H. rewrite (nth_of_nth_error (heap w) r _ [] Hl) in H.
    unfold bind at 1, lift at 1 in H.
    destruct (create_filters_from_dict self d) as [fs|e]; [|discriminate H].
    unfold bind at 1, alloc at 1 in H.
    apply search_elastic_heap in H. cbn [log heap] in H. rewrite H. split.
    + now apply nth_error_update_beyond.
    + exists fs. split; [reflexivity|].
      exact (nth_error_update_last
               (fun l => (l ++ appended_filters self params)%list) (heap w)
               (map ItemFilter fs)).
  - unfold bind at 1 in H. rewrite (nth_of_nth_error (heap w) r _ [] Hl) in H.
    apply search_elastic_heap in H. rewrite H.
    exact (nth_error_update_same
             (fun l => (l ++ appended_filters self params)%list) (heap w) r _ Hl).
Qed.

Lemma search_elastic_appends_in_place_witness :
  exists w',
    search no_hits test_store (FList 0) (with_endpoint "elastic")
      (mkWorld [] [[ItemFilter (mkFilter ["type"] "__eq__" (JStr "Person"))]])
    = (Return [], w')
    /\ nth_error (heap w') 0
       = Some [ItemFilter (mkFilter ["type"] "__eq__" (JStr "Person"));
               ItemFilter (mkFilter ["_deprecated"] "__eq__" (JBool false));
               ItemFilter (mkFilter ["_project"] "__eq__"
                             (JStr "https://nexus-instance.org/projects/test/kgforge"))].
Proof.
  eexists. split; [by_computation|].
  etransitivity.
  - refine (proj2 (search_elastic_appends_in_place no_hits test_store 0
                     (with_endpoint "elastic")
                     (mkWorld [] [[ItemFilter (mkFilter ["type"] "__eq__" (JStr "Person"))]])
                     _ [ItemFilter (mkFilter ["type"] "__eq__" (JStr "Person"))] []
                     eq_refl ltac:(by_computation) ltac:(by_computation))).
  - by_computation.
Defined.

(** ** Batch operations (C1) *)












Lemma create_tasks_opened (self : Store) (open_rb : string -> option exn)
      (content_type : option string) (paths : list string) :
  opened open_rb paths ->
  create_tasks self open_rb content_type paths
  = Return (map (upload_request self content_type) paths).
Proof.
  induction 1 as [|p rest Hp _ IH]; [reflexivity|].
  cbn [create_tasks map]. unfold _create_task. rewrite Hp. cbn [obind].
  rewrite IH. reflexivity.
Qed.


(** One upload that the store accepts. *)
Lemma upload_accepted (server : list Request -> Request -> Response) (data : Request)
      (w : World) :
  uploaded (server (log w) data) = true ->
  exists body,
    content (server (log w) data) = Some body
    /\ _upload server data w = (Return body, sent w [data]).
Proof.
  intro H. unfold uploaded in H. apply andb_true_iff in H as [Hstatus Hbody].
  destruct (content (server (log w) data)) as [body|] eqn:E; [|discriminate Hbody].
  exists body. split; [reflexivity|].
  unfold _upload. unfold bind at 1, send at 1. unfold bind at 1, lift at 1, response_json.
  rewrite E, Hstatus. reflexivity.
Qed.





(** ** [rewrite_uri] (C3) *)

(** The cases of [test_rewrite_uri] in the tests of the repository. *)
Example rewrite_uri_test_cases :
  rewrite_uri test_store "myverycoolid123456789" test_context true
  = Return "https://nexus-instance.org/files/test/kgforge/myverycoolid123456789"
  /\ rewrite_uri test_store "http://data.net/myverycoolid123456789" test_context false
     = Return "https://nexus-instance.org/resources/test/kgforge/_/http%3A%2F%2Fdata.net%2Fmyverycoolid123456789"
  /\ rewrite_uri test_store "http://data.net/07ed2dab-587a-4144-90c7-4cdd252cfa3f"
       test_context true
     = Return "https://nexus-instance.org/files/test/kgforge/http%3A%2F%2Fdata.net%2F07ed2dab-587a-4144-90c7-4cdd252cfa3f"
  /\ rewrite_uri test_store
       "https://nexus-instance.org/files/test/kgforge/myverycoolid123456789"
       test_context true
     = Return "https://nexus-instance.org/files/test/kgforge/http%3A%2F%2Fdata.net%2Fmyverycoolid123456789"
  /\ rewrite_uri test_store
       "https://nexus-instance.org/resources/test/kgforge/datashapes:example/43edd8bf-5dfe-45cd-b6d8-1a604dd6beca"
       test_context false
     = Return "https://nexus-instance.org/resources/test/kgforge/https%3A%2F%2Fneuroshapes.org%2Fdash%2Fexample/http%3A%2F%2Fdata.net%2F43edd8bf-5dfe-45cd-b6d8-1a604dd6beca"
  /\ rewrite_uri test_store
       "https://nexus-instance.org/resources/test/kgforge/_/43edd8bf-5dfe-45cd-b6d8-1a604dd6beca"
       test_context false
     = Return "https://nexus-instance.org/resources/test/kgforge/_/http%3A%2F%2Fdata.net%2F43edd8bf-5dfe-45cd-b6d8-1a604dd6beca"
  /\ rewrite_uri test_store
       "https://nexus-instance.org/files/test/kgforge/http%3A%2F%2Fdata.net%2F632a7644-b07e-4fcd-a537-9162e3444106"
       test_context true
     = Return "https://nexus-instance.org/files/test/kgforge/http%3A%2F%2Fdata.net%2F632a7644-b07e-4fcd-a537-9162e3444106"
  /\ rewrite_uri test_store
       "https://nexus-instance.org/resources/test/kgforge/_/http%3A%2F%2Fdata.net%2F43edd8bf-5dfe-45cd-b6d8-1a604dd6beca"
       test_context false
     = Return "https://nexus-instance.org/resources/test/kgforge/_/http%3A%2F%2Fdata.net%2F43edd8bf-5dfe-45cd-b6d8-1a604dd6beca".
Proof. repeat split; by_computation. Qed.

(** C3, refuted, with the first and the fourth case of the tests: the bare
    file identifier is rewritten to the address of the file, and that
    address is rewritten again, to the one with the identifier expanded
    against the base of the context. *)
Lemma rewrite_uri_idempotent_fails : ~ rewrite_uri_idempotent.
Proof.
  intro claim.
  pose proof (claim test_store "myverycoolid123456789" test_context true
                "https://nexus-instance.org/files/test/kgforge/myverycoolid123456789"
                ltac:(by_computation)) as again.
  vm_compute in again. discriminate again.
Qed.

(** ** The identifier of [retrieve] (C6) *)

(** *** More facts about strings *)

Lemma has_char_append (c : ascii) (a b : string) :
  PyStr.has_char c (a ++ b) = PyStr.has_char c a || PyStr.has_char c b.
Proof.
  induction a as [|x a IH]; simpl; [reflexivity|].
  destruct (PyStr.chr_eqb x c); [reflexivity | exact IH].
Qed.

Lemma all_chars_append (p : ascii -> bool) (a b : string) :
  PyStr.all_chars p (a ++ b) = PyStr.all_chars p a && PyStr.all_chars p b.
Proof.
  induction a as [|x a IH]; simpl; [reflexivity|].
  destruct (p x); [exact IH | reflexivity].
Qed.

(** A character outside a class is in no string of the class. *)
Lemma all_chars_excludes (p : ascii -> bool) (c : ascii) (s : string) :
  p c = false -> PyStr.all_chars p s = true -> PyStr.has_char c s = false.
Proof.
  intros Hc. induction s as [|x s IH]; simpl; [reflexivity|].
  destruct (p x) eqn:Hx; [|discriminate].
  intro H. unfold PyStr.chr_eqb.
  destruct (Ascii.eqb_spec x c) as [->|_]; [congruence | now apply IH].
Qed.

Lemma all_chars_weaken (p q : ascii -> bool) (s : string) :
  (forall c, p c = true -> q c = true) ->
  PyStr.all_chars p s = true -> PyStr.all_chars q s = true.
Proof.
  intro W. induction s as [|x s IH]; simpl; [reflexivity|].
  destruct (p x) eqn:Hx; [|discriminate].
  rewrite (W x Hx). exact IH.
Qed.

Lemma cut_at_first (c : ascii) (a b : string) :
  PyStr.has_char c a = false -> PyStr.cut c (a ++ String c b) = Some (a, b).
Proof.
  induction a as [|x a IH]; simpl.
  - intros _. unfold PyStr.chr_eqb. now rewrite Ascii.eqb_refl.
  - destruct (PyStr.chr_eqb x c); [discriminate|].
    intro H. now rewrite (IH H).
Qed.

Lemma cut_absent (c : ascii) (s : string) :
  PyStr.has_char c s = false -> PyStr.cut c s = None.
Proof.
  induction s as [|x s IH]; simpl; [reflexivity|].
  destruct (PyStr.chr_eqb x c); [discriminate|].
  intro H. now rewrite (IH H).
Qed.

Lemma remove_chars_none (p : ascii -> bool) (s : string) :
  PyStr.all_chars (fun c => negb (p c)) s = true -> Urllib.remove_chars p s = s.
Proof.
  induction s as [|x s IH]; simpl; [reflexivity|].
  destruct (p x); simpl; [discriminate|].
  intro H. now rewrite (IH H).
Qed.

Lemma lstrip_none (p : ascii -> bool) (s : string) :
  PyStr.all_chars (fun c => negb (p c)) s = true -> Urllib.lstrip p s = s.
Proof.
  destruct s as [|x s]; simpl; [reflexivity|].
  destruct (p x); simpl; [discriminate | reflexivity].
Qed.

Lemma string_of_list_ascii_app (l m : list ascii) :
  string_of_list_ascii (l ++ m)
  = string_of_list_ascii l ++ string_of_list_ascii m.
Proof. induction l as [|x l IH]; simpl; [reflexivity | now rewrite IH]. Qed.

(** Without the separator in it, a string is split into itself. *)
Lemma split_scan_absent (c : ascii) (s : string) (cur : list ascii) :
  PyStr.has_char c s = false ->
  PyStr.split_scan (String c "") 0 cur s = [PyStr.rev_string cur ++ s].
Proof.
  revert cur; induction s as [|x s IH]; intros cur; simpl.
  - intros _. now rewrite append_empty_r.
  - unfold PyStr.chr_eqb. destruct (ascii_dec c x) as [->|ne].
    + now rewrite Ascii.eqb_refl.
    + destruct (Ascii.eqb_spec x c) as [->|_]; [now elim ne|].
      intro H. rewrite (IH (x :: cur) H). unfold PyStr.rev_string. simpl.
      rewrite string_of_list_ascii_app, append_assoc. reflexivity.
Qed.

Lemma split_absent (c : ascii) (s : string) :
  PyStr.has_char c s = false -> PyStr.split (String c "") s = [s].
Proof. intro H. unfold PyStr.split. now rewrite (split_scan_absent c s [] H). Qed.

Lemma replace_absent (c : ascii) (new s : string) :
  PyStr.has_char c s = false -> PyStr.replace s (String c "") new = s.
Proof.
  unfold PyStr.replace. induction s as [|x s IH]; simpl; [reflexivity|].
  unfold PyStr.chr_eqb. destruct (ascii_dec c x) as [->|ne].
  - now rewrite Ascii.eqb_refl.
  - destruct (Ascii.eqb_spec x c) as [->|_]; [now elim ne|].
    intro H. now rewrite (IH H).
Qed.

Lemma unquote_plain (s : string) :
  PyStr.has_char "%" s = false -> Urllib.unquote s = s.
Proof.
  induction s as [|x s IH]; simpl; [reflexivity|].
  destruct (PyStr.chr_eqb x "%"); [discriminate|].
  intro H. now rewrite (IH H).
Qed.

(** *** Identifiers with a fragment and a query after it *)

(** Facts about single characters, by enumeration. *)
Ltac by_enumeration :=
  intros [[] [] [] [] [] [] [] []]; vm_compute;
  repeat split; intros; try reflexivity; try discriminate; try tauto.

Lemma scheme_char_facts (c : ascii) :
  Urllib.scheme_char c = true ->
  graphic c = true /\ PyStr.chr_eqb c ":" = false.
Proof. revert c. by_enumeration. Qed.

Lemma always_safe_facts (c : ascii) :
  Urllib.always_safe c = true ->
  fragment_char c = true
  /\ negb (PyStr.has_char c "&=+%") = true.
Proof. revert c. by_enumeration. Qed.

Lemma graphic_facts (c : ascii) :
  graphic c = true ->
  negb (Urllib.c0_or_space c) = true /\ negb (Urllib.unsafe_byte c) = true.
Proof. revert c. by_enumeration. Qed.

Lemma netloc_char_facts (c : ascii) :
  netloc_char c = true ->
  graphic c = true
  /\ (PyStr.chr_eqb c "/" || PyStr.chr_eqb c "?" || PyStr.chr_eqb c "#") = false.
Proof. revert c. by_enumeration. Qed.

Lemma path_char_facts (c : ascii) : path_char c = true -> graphic c = true.
Proof. revert c. by_enumeration. Qed.

Lemma fragment_char_facts (c : ascii) : fragment_char c = true -> graphic c = true.
Proof. revert c. by_enumeration. Qed.

Lemma span_netloc_app (n rest : string) :
  PyStr.all_chars netloc_char n = true ->
  (rest = "" \/ exists a r, rest = String a r
                            /\ (PyStr.chr_eqb a "/" || PyStr.chr_eqb a "?"
                                || PyStr.chr_eqb a "#") = true) ->
  Urllib.span_netloc (n ++ rest) = (n, rest).
Proof.
  intros Hn Hrest. induction n as [|x n IH]; simpl in *.
  - destruct Hrest as [->|(a & r & -> & Ha)]; [reflexivity|].
    simpl. now rewrite Ha.
  - destruct (netloc_char x) eqn:Hx; [|discriminate].
    destruct (netloc_char_facts x Hx) as [_ Hd]. rewrite Hd.
    now rewrite (IH Hn).
Qed.

Lemma prefix_slashes_before_query (f r : string) :
  String.prefix "//" (f ++ String "?" r) = String.prefix "//" f.
Proof.
  destruct f as [|a [|b f]]; simpl append.
  - reflexivity.
  - rewrite !prefix_cons. destruct (Ascii.eqb "/" a); reflexivity.
  - rewrite !prefix_cons. destruct (Ascii.eqb "/" a); [|reflexivity].
    destruct (Ascii.eqb "/" b); [|reflexivity].
    now rewrite !prefix_empty.
Qed.

Lemma graphic_string (s : string) :
  PyStr.all_chars graphic s = true ->
  Urllib.remove_chars Urllib.unsafe_byte (Urllib.lstrip Urllib.c0_or_space s) = s.
Proof.
  intro H. rewrite lstrip_none, remove_chars_none; try reflexivity.
  - revert H. apply all_chars_weaken. intros c Hc. now destruct (graphic_facts c Hc).
  - revert H. apply all_chars_weaken. intros c Hc. now destruct (graphic_facts c Hc).
Qed.

(** The parts, one fact at a time. *)
Lemma identifier_shape_facts (scheme netloc path fragment key value_ : string) :
  identifier_shape scheme netloc path fragment key value_ = true ->
  (exists a s, scheme = String a s /\ PyStr.is_alpha a = true)
  /\ PyStr.all_chars Urllib.scheme_char scheme = true
  /\ PyStr.all_chars netloc_char netloc = true
  /\ PyStr.all_chars path_char path = true
  /\ (path = "" \/ exists r, path = String "/" r)
  /\ PyStr.all_chars fragment_char fragment = true
  /\ String.prefix "//" fragment = false
  /\ PyStr.all_chars Urllib.always_safe key = true
  /\ PyStr.all_chars Urllib.always_safe value_ = true
  /\ (exists a s, value_ = String a s).
Proof.
  unfold identifier_shape. intro H.
  apply andb_true_iff in H as [H Hnonempty].
  apply andb_true_iff in H as [H Hvalue].
  apply andb_true_iff in H as [H Hkey].
  apply andb_true_iff in H as [H Hslashes].
  apply andb_true_iff in H as [H Hfragment].
  apply andb_true_iff in H as [H Hroot].
  apply andb_true_iff in H as [H Hpath].
  apply andb_true_iff in H as [H Hnetloc].
  apply andb_true_iff in H as [Hletter Hscheme].
  repeat match goal with |- _ /\ _ => split end; try assumption.
  - destruct scheme as [|a s]; [discriminate Hletter|]. now exists a, s.
  - apply orb_true_iff in Hroot as [Hroot|Hroot].
    + left. now apply String.eqb_eq.
    + right. unfold PyStr.startswith in Hroot.
      destruct path as [|x r]; [discriminate Hroot|].
      rewrite prefix_cons in Hroot.
      destruct (Ascii.eqb_spec "/"%char x) as [<-|]; [now exists r | discriminate Hroot].
  - now apply negb_true_iff in Hslashes.
  - apply negb_true_iff in Hnonempty. destruct value_ as [|a s];
      [discriminate Hnonempty | now exists a, s].
Qed.

Lemma identifier_parts_shape (scheme netloc path fragment key value_ : string) :
  identifier_parts scheme netloc path fragment key value_ = true ->
  identifier_shape scheme netloc path fragment key value_ = true.
Proof. unfold identifier_parts. intro H. now apply andb_true_iff in H as [H _]. Qed.

Lemma identifier_parts_facts (scheme netloc path fragment key value_ : string) :
  identifier_parts scheme netloc path fragment key value_ = true ->
  (exists a s, scheme = String a s /\ PyStr.is_alpha a = true)
  /\ PyStr.all_chars Urllib.scheme_char scheme = true
  /\ PyStr.all_chars netloc_char netloc = true
  /\ PyStr.all_chars path_char path = true
  /\ (path = "" \/ exists r, path = String "/" r)
  /\ PyStr.all_chars fragment_char fragment = true
  /\ String.prefix "//" fragment = false
  /\ PyStr.all_chars Urllib.always_safe key = true
  /\ PyStr.all_chars Urllib.always_safe value_ = true
  /\ (exists a s, value_ = String a s).
Proof. intro H. apply identifier_shape_facts, identifier_parts_shape, H. Qed.

Lemma identifier_parts_host (scheme netloc path fragment key value_ : string) :
  identifier_parts scheme netloc path fragment key value_ = true ->
  Urllib.nfkc_unsafe netloc = false.
Proof.
  unfold identifier_parts. intro H.
  apply andb_true_iff in H as [_ H]. now apply negb_true_iff in H.
Qed.

Lemma nfkc_unsafe_empty : Urllib.nfkc_unsafe "" = false.
Proof. reflexivity. Qed.

Lemma safe_is_fragment (s : string) :
  PyStr.all_chars Urllib.always_safe s = true -> PyStr.all_chars fragment_char s = true.
Proof. apply all_chars_weaken. intros c Hc. now destruct (always_safe_facts c Hc). Qed.

(** The text after the [#] is made of fragment characters but for its
    [?] and [=]. *)
Lemma after_hash_chars (p : ascii -> bool) (fragment key value_ : string) :
  (forall c, fragment_char c = true -> p c = true) ->
  p "?"%char = true -> p "="%char = true ->
  PyStr.all_chars fragment_char fragment = true ->
  PyStr.all_chars Urllib.always_safe key = true ->
  PyStr.all_chars Urllib.always_safe value_ = true ->
  PyStr.all_chars p (fragment ++ "?" ++ key ++ "=" ++ value_) = true.
Proof.
  intros W Hq He Hf Hk Hv.
  rewrite !all_chars_append. simpl. rewrite Hq, He.
  rewrite (all_chars_weaken _ _ _ W Hf).
  rewrite (all_chars_weaken _ _ _ W (safe_is_fragment _ Hk)).
  rewrite (all_chars_weaken _ _ _ W (safe_is_fragment _ Hv)). reflexivity.
Qed.

Lemma urlparse_after_hash (fragment key value_ : string) :
  PyStr.all_chars fragment_char fragment = true ->
  String.prefix "//" fragment = false ->
  PyStr.all_chars Urllib.always_safe key = true ->
  PyStr.all_chars Urllib.always_safe value_ = true ->
  Urllib.urlparse (fragment ++ "?" ++ key ++ "=" ++ value_)
  = Return (Urllib.mkParseResult "" "" fragment "" (key ++ "=" ++ value_) "").
Proof.
  intros Hf Hs Hk Hv.
  assert (none : forall c, fragment_char c = false -> Urllib.always_safe c = false ->
                           PyStr.chr_eqb "?" c = false -> PyStr.chr_eqb "=" c = false ->
                           PyStr.has_char c (fragment ++ "?" ++ key ++ "=" ++ value_) = false).
  { intros c Hc Hc' Hq He. rewrite !has_char_append. cbn [PyStr.has_char].
    rewrite Hq, He.
    rewrite (all_chars_excludes fragment_char c fragment Hc Hf).
    rewrite (all_chars_excludes Urllib.always_safe c key Hc' Hk).
    rewrite (all_chars_excludes Urllib.always_safe c value_ Hc' Hv). reflexivity. }
  unfold Urllib.urlparse, Urllib.urlsplit.
  rewrite graphic_string
    by (apply after_hash_chars; try assumption; try reflexivity;
        exact fragment_char_facts).
  unfold Urllib.split_scheme. rewrite (cut_absent _ _ (none ":"%char eq_refl eq_refl eq_refl eq_refl)).
  unfold Urllib.split_netloc.
  change (fragment ++ "?" ++ key ++ "=" ++ value_)
    with (fragment ++ String "?" (key ++ "=" ++ value_)) in *.
  rewrite prefix_slashes_before_query, Hs. cbn [PyStr.has_char xorb andb].
  rewrite nfkc_unsafe_empty.
  unfold Urllib.split_once at 1. rewrite (cut_absent _ _ (none "#"%char eq_refl eq_refl eq_refl eq_refl)).
  unfold Urllib.split_once.
  rewrite cut_at_first
    by (apply (all_chars_excludes fragment_char); [reflexivity | exact Hf]).
  cbn [Urllib.scheme Urllib.path].
  assert (semi : PyStr.has_char ";" fragment = false)
    by (apply (all_chars_excludes fragment_char); [reflexivity | exact Hf]).
  rewrite semi, andb_false_r. reflexivity.
Qed.

Lemma identifier_graphic (scheme netloc path fragment key value_ : string) :
  identifier_shape scheme netloc path fragment key value_ = true ->
  PyStr.all_chars graphic (identifier_of scheme netloc path fragment key value_) = true.
Proof.
  intro H. destruct (identifier_shape_facts _ _ _ _ _ _ H)
    as (_ & Hs & Hn & Hp & _ & Hf & _ & Hk & Hv & _).
  unfold identifier_of. rewrite !all_chars_append.
  rewrite (all_chars_weaken Urllib.scheme_char graphic scheme
             (fun c Hc => proj1 (scheme_char_facts c Hc)) Hs).
  rewrite (all_chars_weaken netloc_char graphic netloc
             (fun c Hc => proj1 (netloc_char_facts c Hc)) Hn).
  rewrite (all_chars_weaken path_char graphic path path_char_facts Hp).
  rewrite (all_chars_weaken fragment_char graphic fragment fragment_char_facts Hf).
  rewrite (all_chars_weaken fragment_char graphic key fragment_char_facts
             (safe_is_fragment key Hk)).
  rewrite (all_chars_weaken fragment_char graphic value_ fragment_char_facts
             (safe_is_fragment value_ Hv)).
  reflexivity.
Qed.

(** [urlparse] on the identifier: the network location is checked, and the
    query after the fragment stays in the fragment. *)
Lemma urlparse_identifier_shape (scheme netloc path fragment key value_ : string) :
  identifier_shape scheme netloc path fragment key value_ = true ->
  Urllib.urlparse (identifier_of scheme netloc path fragment key value_)
  = if Urllib.nfkc_unsafe netloc then Raise (nfkc_error netloc)
    else Return (Urllib.mkParseResult (PyStr.lower scheme) netloc path "" ""
                   (fragment ++ "?" ++ key ++ "=" ++ value_)).
Proof.
  intro H. pose proof (identifier_graphic _ _ _ _ _ _ H) as Hg.
  destruct (identifier_shape_facts _ _ _ _ _ _ H)
    as ((a & s & -> & Ha) & Hs & Hn & Hp & Hroot & Hf & _ & Hk & Hv & _).
  unfold Urllib.urlparse, Urllib.urlsplit. rewrite (graphic_string _ Hg).
  unfold identifier_of, Urllib.split_scheme.
  change (String a s ++ "://" ++ netloc ++ path ++ "#" ++ fragment ++ "?" ++ key ++ "=" ++ value_)
    with (String a s
            ++ String ":" ("//" ++ netloc ++ path ++ "#" ++ fragment ++ "?" ++ key ++ "=" ++ value_)).
  rewrite cut_at_first
    by (apply (all_chars_excludes Urllib.scheme_char); [reflexivity | exact Hs]).
  rewrite Ha, Hs. cbn [andb].
  unfold Urllib.split_netloc.
  change ("//" ++ netloc ++ path ++ "#" ++ fragment ++ "?" ++ key ++ "=" ++ value_)
    with (String "/" (String "/"
            (netloc ++ path ++ "#" ++ fragment ++ "?" ++ key ++ "=" ++ value_))).
  rewrite !prefix_cons, prefix_empty. cbn [Ascii.eqb Bool.eqb PyStr.drop].
  rewrite span_netloc_app; [|exact Hn|].
  2:{ right. destruct Hroot as [->|[r ->]].
      - now exists "#"%char, (fragment ++ "?" ++ key ++ "=" ++ value_).
      - now exists "/"%char, (r ++ "#" ++ fragment ++ "?" ++ key ++ "=" ++ value_). }
  rewrite (all_chars_excludes netloc_char "[" netloc eq_refl Hn).
  rewrite (all_chars_excludes netloc_char "]" netloc eq_refl Hn). cbn [xorb andb].
  unfold Urllib.split_once at 1.
  change (path ++ "#" ++ fragment ++ "?" ++ key ++ "=" ++ value_)
    with (path ++ String "#" (fragment ++ "?" ++ key ++ "=" ++ value_)).
  rewrite cut_at_first
    by (apply (all_chars_excludes path_char); [reflexivity | exact Hp]).
  unfold Urllib.split_once.
  rewrite cut_absent
    by (apply (all_chars_excludes path_char); [reflexivity | exact Hp]).
  destruct (Urllib.nfkc_unsafe netloc); [reflexivity|].
  cbn [Urllib.scheme Urllib.path].
  rewrite (all_chars_excludes path_char ";" path eq_refl Hp), andb_false_r.
  reflexivity.
Qed.

Lemma urlparse_identifier (scheme netloc path fragment key value_ : string) :
  identifier_parts scheme netloc path fragment key value_ = true ->
  Urllib.urlparse (identifier_of scheme netloc path fragment key value_)
  = Return (Urllib.mkParseResult (PyStr.lower scheme) netloc path "" ""
              (fragment ++ "?" ++ key ++ "=" ++ value_)).
Proof.
  intro H.
  rewrite (urlparse_identifier_shape _ _ _ _ _ _ (identifier_parts_shape _ _ _ _ _ _ H)).
  now rewrite (identifier_parts_host _ _ _ _ _ _ H).
Qed.

(** [parse_qs] on one [key=value] field. *)
Lemma parse_qs_field (key value_ : string) :
  PyStr.all_chars Urllib.always_safe key = true ->
  PyStr.all_chars Urllib.always_safe value_ = true ->
  value_ <> "" ->
  Urllib.parse_qs (key ++ "=" ++ value_) = [(key, [value_])].
Proof.
  intros Hk Hv Hne.
  assert (none : forall c, Urllib.always_safe c = false ->
                           PyStr.has_char c key = false /\ PyStr.has_char c value_ = false).
  { intros c Hc. split; now apply (all_chars_excludes Urllib.always_safe). }
  unfold Urllib.parse_qs, Urllib.parse_qsl.
  assert (Hsplit : PyStr.split "&" (key ++ "=" ++ value_) = [key ++ "=" ++ value_]).
  { apply split_absent. rewrite !has_char_append.
    destruct (none "&"%char eq_refl) as [-> ->]. reflexivity. }
  destruct (key ++ "=" ++ value_) as [|x rest] eqn:E.
  { destruct key; discriminate E. }
  rewrite Hsplit. cbn [flat_map]. rewrite <- E. unfold Urllib.parse_field.
  change (key ++ "=" ++ value_) with (key ++ String "=" value_).
  rewrite (cut_at_first "=" key value_ (proj1 (none "="%char eq_refl))).
  destruct value_ as [|v vs]; [now elim Hne|].
  rewrite (replace_absent "+" " " key (proj1 (none "+"%char eq_refl))).
  rewrite (replace_absent "+" " " (String v vs) (proj2 (none "+"%char eq_refl))).
  rewrite (unquote_plain key (proj1 (none "%"%char eq_refl))).
  rewrite (unquote_plain (String v vs) (proj2 (none "%"%char eq_refl))).
  reflexivity.
Qed.

(** The identifier is split into its address with the fragment, and the
    parameters of the query after the fragment. *)
Lemma split_identifier_with_query (scheme netloc path fragment key value_ : string) :
  identifier_parts scheme netloc path fragment key value_ = true ->
  split_identifier (identifier_of scheme netloc path fragment key value_)
  = Return (Urllib.mkParseResult (PyStr.lower scheme) netloc path "" ""
              (fragment ++ "?" ++ key ++ "=" ++ value_),
            Some fragment, Some [(key, PList [value_])]).
Proof.
  intro H. unfold split_identifier. rewrite (urlparse_identifier _ _ _ _ _ _ H).
  destruct (identifier_parts_facts _ _ _ _ _ _ H)
    as (_ & _ & _ & _ & _ & Hf & Hslashes & Hk & Hv & (v & vs & Hne)).
  cbn [obind Urllib.fragment].
  assert (Hq : PyStr.has_char "?" (fragment ++ "?" ++ key ++ "=" ++ value_) = true).
  { rewrite has_char_append. simpl. apply orb_true_r. }
  rewrite Hq, (urlparse_after_hash fragment key value_ Hf Hslashes Hk Hv).
  cbn [obind Urllib.path Urllib.query].
  rewrite (parse_qs_field key value_ Hk Hv) by (rewrite Hne; discriminate).
  reflexivity.
Qed.

(** The first request of [retrieve] is the lookup. *)
Lemma retrieve_sends_lookup_first
      (server : list Request -> Request -> Response) (self : Store)
      (id_ : string) (version : pyversion) (cross_bucket retrieve_source : bool)
      (w : World) (version_params : option (string * param_value))
      (parsed_id : Urllib.ParseResult) (fragment_ : option string)
      (query_params : option Params) :
  version_params_of version = Return version_params ->
  split_identifier id_ = Return (parsed_id, fragment_, query_params) ->
  exists out more,
    retrieve server self id_ version cross_bucket retrieve_source w
    = (out,
       sent w (get (lookup_url self (id_without_query_of parsed_id fragment_)
                      cross_bucket retrieve_source)
                 (merge_version version_params query_params) :: more)).
Proof.
  intros Hv Hs.
  set (params := merge_version version_params query_params).
  set (address := id_without_query_of parsed_id fragment_).
  set (first := get (lookup_url self address cross_bucket retrieve_source) params).
  destruct (success (server (log w) first)) eqn:Hok.
  - unfold retrieve, bind at 1 2, lift at 1 2. rewrite Hv, Hs.
    fold params address.
    unfold bind at 1, first_lookup, try_except, bind, lift, send, ret.
    fold first. cbn [log heap]. unfold catch_http_error_nexus at 1, catch_http_error at 1. rewrite Hok.
    fold (sent w [first]).
    destruct (fetch_metadata_sends server self (server (log w) first)
                (resource_url self address cross_bucket) params
                cross_bucket retrieve_source (sent w [first])) as (o & more & E).
    rewrite E, sent_sent. destruct o; eexists; exists more; reflexivity.
  - rewrite (retrieve_steps server self id_ version cross_bucket retrieve_source w
               version_params parsed_id fragment_ query_params Hv Hs).
    fold params address.
    rewrite (first_lookup_failed server self id_ address params
               cross_bucket retrieve_source w _ Hok).
    fold first.
    set (retry := get (fallback_url address cross_bucket retrieve_source) params).
    destruct (PyStr.startswith id_ (nexus_path self cross_bucket)).
    + destruct (success (server (log w ++ [first])%list retry)).
      * unfold bind.
        destruct (fetch_metadata_sends server self
                    (server (log w ++ [first])%list retry) address params
                    cross_bucket retrieve_source (sent w [first; retry]))
          as (o & more & E).
        rewrite E, sent_sent.
        destruct o; unfold lift; eexists; exists (retry :: more); reflexivity.
      * eexists; exists [retry]. reflexivity.
    + eexists; exists []. reflexivity.
Qed.

(** X1. Where the separation holds. For an identifier
    [scheme://netloc/path#fragment?key=value] whose parts are plain (see
    [identifier_shape]: among others, no square bracket in the network
    location, no colon and no semicolon in the fragment) and whose network
    location has no character that [urlparse] refuses, [retrieve] takes the
    query from after the fragment: the address it looks up is built from
    [scheme://netloc/path#fragment], the fragment kept, the whole
    URL-quoted into the address of the lookup; [key=value] is parsed into
    the mapping from [key] to the list of [value], merged with the [rev] or
    [tag] of the version, and that mapping is what the lookup, the first
    request sent, carries as its query parameters.  When the network
    location has a character that [urlparse] refuses, [retrieve] raises
    the [ValueError] of [urlparse] and sends nothing. *)
Theorem retrieve_separates_fragment_and_query :
  forall (server : list Request -> Request -> Response) (self : Store)
         (scheme netloc path fragment key value_ : string)
         (version : pyversion) (version_params : option (string * param_value))
         (cross_bucket retrieve_source : bool) (w : World),
    identifier_shape scheme netloc path fragment key value_ = true ->
    version_params_of version = Return version_params ->
    let id_ := identifier_of scheme netloc path fragment key value_ in
    let address := PyStr.lower scheme ++ "://" ++ netloc ++ path ++ "#" ++ fragment in
    let params := merge_version version_params (Some [(key, PList [value_])]) in
    let url_base :=
      if cross_bucket then url_resolver (service self) else url_resources (service self) in
    let url_resource := url_base ++ "/_/" ++ Urllib.quote_plus address in
    let url :=
      if retrieve_source && negb cross_bucket then url_resource ++ "/source"
      else url_resource in
    (Urllib.nfkc_unsafe netloc = false ->
     (exists parsed_id,
         split_identifier id_
         = Return (parsed_id, Some fragment, Some [(key, PList [value_])])
         /\ id_without_query_of parsed_id (Some fragment) = address)
     /\ exists out more,
         retrieve server self id_ version cross_bucket retrieve_source w
         = (out, sent w (mkRequest GET url params NoBody :: more)))
    /\ (Urllib.nfkc_unsafe netloc = true ->
        retrieve server self id_ version cross_bucket retrieve_source w
        = (Raise (nfkc_error netloc), w)).
Proof.
  intros server self scheme netloc path fragment key value_ version vp
         cross_bucket retrieve_source w Hshape Hv id_ address params url_base
         url_resource url.
  split.
  - intro Hhost.
    assert (Hparts : identifier_parts scheme netloc path fragment key value_ = true).
    { unfold identifier_parts. now rewrite Hshape, Hhost. }
    pose proof (split_identifier_with_query _ _ _ _ _ _ Hparts) as Hs.
    fold id_ in Hs. split.
    + eexists. split; [exact Hs | reflexivity].
    + destruct (retrieve_sends_lookup_first server self id_ version cross_bucket
                  retrieve_source w vp _ _ _ Hv Hs) as (out & more & E).
      exists out, more. rewrite E. reflexivity.
  - intro Hhost. unfold retrieve, bind at 1, lift at 1. rewrite Hv.
    unfold bind at 1, lift at 1, split_identifier. subst id_.
    rewrite (urlparse_identifier_shape _ _ _ _ _ _ Hshape), Hhost. reflexivity.
Qed.

Lemma retrieve_separates_fragment_and_query_witness :
  (exists out more,
      retrieve no_hits test_store
        (identifier_of "https" "data.net" "/entity/42" "section" "rev" "3")
        (VerStr "v1") false true empty_world
      = (out,
         sent empty_world
           (mkRequest GET
              "https://nexus-instance.org/resources/test/kgforge/_/https%3A%2F%2Fdata.net%2Fentity%2F42%23section/source"
              (Some [("rev", PList ["3"]); ("tag", PStr "v1")]) NoBody :: more)))
  /\ retrieve no_hits test_store
       (identifier_of "https" host_with_account_of "/entity/42" "section" "rev" "3")
       (VerStr "v1") false true empty_world
     = (Raise (nfkc_error host_with_account_of), empty_world).
Proof.
  split.
  - exact (proj2 (proj1 (retrieve_separates_fragment_and_query no_hits test_store
                           "https" "data.net" "/entity/42" "section" "rev" "3"
                           (VerStr "v1") (Some ("tag", PStr "v1")) false true empty_world
                           ltac:(by_computation) eq_refl)
                    ltac:(by_computation))).
  - exact (proj2 (retrieve_separates_fragment_and_query no_hits test_store
                    "https" host_with_account_of "/entity/42" "section" "rev" "3"
                    (VerStr "v1") (Some ("tag", PStr "v1")) false true empty_world
                    ltac:(by_computation) eq_refl)
             ltac:(by_computation)).
Defined.

(** C6, at an identifier whose fragment has a colon.  The fragment
    [section:1?rev=2] is handed to [urlparse], which reads [section] as a
    scheme: the query is taken out and sent as the parameter [rev], but the
    fragment that is kept is [1], and the lookup is built from
    [http://data.net/entity#1], not from [http://data.net/entity#section:1]. *)
Theorem retrieve_loses_fragment_before_colon :
  split_identifier "http://data.net/entity#section:1?rev=2"
  = Return (Urllib.mkParseResult "http" "data.net" "/entity" "" "" "section:1?rev=2",
            Some "1", Some [("rev", PList ["2"])])
  /\ log (snd (retrieve no_hits test_store "http://data.net/entity#section:1?rev=2"
                 VerNone false false empty_world))
     = [get (lookup_url test_store "http://data.net/entity#1" false false)
            (Some [("rev", PList ["2"])])]
  /\ lookup_url test_store "http://data.net/entity#1" false false
     <> lookup_url test_store "http://data.net/entity#section:1" false false.
Proof.
  split; [by_computation|]. split; [by_computation|].
  vm_compute. discriminate.
Qed.

(** ** Downloads *)

(** *** More facts about [split], [quote_plus] and [unquote] *)

Lemma split_scan_snoc (c : ascii) (a q : string) (cur : list ascii) :
  PyStr.has_char c q = false ->
  PyStr.split_scan (String c "") 0 cur (a ++ String c q)
  = (PyStr.split_scan (String c "") 0 cur a ++ [q])%list.
Proof.
  intro H. revert cur; induction a as [|x a IH]; intros cur.
  - simpl. destruct (ascii_dec c c) as [_|ne]; [|now elim ne].
    rewrite prefix_empty. simpl.
    now rewrite (split_scan_absent c q [] H).
  - simpl. destruct (ascii_dec c x) as [->|ne].
    + rewrite !prefix_empty. simpl. now rewrite IH.
    + apply IH.
Qed.

Lemma split_snoc (c : ascii) (a q : string) :
  PyStr.has_char c q = false ->
  PyStr.split (String c "") (a ++ String c q)
  = (PyStr.split (String c "") a ++ [q])%list.
Proof. apply split_scan_snoc. Qed.

Lemma last_part_snoc (parts : list string) (q : string) :
  PyStr.last_part (parts ++ [q]) = q.
Proof. unfold PyStr.last_part. apply last_last. Qed.

(** The text after the last occurrence of a character. *)
Lemma last_occurrence (c : ascii) (s : string) :
  PyStr.has_char c s = true ->
  exists a q, s = a ++ String c q /\ PyStr.has_char c q = false.
Proof.
  induction s as [|x s IH]; simpl; [discriminate|].
  intro H. destruct (PyStr.has_char c s) eqn:E.
  - destruct (IH eq_refl) as (a & q & -> & Hq).
    exists (String x a), q. split; [reflexivity | exact Hq].
  - unfold PyStr.chr_eqb in H. destruct (Ascii.eqb_spec x c) as [->|_]; [|discriminate].
    exists "", s. split; [reflexivity | exact E].
Qed.

(** The last piece of an address is empty exactly when the address is empty
    or ends with a slash. *)
Lemma last_part_empty (url : string) :
  PyStr.last_part (PyStr.split "/" url) = ""
  <-> url = "" \/ exists u, url = u ++ "/".
Proof.
  split.
  - intro H. destruct (PyStr.has_char "/" url) eqn:E.
    + destruct (last_occurrence "/" url E) as (a & q & -> & Hq).
      rewrite (split_snoc "/" a q Hq), last_part_snoc in H. subst q.
      right. now exists a.
    + rewrite (split_absent "/" url E) in H. now left.
  - intros [->|[u ->]]; [reflexivity|].
    now rewrite (split_snoc "/" u "" eq_refl), last_part_snoc.
Qed.

Lemma unquote_empty (s : string) : Urllib.unquote s = "" -> s = "".
Proof.
  destruct s as [|c s]; [reflexivity|]. simpl.
  destruct (PyStr.chr_eqb c "%"); [|discriminate].
  destruct s as [|h [|l rest]]; try discriminate.
  destruct (Urllib.hex_value h); [destruct (Urllib.hex_value l)|]; discriminate.
Qed.

Lemma quote_chr_no_slash (c : ascii) :
  PyStr.has_char "/" (Urllib.quote_chr c) = false.
Proof. revert c. by_enumeration. Qed.

Lemma quote_plus_no_slash (s : string) :
  PyStr.has_char "/" (Urllib.quote_plus s) = false.
Proof.
  induction s as [|c s IH]; [reflexivity|]. simpl.
  now rewrite has_char_append, quote_chr_no_slash, IH.
Qed.

(** [unquote] undoes the quoting of every character but the space, which
    [quote_plus] writes as a plus sign. *)
Lemma unquote_quote_chr (c : ascii) (rest : string) :
  PyStr.chr_eqb c " " = false ->
  Urllib.unquote (Urllib.quote_chr c ++ rest) = String c (Urllib.unquote rest).
Proof.
  revert c. intros [[] [] [] [] [] [] [] []]; intro H;
    try (vm_compute in H; discriminate H); reflexivity.
Qed.

Lemma unquote_quote_plus (s : string) :
  PyStr.has_char " " s = false -> Urllib.unquote (Urllib.quote_plus s) = s.
Proof.
  induction s as [|c s IH]; [reflexivity|]. simpl.
  destruct (PyStr.chr_eqb c " ") eqn:E; [discriminate|].
  intro H. now rewrite (unquote_quote_chr c _ E), (IH H).
Qed.

Lemma shorter_than_one (s : string) :
  (String.length s <? 1)%nat = true <-> s = "".
Proof. destruct s; simpl; split; intro H; try reflexivity; discriminate. Qed.

(** The file identifier [_prepare_download_one] reads from an address is
    empty exactly when the address is empty or ends with a slash. *)
Lemma file_id_empty (url : string) :
  Urllib.unquote (PyStr.last_part (PyStr.split "/" url)) = ""
  <-> url = "" \/ exists u, url = u ++ "/".
Proof.
  rewrite <- last_part_empty. split.
  - apply unquote_empty.
  - now intros ->.
Qed.

(** X2. Without [cross_bucket], [_prepare_download_one] raises exactly for
    the addresses that are empty or end with a slash, and what it raises
    then is the [DownloadingError] that quotes the address; for every other
    address it returns, and the bucket it returns is the organisation and
    the project of the service, joined by a slash. *)
Theorem prepare_download_one_invalid_url :
  forall (url_base_files organisation_ project_ url : string)
         (store_metadata : option json),
    let run :=
      _prepare_download_one url_base_files organisation_ project_ url
        store_metadata false in
    (raised run = true <-> (url = "" \/ exists u, url = u ++ "/"))
    /\ (raised run = true ->
        run = Raise (Exn DownloadingError ("Invalid file url: " ++ url)))
    /\ (raised run = false ->
        exists address, run = Return (address, organisation_ ++ "/" ++ project_)).
Proof.
  intros ubf org prj url md run. subst run. unfold _prepare_download_one. simpl.
  destruct (String.length (Urllib.unquote (PyStr.last_part (PyStr.split "/" url))) <? 1)%nat
    eqn:E.
  - simpl. repeat split; try reflexivity; try discriminate.
    intros _. apply file_id_empty, shorter_than_one, E.
  - simpl. repeat split; try discriminate.
    + intro H. apply file_id_empty, shorter_than_one in H. congruence.
    + intros _. eexists. reflexivity.
Qed.

Lemma prepare_download_one_invalid_url_witness :
  _prepare_download_one "https://nexus-instance.org/files" "test" "kgforge"
    "https://nexus-instance.org/files/test/kgforge/" None false
  = Raise (Exn DownloadingError
             "Invalid file url: https://nexus-instance.org/files/test/kgforge/").
Proof.
  apply (proj1 (proj2 (prepare_download_one_invalid_url
                         "https://nexus-instance.org/files" "test" "kgforge"
                         "https://nexus-instance.org/files/test/kgforge/" None))).
  by_computation.
Defined.

(** X3. The address [rewrite_uri] builds for the identifier of a file is
    one [_prepare_download_one] reads the identifier back from.  For an
    identifier without a space and without a percent sign, which has no
    prefixed schema and is not an address of the store already,
    [rewrite_uri] returns an address (the base of the files of the bucket,
    then the quoted identifier), and [_prepare_download_one] returns that
    address unchanged, with the bucket of the service: at once when the
    identifier starts with [http], and also for another identifier when the
    base of the files of the bucket is what the service joins from its own
    attributes. *)
Theorem download_address_of_rewritten_id :
  forall (self : Store) (context : Context)
         (url_base_files organisation_ project_ id_ : string)
         (store_metadata : option json),
    PyStr.has_char "%" id_ = false ->
    PyStr.has_char " " id_ = false ->
    id_ <> "" ->
    Re.re_match Re.prefixed_schema id_ = None ->
    PyStr.startswith id_ (uri_base self true) = false ->
    (PyStr.startswith id_ "http" = true
     \/ uri_base self true
        = PyStr.join "/" [url_base_files; Urllib.quote_plus organisation_;
                          Urllib.quote_plus project_]) ->
    let address := uri_base self true ++ "/" ++ Urllib.quote_plus id_ in
    rewrite_uri self id_ context true = Return address
    /\ _prepare_download_one url_base_files organisation_ project_ address
         store_metadata false
       = Return (address, organisation_ ++ "/" ++ project_).
Proof.
  intros self context ubf org prj id_ md Hpct Hsp Hne Hre Hbase Hcoh address.
  assert (R : rewrite_uri self id_ context true = Return address).
  { unfold rewrite_uri. rewrite (unquote_plain id_ Hpct), Hre.
    unfold rewrite_plain. rewrite Hbase. simpl. reflexivity. }
  split; [exact R|].
  unfold _prepare_download_one. simpl.
  assert (L : PyStr.last_part (PyStr.split "/" address) = Urllib.quote_plus id_).
  { subst address.
    change (uri_base self true ++ "/" ++ Urllib.quote_plus id_)
      with (uri_base self true ++ String "/" (Urllib.quote_plus id_)).
    now rewrite (split_snoc "/" _ _ (quote_plus_no_slash id_)), last_part_snoc. }
  rewrite L, (unquote_quote_plus id_ Hsp).
  destruct (String.length id_ <? 1)%nat eqn:E;
    [apply shorter_than_one in E; contradiction|].
  destruct (PyStr.startswith id_ "http") eqn:Eh; [reflexivity|].
  destruct Hcoh as [Hh|Hc]; [discriminate|].
  simpl. f_equal. f_equal. subst address. rewrite Hc. simpl.
  repeat (rewrite append_assoc; simpl). reflexivity.
Qed.

Lemma download_address_of_rewritten_id_witness :
  rewrite_uri test_store "http://data.net/07ed2dab-587a-4144-90c7-4cdd252cfa3f"
    test_context true
  = Return "https://nexus-instance.org/files/test/kgforge/http%3A%2F%2Fdata.net%2F07ed2dab-587a-4144-90c7-4cdd252cfa3f"
  /\ _prepare_download_one "https://nexus-instance.org/files" "test" "kgforge"
       "https://nexus-instance.org/files/test/kgforge/http%3A%2F%2Fdata.net%2F07ed2dab-587a-4144-90c7-4cdd252cfa3f"
       None false
     = Return ("https://nexus-instance.org/files/test/kgforge/http%3A%2F%2Fdata.net%2F07ed2dab-587a-4144-90c7-4cdd252cfa3f",
               "test/kgforge").
Proof.
  assert (Hpct : PyStr.has_char "%" "http://data.net/07ed2dab-587a-4144-90c7-4cdd252cfa3f"
                 = false) by by_computation.
  assert (Hsp : PyStr.has_char " " "http://data.net/07ed2dab-587a-4144-90c7-4cdd252cfa3f"
                = false) by by_computation.
  assert (Hne : "http://data.net/07ed2dab-587a-4144-90c7-4cdd252cfa3f" <> "")
    by discriminate.
  assert (Hre : Re.re_match Re.prefixed_schema
                  "http://data.net/07ed2dab-587a-4144-90c7-4cdd252cfa3f" = None)
    by by_computation.
  assert (Hbase : PyStr.startswith "http://data.net/07ed2dab-587a-4144-90c7-4cdd252cfa3f"
                    (uri_base test_store true) = false) by by_computation.
  assert (Hhttp : PyStr.startswith "http://data.net/07ed2dab-587a-4144-90c7-4cdd252cfa3f"
                    "http" = true) by by_computation.
  pose proof (download_address_of_rewritten_id test_store test_context
                "https://nexus-instance.org/files" "test" "kgforge"
                "http://data.net/07ed2dab-587a-4144-90c7-4cdd252cfa3f" None
                Hpct Hsp Hne Hre Hbase (or_introl Hhttp)) as H.
  vm_compute in H. exact H.
Defined.

Lemma split_last_two (pre org prj : string) :
  PyStr.has_char "/" org = false ->
  PyStr.has_char "/" prj = false ->
  PyStr.split "/" (pre ++ "/" ++ org ++ "/" ++ prj)
  = (PyStr.split "/" pre ++ [org; prj])%list.
Proof.
  intros Ho Hp.
  change (pre ++ "/" ++ org ++ "/" ++ prj)
    with (pre ++ String "/" (org ++ String "/" prj)).
  replace (pre ++ String "/" (org ++ String "/" prj))
    with ((pre ++ String "/" org) ++ String "/" prj)
    by (rewrite append_assoc; reflexivity).
  rewrite (split_snoc "/" _ prj Hp), (split_snoc "/" pre org Ho).
  now rewrite <- app_assoc.
Qed.

(** X4. With [cross_bucket], [_prepare_download_one] takes the bucket from
    the metadata of the resource and not from the service: without metadata
    it raises a [ValueError]; with a project [.../org/prj] in the metadata
    and an address that has a file identifier, it returns the bucket
    [org/prj], and, unless the identifier starts with [http], the address
    of the file under that organisation and project; a project without a
    slash makes it raise an [IndexError]. *)
Theorem prepare_download_one_cross_bucket :
  forall (url_base_files organisation_ project_ url : string),
    (exists msg,
        _prepare_download_one url_base_files organisation_ project_ url None true
        = Raise (Exn ValueError msg))
    /\ (forall (fields : list (string * json)) (pre org prj : string),
           lookup "_project" fields = Some (JStr (pre ++ "/" ++ org ++ "/" ++ prj)) ->
           PyStr.has_char "/" org = false ->
           PyStr.has_char "/" prj = false ->
           url <> "" ->
           (forall u, url <> u ++ "/") ->
           let file_id := Urllib.unquote (PyStr.last_part (PyStr.split "/" url)) in
           _prepare_download_one url_base_files organisation_ project_ url
             (Some (JObj fields)) true
           = Return (if PyStr.startswith file_id "http" then url
                     else url_base_files ++ "/" ++ Urllib.quote_plus org ++ "/"
                            ++ Urllib.quote_plus prj ++ "/" ++ Urllib.quote_plus file_id,
                     org ++ "/" ++ prj))
    /\ (forall (fields : list (string * json)) (p : string),
           lookup "_project" fields = Some (JStr p) ->
           PyStr.has_char "/" p = false ->
           exists msg,
             _prepare_download_one url_base_files organisation_ project_ url
               (Some (JObj fields)) true
             = Raise (Exn IndexError msg)).
Proof.
  intros ubf so sp url. split; [|split].
  - eexists. reflexivity.
  - intros fields pre org prj Hl Ho Hp Hne Hsl file_id.
    unfold _prepare_download_one, metadata_project. rewrite Hl.
    cbv beta iota delta [obind].
    rewrite (split_last_two pre org prj Ho Hp).
    unfold nth_from_end. rewrite rev_app_distr.
    cbn [rev app nth_error PyStr.join String.concat].
    fold file_id.
    destruct (String.length file_id <? 1)%nat eqn:E.
    + apply shorter_than_one, file_id_empty in E.
      destruct E as [E|[u E]]; [contradiction | elim (Hsl u E)].
    + destruct (PyStr.startswith file_id "http"); reflexivity.
  - intros fields p Hl Hp.
    unfold _prepare_download_one, metadata_project. rewrite Hl. simpl.
    rewrite (split_absent "/" p Hp). simpl. eexists. reflexivity.
Qed.

Lemma prepare_download_one_cross_bucket_witness :
  _prepare_download_one "https://nexus-instance.org/files" "test" "kgforge"
    "https://nexus-instance.org/files/other/project/8f3a"
    (Some (JObj [("_project",
                  JStr "https://nexus-instance.org/projects/other/project")]))
    true
  = Return ("https://nexus-instance.org/files/other/project/8f3a", "other/project").
Proof.
  assert (Hl : lookup "_project"
                 [("_project", JStr "https://nexus-instance.org/projects/other/project")]
               = Some (JStr ("https://nexus-instance.org/projects" ++ "/" ++ "other"
                               ++ "/" ++ "project"))) by by_computation.
  assert (Ho : PyStr.has_char "/" "other" = false) by by_computation.
  assert (Hp : PyStr.has_char "/" "project" = false) by by_computation.
  assert (Hne : "https://nexus-instance.org/files/other/project/8f3a" <> "")
    by discriminate.
  assert (Hsl : forall u, "https://nexus-instance.org/files/other/project/8f3a"
                          <> u ++ "/").
  { intros u E. apply (f_equal (fun s => PyStr.last_part (PyStr.split "/" s))) in E.
    rewrite (split_snoc "/" u "" eq_refl), last_part_snoc in E.
    vm_compute in E. discriminate E. }
  pose proof (proj1 (proj2 (prepare_download_one_cross_bucket
                              "https://nexus-instance.org/files" "test" "kgforge"
                              "https://nexus-instance.org/files/other/project/8f3a"))
                _ _ _ _ Hl Ho Hp Hne Hsl) as H.
  vm_compute in H. exact H.
Defined.

(** ** The operations on one resource *)

Lemma dict_get_set {V : Type} (k key : string) (v : V) (d : list (string * V)) :
  dict_get k (dict_set key v d)
  = if String.eqb key k then Some v else dict_get k d.
Proof.
  induction d as [|[k0 x] d IH]; simpl.
  - reflexivity.
  - destruct (String.eqb_spec k0 key) as [->|ne]; simpl.
    + destruct (String.eqb key k); reflexivity.
    + rewrite IH. destruct (String.eqb_spec key k) as [->|ne'].
      * destruct (String.eqb_spec k0 k) as [->|_]; [now elim ne | reflexivity].
      * reflexivity.
Qed.

Lemma dict_get_absent {V : Type} (k : string) (d : list (string * V)) :
  ~ In k (map fst d) -> dict_get k d = None.
Proof.
  induction d as [|[k0 x] d IH]; simpl; [reflexivity|].
  intro H. destruct (String.eqb_spec k0 k) as [->|_].
  - elim H. now left.
  - apply IH. intro I. apply H. now right.
Qed.

(** [d.update(other)]: the keys of [other] have its values, the other keys
    the ones of [d]. *)
Lemma dict_get_update {V : Type} (k : string) (d other : list (string * V)) :
  keys_unique other ->
  dict_get k (dict_update d other)
  = match dict_get k other with
    | Some v => Some v
    | None => dict_get k d
    end.
Proof.
  unfold dict_update, keys_unique. revert d.
  induction other as [|[k0 x] other IH]; intros d U; simpl; [reflexivity|].
  inversion U as [|? ? Hnot U']; subst.
  rewrite (IH _ U'), dict_get_set.
  destruct (String.eqb_spec k0 k) as [->|_]; [|reflexivity].
  now rewrite (dict_get_absent k other Hnot).
Qed.

(** X5. An update, a tag or a deprecation of one resource that the store
    answers with a failure raises the error of the operation, with the
    message read from the response; the resource is left as it was, and
    the one request is the only one sent. *)
Theorem one_resource_failure_leaves_resource :
  forall (server : list Request -> Request -> Response) (self : Store)
         (_prepare_uri : Resource -> option string -> Outcome (string * Params))
         (_prepare_tag : Resource -> string -> Outcome (string * json * Params))
         (r : Resource) (w : World) (req : Request),
    success (server (log w) req) = false ->
    let failure (k : exn_kind) : Outcome unit * (Resource * World) :=
      (Raise (Exn k (_error_message (service self) (server (log w) req))),
       (r, sent w [req])) in
    (forall schema_id,
        update_request self _prepare_uri r schema_id = Return req ->
        _update_one server self _prepare_uri schema_id (r, w) = failure UpdatingError)
    /\ (forall value_,
           tag_request self _prepare_tag r value_ = Return req ->
           _tag_one server self _prepare_tag value_ (r, w) = failure TaggingError)
    /\ (deprecate_request self _prepare_uri r = Return req ->
        _deprecate_one server self _prepare_uri (r, w) = failure DeprecationError).
Proof.
  intros server self pu pt r w req F failure. subst failure.
  repeat split; intros; 
    unfold _update_one, _tag_one, _deprecate_one, bind, get_resource, lift, on_world, send;
    simpl;
    match goal with H : _ = Return req |- _ => rewrite H end;
    simpl; unfold catch_http_error_nexus, catch_http_error; rewrite F; reflexivity.
Qed.

Lemma one_resource_failure_leaves_resource_witness :
  _update_one always_conflict test_store prepare_uri_example None
    (resource_a, empty_world)
  = (Raise (Exn UpdatingError "status 409"),
     (resource_a,
      mkWorld [mkRequest PUT
                 "https://nexus-instance.org/resources/test/kgforge/_/http%3A%2F%2Fdata.net%2Fa"
                 (Some [("rev", PInt 1)])
                 (JsonBody (JObj [("@context", JStr "http://data.net/context")]))] [])).
Proof.
  assert (F : success (always_conflict (log empty_world)
                (mkRequest PUT
                   "https://nexus-instance.org/resources/test/kgforge/_/http%3A%2F%2Fdata.net%2Fa"
                   (Some [("rev", PInt 1)])
                   (JsonBody (JObj [("@context", JStr "http://data.net/context")]))))
              = false) by by_computation.
  assert (Q : update_request test_store prepare_uri_example resource_a None
              = Return (mkRequest PUT
                   "https://nexus-instance.org/resources/test/kgforge/_/http%3A%2F%2Fdata.net%2Fa"
                   (Some [("rev", PInt 1)])
                   (JsonBody (JObj [("@context", JStr "http://data.net/context")]))))
    by by_computation.
  pose proof (proj1 (one_resource_failure_leaves_resource always_conflict test_store
                       prepare_uri_example prepare_tag_example resource_a empty_world
                       _ F) None Q) as H.
  vm_compute in H. vm_compute. exact H.
Defined.

(** X6. In the request of an update, of a tag and of a deprecation, the
    parameters the service prepares for the resource (its revision) are
    sent over the ones configured for the operation: a configured parameter
    never replaces a prepared one, and is sent when no prepared one has its
    key. *)
Theorem prepared_parameters_are_sent :
  forall (self : Store)
         (_prepare_uri : Resource -> option string -> Outcome (string * Params))
         (_prepare_tag : Resource -> string -> Outcome (string * json * Params))
         (r : Resource) (url : string) (prepared : Params),
    keys_unique prepared ->
    (forall schema_id data,
        as_jsonld self r (model_or_service_context self) = Return data ->
        _prepare_uri r schema_id = Return (url, prepared) ->
        exists sent_,
          update_request self _prepare_uri r schema_id
          = Return (mkRequest PUT url (Some sent_) (JsonBody data))
          /\ prepared_over_configured prepared
               (params_get_or_empty (service self) "update") sent_)
    /\ (forall value_ data,
           _prepare_tag r value_ = Return (url, data, prepared) ->
           exists sent_,
             tag_request self _prepare_tag r value_
             = Return (mkRequest POST url (Some sent_) (JsonBody data))
             /\ prepared_over_configured prepared
                  (params_get_or_empty (service self) "tag") sent_)
    /\ (_prepare_uri r None = Return (url, prepared) ->
        exists sent_,
          deprecate_request self _prepare_uri r
          = Return (mkRequest DELETE url (Some sent_) NoBody)
          /\ prepared_over_configured prepared
               (params_get_or_empty (service self) "deprecate") sent_).
Proof.
  intros self pu pt r url prepared U. repeat split.
  - intros schema_id data D P. unfold update_request. rewrite D, P. simpl.
    eexists. split; [reflexivity|].
    intro k. apply dict_get_update, U.
  - intros value_ data P. unfold tag_request. rewrite P. simpl.
    eexists. split; [reflexivity|].
    intro k. apply dict_get_update, U.
  - intros P. unfold deprecate_request, params_get_or_empty. rewrite P. simpl.
    destruct (params_get (service self) "deprecate") as [configured|].
    + eexists. split; [reflexivity|]. intro k. apply dict_get_update, U.
    + eexists. split; [reflexivity|]. intro k. simpl.
      destruct (dict_get k prepared); reflexivity.
Qed.

Lemma prepared_parameters_are_sent_witness :
  exists sent_,
    update_request configured_store prepare_uri_example resource_a None
    = Return (mkRequest PUT
                "https://nexus-instance.org/resources/test/kgforge/_/http%3A%2F%2Fdata.net%2Fa"
                (Some sent_)
                (JsonBody (JObj [("@context", JStr "http://data.net/context")])))
    /\ prepared_over_configured [("rev", PInt 1)]
         [("rev", PInt 7); ("indexing", PStr "sync")] sent_.
Proof.
  assert (U : keys_unique [("rev", PInt 1)]).
  { unfold keys_unique. simpl. constructor; [intros []| constructor]. }
  exact (proj1 (prepared_parameters_are_sent configured_store prepare_uri_example
                  prepare_tag_example resource_a
                  "https://nexus-instance.org/resources/test/kgforge/_/http%3A%2F%2Fdata.net%2Fa"
                  [("rev", PInt 1)] U)
           None (JObj [("@context", JStr "http://data.net/context")])
           ltac:(by_computation) ltac:(by_computation)).
Defined.

(** ** More on [retrieve] *)

Lemma bind_returns {S A B : Type} (m : ST S A) (k : A -> ST S B) (w w' : S) (b : B) :
  bind m k w = (Return b, w') ->
  exists a w1, m w = (Return a, w1) /\ k a w1 = (Return b, w').
Proof.
  unfold bind. destruct (m w) as [[a|e] w1]; [|discriminate].
  intro H. now exists a, w1.
Qed.

Lemma build_resource_synchronized (self : Store) (response_ : Response)
      (response_metadata : option Response) (cross_bucket retrieve_source : bool)
      (r : Resource) :
  build_resource self response_ response_metadata cross_bucket retrieve_source
  = Return (Some r) ->
  _synchronized r = true
  /\ _last_action r = Some (mkAction "retrieve" true None).
Proof.
  unfold build_resource.
  destruct (ok response_ && _); [|discriminate].
  destruct (as_value_error _) as [[data resource_]|e]; [|discriminate].
  cbn [obind].
  destruct (as_value_error _) as [[data' resource_']|e]; [|discriminate].
  cbn [obind]. intro H. injection H as <-. split; reflexivity.
Qed.

(** X7. A resource [retrieve] returns is marked as synchronized, and its
    last action is the retrieval, recorded as succeeded and without an
    error: this for every identifier, version and store. *)
Theorem retrieve_result_synchronized :
  forall (server : list Request -> Request -> Response) (self : Store)
         (id_ : string) (version : pyversion) (cross_bucket retrieve_source : bool)
         (w w' : World) (r : Resource),
    retrieve server self id_ version cross_bucket retrieve_source w
    = (Return (Some r), w') ->
    _synchronized r = true
    /\ _last_action r = Some (mkAction "retrieve" true None).
Proof.
  intros server self id_ version cb rs w w' r H. unfold retrieve in H.
  apply bind_returns in H. destruct H as (vp & w1 & _ & H).
  apply bind_returns in H. destruct H as ([[parsed_id fragment_] query_params] & w2 & _ & H).
  apply bind_returns in H. destruct H as ([response_ url_resource] & w3 & _ & H).
  apply bind_returns in H. destruct H as (response_metadata & w4 & _ & H).
  unfold lift in H. injection H as H _.
  exact (build_resource_synchronized _ _ _ _ _ _ H).
Qed.

Lemma retrieve_result_synchronized_witness :
  exists r w',
    retrieve always_found test_store "http://data.net/a" VerNone false true empty_world
    = (Return (Some r), w')
    /\ _synchronized r = true
    /\ _last_action r = Some (mkAction "retrieve" true None).
Proof.
  destruct (retrieve always_found test_store "http://data.net/a" VerNone false true
              empty_world) as [[[r|]|e] w'] eqn:E;
    try (vm_compute in E; discriminate E).
  exists r, w'. split; [reflexivity|].
  exact (retrieve_result_synchronized always_found test_store "http://data.net/a"
           VerNone false true empty_world w' r E).
Defined.

Lemma reads_only_refl (w : World) (n : nat) : reads_only w w n.
Proof.
  exists []. unfold sent. rewrite app_nil_r. destruct w. simpl.
  repeat split; [lia | constructor].
Qed.

Lemma reads_only_trans (w w1 w2 : World) (n m : nat) :
  reads_only w w1 n -> reads_only w1 w2 m -> reads_only w w2 (n + m).
Proof.
  intros (a & -> & La & Fa) (b & -> & Lb & Fb).
  exists (a ++ b)%list. rewrite sent_sent. repeat split.
  - rewrite length_app. lia.
  - apply Forall_app. now split.
Qed.

Lemma reads_only_send (server : list Request -> Request -> Response)
      (u : string) (params : option Params) (w : World) :
  reads_only w (snd (send server (get u params) w)) 1.
Proof.
  exists [get u params]. repeat split; [simpl; lia | repeat constructor].
Qed.

Lemma first_lookup_reads (server : list Request -> Request -> Response) (self : Store)
      (id_ id_without_query url url_resource : string) (query_params : option Params)
      (cross_bucket retrieve_source : bool) (w : World) :
  reads_only w
    (snd (first_lookup server self id_ id_without_query url url_resource query_params
            cross_bucket retrieve_source w)) 2.
Proof.
  unfold first_lookup, try_except, bind, lift, ret, raise.
  pose proof (reads_only_send server url query_params w) as S1.
  destruct (send server (get url query_params) w) as [[resp|e] w1] eqn:E1;
    [|discriminate E1].
  simpl in S1.
  destruct (catch_http_error_nexus (service self) resp RetrievalError) as [[]|e] eqn:C1.
  - simpl. apply (reads_only_trans w w1 w1 1 1 S1), reads_only_refl.
  - assert (K : is_kind RetrievalError e = true).
    { unfold catch_http_error_nexus, catch_http_error in C1.
      destruct (success resp); [discriminate|]. injection C1 as <-. reflexivity. }
    rewrite K.
    destruct (PyStr.startswith id_ (nexus_path self cross_bucket)).
    + pose proof (reads_only_send server
                    (fallback_url id_without_query cross_bucket retrieve_source)
                    query_params w1) as S2.
      destruct (send server _ w1) as [[resp2|e2] w2] eqn:E2; [|discriminate E2].
      simpl in S2.
      destruct (catch_http_error_nexus (service self) resp2 RetrievalError) as [[]|e3];
        simpl; exact (reads_only_trans w w1 w2 1 1 S1 S2).
    + simpl. apply (reads_only_trans w w1 w1 1 1 S1), reads_only_refl.
Qed.

Lemma fetch_metadata_reads (server : list Request -> Request -> Response) (self : Store)
      (response_ : Response) (url_resource : string) (query_params : option Params)
      (cross_bucket retrieve_source : bool) (w : World) :
  reads_only w
    (snd (fetch_metadata server self response_ url_resource query_params
            cross_bucket retrieve_source w)) 1.
Proof.
  unfold fetch_metadata, bind, lift, ret.
  destruct (retrieve_source && negb cross_bucket).
  - pose proof (reads_only_send server url_resource query_params w) as S1.
    destruct (send server _ w) as [[resp|e] w1] eqn:E1; [|discriminate E1].
    simpl in S1.
    destruct (catch_http_error_nexus _ resp _) as [[]|e]; exact S1.
  - destruct (retrieve_source && cross_bucket && ok response_);
      [|apply reads_only_refl].
    destruct (response_json response_) as [j|e]; [|apply reads_only_refl].
    destruct (json_contains "_self" j) as [[]|e]; try apply reads_only_refl.
    destruct (json_getitem "_self" j) as [s|e]; [|apply reads_only_refl].
    destruct (json_str s) as [s'|e]; [|apply reads_only_refl].
    pose proof (reads_only_send server (PyStr.join "/" [s'; "source"]) query_params w)
      as S1.
    destruct (send server _ w) as [[resp|e] w1] eqn:E1; [|discriminate E1].
    simpl in S1.
    destruct (catch_http_error_nexus _ response_ _) as [[]|e]; exact S1.
Qed.

(** X8. Whatever its arguments and whatever the store answers, [retrieve]
    sends at most three requests, every one of them a [GET] without a body,
    and changes nothing else. *)
Theorem retrieve_only_reads :
  forall (server : list Request -> Request -> Response) (self : Store)
         (id_ : string) (version : pyversion) (cross_bucket retrieve_source : bool)
         (w : World),
    reads_only w
      (snd (retrieve server self id_ version cross_bucket retrieve_source w)) 3.
Proof.
  intros server self id_ version cb rs w. unfold retrieve, bind at 1, lift at 1.
  destruct (version_params_of version) as [vp|e]; [|apply reads_only_refl].
  unfold bind at 1, lift at 1.
  destruct (split_identifier id_) as [[[parsed_id fragment_] query_params]|e];
    [|apply reads_only_refl].
  unfold bind at 1.
  match goal with
  | |- context [first_lookup ?s ?f ?a ?b ?c ?d ?e ?g ?h w] =>
      pose proof (first_lookup_reads s f a b c d e g h w) as S1;
      destruct (first_lookup s f a b c d e g h w) as [[[response_ url_resource]|e1] w1]
  end; simpl in S1;
    [|exact (reads_only_trans w w1 w1 2 1 S1 (reads_only_refl w1 1))].
  unfold bind.
  match goal with
  | |- context [fetch_metadata ?s ?f ?a ?b ?c ?d ?e w1] =>
      pose proof (fetch_metadata_reads s f a b c d e w1) as S2;
      destruct (fetch_metadata s f a b c d e w1) as [[rm|e2] w2]
  end; simpl in S2.
  - unfold lift. simpl. exact (reads_only_trans w w1 w2 2 1 S1 S2).
  - simpl. exact (reads_only_trans w w1 w2 2 1 S1 S2).
Qed.

(** [urlparse] on an identifier with a query and no fragment. *)
Lemma urlparse_with_query (scheme netloc path key value_ : string) :
  identifier_parts scheme netloc path "" key value_ = true ->
  Urllib.urlparse (identifier_with_query scheme netloc path key value_)
  = Return (Urllib.mkParseResult (PyStr.lower scheme) netloc path ""
              (key ++ "=" ++ value_) "").
Proof.
  intro H. pose proof (identifier_parts_host _ _ _ _ _ _ H) as Hhost.
  destruct (identifier_parts_facts _ _ _ _ _ _ H)
    as ((a & s & -> & Ha) & Hs & Hn & Hp & Hroot & _ & _ & Hk & Hv & _).
  assert (Hg : PyStr.all_chars graphic
                 (identifier_with_query (String a s) netloc path key value_) = true).
  { unfold identifier_with_query. rewrite !all_chars_append.
    rewrite (all_chars_weaken Urllib.scheme_char graphic (String a s)
               (fun c Hc => proj1 (scheme_char_facts c Hc)) Hs).
    rewrite (all_chars_weaken netloc_char graphic netloc
               (fun c Hc => proj1 (netloc_char_facts c Hc)) Hn).
    rewrite (all_chars_weaken path_char graphic path path_char_facts Hp).
    rewrite (all_chars_weaken fragment_char graphic key fragment_char_facts
               (safe_is_fragment key Hk)).
    rewrite (all_chars_weaken fragment_char graphic value_ fragment_char_facts
               (safe_is_fragment value_ Hv)).
    reflexivity. }
  unfold Urllib.urlparse, Urllib.urlsplit. rewrite (graphic_string _ Hg).
  unfold identifier_with_query, Urllib.split_scheme.
  change (String a s ++ "://" ++ netloc ++ path ++ "?" ++ key ++ "=" ++ value_)
    with (String a s ++ String ":" ("//" ++ netloc ++ path ++ "?" ++ key ++ "=" ++ value_)).
  rewrite cut_at_first
    by (apply (all_chars_excludes Urllib.scheme_char); [reflexivity | exact Hs]).
  rewrite Ha, Hs. cbn [andb].
  unfold Urllib.split_netloc.
  change ("//" ++ netloc ++ path ++ "?" ++ key ++ "=" ++ value_)
    with (String "/" (String "/" (netloc ++ path ++ "?" ++ key ++ "=" ++ value_))).
  rewrite !prefix_cons, prefix_empty. cbn [Ascii.eqb Bool.eqb PyStr.drop].
  rewrite span_netloc_app; [|exact Hn|].
  2:{ right. destruct Hroot as [->|[r ->]].
      - now exists "?"%char, (key ++ "=" ++ value_).
      - now exists "/"%char, (r ++ "?" ++ key ++ "=" ++ value_). }
  rewrite (all_chars_excludes netloc_char "[" netloc eq_refl Hn).
  rewrite (all_chars_excludes netloc_char "]" netloc eq_refl Hn). cbn [xorb andb].
  rewrite Hhost.
  unfold Urllib.split_once at 1.
  rewrite cut_absent.
  2:{ rewrite !has_char_append. cbn [PyStr.has_char].
      rewrite (all_chars_excludes path_char "#" path eq_refl Hp).
      rewrite (all_chars_excludes Urllib.always_safe "#" key eq_refl Hk).
      rewrite (all_chars_excludes Urllib.always_safe "#" value_ eq_refl Hv).
      reflexivity. }
  unfold Urllib.split_once.
  change (path ++ "?" ++ key ++ "=" ++ value_)
    with (path ++ String "?" (key ++ "=" ++ value_)).
  rewrite cut_at_first
    by (apply (all_chars_excludes path_char); [reflexivity | exact Hp]).
  cbn [Urllib.scheme Urllib.path].
  rewrite (all_chars_excludes path_char ";" path eq_refl Hp), andb_false_r.
  reflexivity.
Qed.

Lemma split_identifier_query_only (scheme netloc path key value_ : string) :
  identifier_parts scheme netloc path "" key value_ = true ->
  split_identifier (identifier_with_query scheme netloc path key value_)
  = Return (Urllib.mkParseResult (PyStr.lower scheme) netloc path ""
              (key ++ "=" ++ value_) "",
            None, Some [(key, PList [value_])]).
Proof.
  intro H. unfold split_identifier. rewrite (urlparse_with_query _ _ _ _ _ H).
  destruct (identifier_parts_facts _ _ _ _ _ _ H)
    as (_ & _ & _ & _ & _ & _ & _ & Hk & Hv & (v & vs & Hne)).
  cbn [obind Urllib.fragment Urllib.query PyStr.has_char String.eqb negb].
  rewrite (parse_qs_field key value_ Hk Hv) by (rewrite Hne; discriminate).
  destruct (key ++ "=" ++ value_) as [|x rest] eqn:E.
  { destruct key; discriminate E. }
  reflexivity.
Qed.

(** X9. For an identifier [scheme://netloc/path?key=value] with plain
    parts (see [identifier_parts]: among others, a network location without
    a square bracket and without a character that [urlparse] refuses under
    NFKC normalisation), [retrieve] takes the query out of the identifier:
    the lookup, the first request sent, is built from [scheme://netloc/path]
    and carries [key] with the list of [value] as a query parameter,
    together with the [rev] or the [tag] of the version.  A version given
    as an integer replaces a [rev] written in the identifier: the only
    parameter sent is then the [rev] of the version. *)
Theorem retrieve_takes_query_from_identifier :
  forall (server : list Request -> Request -> Response) (self : Store)
         (scheme netloc path key value_ : string)
         (version : pyversion) (version_params : option (string * param_value))
         (cross_bucket retrieve_source : bool) (w : World),
    identifier_parts scheme netloc path "" key value_ = true ->
    version_params_of version = Return version_params ->
    let id_ := identifier_with_query scheme netloc path key value_ in
    let address := PyStr.lower scheme ++ "://" ++ netloc ++ path in
    let params := merge_version version_params (Some [(key, PList [value_])]) in
    (exists out more,
        retrieve server self id_ version cross_bucket retrieve_source w
        = (out, sent w (get (lookup_url self address cross_bucket retrieve_source) params
                          :: more)))
    /\ (forall z, version = VerInt z -> key = "rev" ->
                  params = Some [("rev", PInt z)]).
Proof.
  intros server self scheme netloc path key value_ version vp cb rs w H V
         id_ address params.
  split.
  - destruct (retrieve_sends_lookup_first server self id_ version cb rs w vp _ _ _ V
                (split_identifier_query_only _ _ _ _ _ H)) as (out & more & E).
    exists out, more. rewrite E. unfold id_without_query_of. cbn [Urllib.scheme
      Urllib.netloc Urllib.path]. subst address.
    now rewrite append_empty_r.
  - intros z -> ->. simpl in V. injection V as <-. reflexivity.
Qed.

Lemma retrieve_takes_query_from_identifier_witness :
  exists out more,
    retrieve always_found test_store
      (identifier_with_query "https" "data.net" "/entity/42" "rev" "3")
      (VerInt 5) false false empty_world
    = (out,
       sent empty_world
         (get "https://nexus-instance.org/resources/test/kgforge/_/https%3A%2F%2Fdata.net%2Fentity%2F42"
              (Some [("rev", PInt 5)]) :: more)).
Proof.
  exact (proj1 (retrieve_takes_query_from_identifier always_found test_store
                  "https" "data.net" "/entity/42" "rev" "3"
                  (VerInt 5) (Some ("rev", PInt 5)) false false empty_world
                  ltac:(by_computation) eq_refl)).
Defined.

(** ** More on [search] *)

Lemma keeps_heap_ret {A : Type} (a : A) : keeps_heap (ret a).
Proof. intro w. reflexivity. Qed.

Lemma keeps_heap_raise {A : Type} (e : exn) : keeps_heap (@raise World A e).
Proof. intro w. reflexivity. Qed.

Lemma keeps_heap_lift {A : Type} (o : Outcome A) : keeps_heap (lift o).
Proof. intro w. reflexivity. Qed.

Lemma keeps_heap_bind {A B : Type} (m : M A) (k : A -> M B) :
  keeps_heap m -> (forall a, keeps_heap (k a)) -> keeps_heap (bind m k).
Proof.
  intros Hm Hk w. unfold bind. specialize (Hm w).
  destruct (m w) as [[a|e] w1]; simpl in *.
  - now rewrite Hk.
  - exact Hm.
Qed.

Lemma keeps_heap_send (server : list Request -> Request -> Response) (q : Request) :
  keeps_heap (send server q).
Proof. intro w. reflexivity. Qed.

Lemma keeps_heap_deref (r : nat) : keeps_heap (deref r).
Proof. intro w. reflexivity. Qed.

Lemma keeps_heap_mapM {A B : Type} (f : A -> M B) (l : list A) :
  (forall x, keeps_heap (f x)) -> keeps_heap (mapM f l).
Proof.
  intro H. induction l as [|x l IH]; simpl.
  - apply keeps_heap_ret.
  - apply keeps_heap_bind; [apply H|]. intro y.
    apply keeps_heap_bind; [exact IH|]. intro ys. apply keeps_heap_ret.
Qed.

(** The steps of a proof that code keeps the heap. *)
Ltac keeps_heap_steps :=
  repeat first
    [ apply keeps_heap_ret | apply keeps_heap_raise | apply keeps_heap_lift
    | apply keeps_heap_send | apply keeps_heap_deref
    | apply keeps_heap_mapM; intros
    | apply keeps_heap_bind; [|intros]
    | progress cbv zeta
    | match goal with
      | |- keeps_heap (match ?x with _ => _ end) => destruct x
      end ].

Lemma keeps_heap_batch_request (server : list Request -> Request -> Response)
      (svc : Service) (resources : list Resource) (action : BatchAction)
      (callback : option (BatchResult -> Resource)) (error_type : exn_kind)
      (schema_id : option string) (params : Params) :
  keeps_heap (batch_request server svc resources action callback error_type schema_id params).
Proof.
  unfold batch_request, batch_one. keeps_heap_steps.
Qed.

Lemma keeps_heap_sparql (server : list Request -> Request -> Response) (self : Store)
      (q : string) (debug limit offset : json) :
  keeps_heap (sparql server self q debug limit offset).
Proof.
  unfold sparql, _sparql. keeps_heap_steps.
Qed.

Lemma keeps_heap_search_sparql (server : list Request -> Request -> Response)
      (self : Store) (filters : pyfilters) (params : SearchParams)
      (debug limit offset deprecated cross_bucket bucket_
         search_in_graph distinct includes excludes : json) :
  keeps_heap (search_sparql server self filters params debug limit offset deprecated
                cross_bucket bucket_ search_in_graph distinct includes excludes).
Proof.
  unfold search_sparql, filters_content.
  keeps_heap_steps;
    try apply keeps_heap_sparql; try apply keeps_heap_batch_request.
Qed.

Lemma normalize_filters_heap (self : Store) (filters : pyfilters) (w : World) :
  exists more, heap (snd (normalize_filters self filters w)) = (heap w ++ more)%list.
Proof.
  unfold normalize_filters, bind, filters_truthy.
  destruct filters as [|r|items]; simpl.
  - exists []. now rewrite app_nil_r.
  - destruct (nth r (heap w) []) as [|[|d|f] l] eqn:E; simpl; rewrite ?E; simpl;
      try (exists []; now rewrite app_nil_r).
    unfold lift. destruct (create_filters_from_dict self d); simpl.
    + eexists. reflexivity.
    + exists []. now rewrite app_nil_r.
  - destruct items; simpl.
    + exists []. now rewrite app_nil_r.
    + eexists. reflexivity.
Qed.

Lemma nth_error_kept {A : Type} (h more : list A) (r : nat) (l : A) :
  nth_error h r = Some l -> nth_error (h ++ more) r = Some l.
Proof.
  intro H. rewrite nth_error_app1; [exact H|].
  apply nth_error_Some. congruence.
Qed.

(** X10. A search on the SPARQL endpoint leaves every list of the caller as
    it was: whatever the filters, the parameters and the answers of the
    store, and whether it returns or raises, the list objects that existed
    before the call hold the same entries after it. *)
Theorem search_sparql_keeps_the_callers_lists :
  forall (server : list Request -> Request -> Response) (self : Store)
         (filters : pyfilters) (params : SearchParams) (w : World)
         (r : nat) (l : list filter_item),
    selects_sparql self params = true ->
    nth_error (heap w) r = Some l ->
    nth_error (heap (snd (search server self filters params w))) r = Some l.
Proof.
  intros server self filters params w r l Hsel Hl.
  unfold search. unfold selects_sparql, selected_endpoint in Hsel.
  destruct (model_context self); [|exact Hl].
  destruct (negb _); [exact Hl|].
  destruct (p_filters params); [exact Hl|].
  destruct (_ && _); [exact Hl|].
  rewrite Hsel. unfold bind.
  destruct (normalize_filters_heap self filters w) as [more Hn].
  destruct (normalize_filters self filters w) as [[filters'|e] w1]; simpl in Hn.
  - rewrite keeps_heap_search_sparql, Hn. now apply nth_error_kept.
  - simpl. rewrite Hn. now apply nth_error_kept.
Qed.

Lemma search_sparql_keeps_the_callers_lists_witness :
  nth_error
    (heap (snd (search no_hits test_store (FList 0) (with_endpoint "sparql")
                  (mkWorld [] [[ItemFilter (mkFilter ["type"] "__eq__" (JStr "Person"))]]))))
    0
  = Some [ItemFilter (mkFilter ["type"] "__eq__" (JStr "Person"))].
Proof.
  apply (search_sparql_keeps_the_callers_lists no_hits test_store (FList 0)
           (with_endpoint "sparql")
           (mkWorld [] [[ItemFilter (mkFilter ["type"] "__eq__" (JStr "Person"))]]) 0).
  - by_computation.
  - reflexivity.
Defined.

Lemma elastic_search_accepted_facts (self : Store) (params : SearchParams) :
  elastic_search_accepted self params = true ->
  (exists c, model_context self = Some c)
  /\ is_str (sparql_endpoint_type (service self))
       (get_param (p_search_endpoint params)
          (JStr (sparql_endpoint_type (service self)))) = false
  /\ is_str (elastic_endpoint_type (service self))
       (get_param (p_search_endpoint params)
          (JStr (sparql_endpoint_type (service self)))) = true
  /\ p_filters params = false
  /\ truthy (get_param (p_bucket params) JNull)
     && negb (truthy (get_param (p_cross_bucket params) (JBool false))) = false.
Proof.
  unfold elastic_search_accepted, selects_sparql, selects_elastic, selected_endpoint,
    bucket_without_cross_bucket.
  intro H. repeat (apply andb_true_iff in H; destruct H as [H ?]).
  repeat match goal with
         | H : negb _ = true |- _ => apply negb_true_iff in H
         end.
  destruct (model_context self) as [c|]; [|discriminate].
  repeat split; try assumption. now exists c.
Qed.

(** The mapping of the view, read from an object. *)
Lemma elastic_mapping_of_object (fields : list (string * json)) (w : World) :
  exists m,
    bind (lift (json_contains "mapping" (JObj fields)))
      (fun has_mapping : bool =>
         bind (if has_mapping
               then bind (lift (json_getitem "mapping" (JObj fields)))
                      (fun m => ret (Some m))
               else ret None)
           (fun elastic_mapping => ret elastic_mapping)) w
    = (Return m, w).
Proof.
  unfold bind, lift, ret. simpl.
  destruct (lookup "mapping" fields); eexists; reflexivity.
Qed.

(** X11. A search on the Elasticsearch endpoint needs a list to append its
    filters to.  When the checks of [search] pass and the view is read,
    filters given as [None] or as an empty tuple make it raise an
    [AttributeError]: the requests sent are the ones of the reading of the
    view, and no query is sent. *)
Theorem search_elastic_needs_a_list :
  forall (server : list Request -> Request -> Response) (self : Store)
         (filters : pyfilters) (params : SearchParams) (w : World)
         (fields : list (string * json)) (lg : list Request),
    elastic_search_accepted self params = true ->
    filters = FNone \/ filters = FTuple [] ->
    fetch_elastic_view (service self) (log w) = (Return (JObj fields), lg) ->
    exists msg,
      search server self filters params w
      = (Raise (Exn AttributeError msg), mkWorld lg (heap w)).
Proof.
  intros server self filters params w fields lg Hacc Hf Hview.
  destruct (elastic_search_accepted_facts self params Hacc)
    as ((c & Hc) & Hs & He & Hp & Hb).
  unfold search. rewrite Hc, Hs, He, Hp, Hb. cbn [negb orb].
  unfold search_elastic, on_log.
  destruct Hf as [-> | ->];
    unfold bind, normalize_filters, filters_truthy, bind, ret, lift; simpl;
    rewrite Hview; simpl;
    destruct (lookup "mapping" fields); simpl; eexists; reflexivity.
Qed.

Lemma search_elastic_needs_a_list_witness :
  exists msg,
    search no_hits test_store (FTuple []) (with_endpoint "elastic") empty_world
    = (Raise (Exn AttributeError msg), mkWorld [] []).
Proof.
  exact (search_elastic_needs_a_list no_hits test_store (FTuple [])
           (with_endpoint "elastic") empty_world [] []
           ltac:(by_computation) (or_intror eq_refl) eq_refl).
Defined.

(** The heap after the Elasticsearch path, once the view is read: the list
    the search works on has the appended filters at its end, whether the
    search returns or raises after that. *)
Lemma search_elastic_heap_always (server : list Request -> Request -> Response)
      (self : Store) (r : nat) (params : SearchParams)
      (debug limit offset includes excludes : json) (w : World)
      (fields : list (string * json)) (lg : list Request) :
  fetch_elastic_view (service self) (log w) = (Return (JObj fields), lg) ->
  heap (snd (search_elastic server self (FList r) debug limit offset
               (get_param (p_deprecated params) (JBool false))
               (get_param (p_cross_bucket params) (JBool false))
               (get_param (p_bucket params) JNull) includes excludes w))
  = update_nth r (fun l => (l ++ appended_filters self params)%list) (heap w).
Proof.
  intro Hview. unfold search_elastic, appended_filters.
  unfold bind at 1. unfold on_log. rewrite Hview.
  unfold bind at 1, lift at 1. cbn [json_contains].
  unfold bind at 1.
  match goal with
  | |- context [(if ?has then ?a else ?b) ?w0] =>
      assert (Hm : exists m, (if has then a else b) w0 = (Return m, w0))
  end.
  { unfold bind, lift, ret. simpl. destruct (lookup "mapping" fields); eauto. }
  destruct Hm as [m Hm]. rewrite Hm. clear Hm.
  unfold bind at 1, filters_append at 1, list_append at 1. cbn [log heap].
  unfold bind at 1, lift at 1.
  destruct (project_scope self _ _) as [[[|a p]|]|e]; [| | |reflexivity].
  - unfold bind at 1, ret at 1.
    unfold bind at 1, filters_content, bind at 1, deref, ret. cbn [log heap].
    unfold bind at 1, lift at 1.
    destruct (es_build _ _ _ _ _ _ _); [|reflexivity].
    now rewrite elastic_keeps_heap.
  - unfold bind at 1, filters_append at 1, list_append at 1. cbn [log heap].
    unfold bind at 1, filters_content, bind at 1, deref, ret. cbn [log heap].
    unfold bind at 1, lift at 1.
    destruct (es_build _ _ _ _ _ _ _); cbn [snd heap];
      [rewrite elastic_keeps_heap; cbn [heap]|];
      rewrite update_nth_twice; apply update_nth_ext; intro l;
      now rewrite <- app_assoc.
  - unfold bind at 1, ret at 1.
    unfold bind at 1, filters_content, bind at 1, deref, ret. cbn [log heap].
    unfold bind at 1, lift at 1.
    destruct (es_build _ _ _ _ _ _ _); [|reflexivity].
    now rewrite elastic_keeps_heap.
Qed.

(** X12. The filters a search on the Elasticsearch endpoint appends stay
    in the list of the caller when the search fails.  When the checks of
    [search] pass and the view is read, a list that is empty or starts with
    a [Filter] has the deprecation filter and, when there is a project to
    restrict to, the project filter at its end after the call, whether the
    call returns or raises: a query the store refuses leaves them there. *)
Theorem search_elastic_failure_keeps_appended :
  forall (server : list Request -> Request -> Response) (self : Store)
         (r : nat) (params : SearchParams) (w : World) (l : list filter_item)
         (fields : list (string * json)) (lg : list Request),
    elastic_search_accepted self params = true ->
    nth_error (heap w) r = Some l ->
    plain_filters l = true ->
    fetch_elastic_view (service self) (log w) = (Return (JObj fields), lg) ->
    nth_error (heap (snd (search server self (FList r) params w))) r
    = Some (l ++ appended_filters self params)%list.
Proof.
  intros server self r params w l fields lg Hacc Hl Hplain Hview.
  destruct (elastic_search_accepted_facts self params Hacc)
    as ((c & Hc) & Hs & He & Hp & Hb).
  unfold search. rewrite Hc, Hs, He, Hp, Hb. cbn [negb orb].
  assert (Hn : normalize_filters self (FList r) w = (Return (FList r), w)).
  { unfold normalize_filters, bind, filters_truthy, bind, deref, ret. cbn [log heap].
    rewrite (nth_of_nth_error (heap w) r l [] Hl).
    destruct l as [|[|d|f] l]; try discriminate Hplain;
      cbv beta iota; rewrite ?(nth_of_nth_error (heap w) r _ [] Hl); reflexivity. }
  unfold bind at 1. rewrite Hn.
  rewrite (search_elastic_heap_always server self r params _ _ _ _ _ w fields lg Hview).
  exact (nth_error_update_same
           (fun l => (l ++ appended_filters self params)%list) (heap w) r _ Hl).
Qed.

Lemma search_elastic_failure_keeps_appended_witness :
  raised_kind
    (fst (search query_refused test_store (FList 0) (with_endpoint "elastic")
            (mkWorld [] [[ItemFilter (mkFilter ["type"] "__eq__" (JStr "Person"))]])))
  = Some QueryingError
  /\ nth_error
       (heap (snd (search query_refused test_store (FList 0) (with_endpoint "elastic")
                     (mkWorld [] [[ItemFilter (mkFilter ["type"] "__eq__" (JStr "Person"))]]))))
       0
     = Some ([ItemFilter (mkFilter ["type"] "__eq__" (JStr "Person"))]
               ++ appended_filters test_store (with_endpoint "elastic"))%list.
Proof.
  split; [by_computation|].
  exact (search_elastic_failure_keeps_appended query_refused test_store 0
           (with_endpoint "elastic")
           (mkWorld [] [[ItemFilter (mkFilter ["type"] "__eq__" (JStr "Person"))]])
           [ItemFilter (mkFilter ["type"] "__eq__" (JStr "Person"))] [] []
           ltac:(by_computation) eq_refl eq_refl eq_refl).
Defined.

(** ** Uploads that succeed *)

Lemma uploads_return (server : list Request -> Request -> Response) (self : Store)
      (content_type : option string) (paths : list string) (w : World) :
  Forall (fun a => uploaded a = true)
         (upload_answers server self content_type w paths) ->
  exists bodies,
    mapM (_upload server) (map (upload_request self content_type) paths) w
    = (Return bodies, sent w (map (upload_request self content_type) paths))
    /\ map Some bodies
       = map content (upload_answers server self content_type w paths).
Proof.
  unfold upload_answers. revert w.
  induction paths as [|p paths IH]; intros w H.
  - exists []. split; [|reflexivity]. unfold sent. simpl.
    rewrite app_nil_r. now destruct w.
  - cbn [map answers] in H. inversion H as [|a rest Ha Hrest]; subst.
    destruct (upload_accepted server _ w Ha) as (body & Eb & run).
    destruct (IH (sent w [upload_request self content_type p]) Hrest)
      as (bodies & E & Hb).
    exists (body :: bodies). split.
    + cbn [map mapM]. unfold bind at 1. rewrite run.
      unfold bind at 1. rewrite E, sent_sent. reflexivity.
    + cbn [map answers]. rewrite Eb. f_equal. exact Hb.
Qed.

Lemma create_tasks_some_unopened (self : Store) (open_rb : string -> option exn)
      (content_type : option string) (paths : list string) :
  ~ opened open_rb paths ->
  exists e, create_tasks self open_rb content_type paths = Raise e.
Proof.
  induction paths as [|p paths IH]; intro H.
  - elim H. constructor.
  - cbn [create_tasks]. unfold _create_task.
    destruct (open_rb p) as [e|] eqn:Hp; [now exists e|].
    destruct IH as [e E].
    + intro Hrest. apply H. now constructor.
    + exists e. cbn [obind]. rewrite E. reflexivity.
Qed.

(** X13. When every file can be opened and the store accepts every file,
    [_upload_many] returns the bodies of its answers, one for each path and
    in the order of the paths, and has sent one request for each path.
    When one of the files cannot be opened, it raises and has sent no
    request, whatever the store would answer. *)
Theorem upload_many_returns_bodies_in_order :
  forall (server : list Request -> Request -> Response) (self : Store)
         (open_rb : string -> option exn)
         (paths : list string) (content_type : option string) (w : World),
    (opened open_rb paths ->
     Forall (fun a => uploaded a = true)
            (upload_answers server self content_type w paths) ->
     exists bodies,
       _upload_many server self open_rb paths content_type w
       = (Return bodies, sent w (map (upload_request self content_type) paths))
       /\ map Some bodies
          = map content (upload_answers server self content_type w paths))
    /\ (~ opened open_rb paths ->
        exists e,
          _upload_many server self open_rb paths content_type w = (Raise e, w)).
Proof.
  intros server self open_rb paths content_type w. split.
  - intros Hopen H.
    destruct (uploads_return server self content_type paths w H) as (bodies & run & Hb).
    exists bodies. split; [|exact Hb].
    unfold _upload_many, bind at 1, lift at 1.
    rewrite (create_tasks_opened self open_rb content_type paths Hopen). exact run.
  - intro Hopen.
    destruct (create_tasks_some_unopened self open_rb content_type paths Hopen) as [e E].
    exists e. unfold _upload_many, bind at 1, lift at 1. rewrite E. reflexivity.
Qed.

Lemma upload_many_returns_bodies_in_order_witness :
  (exists bodies,
      _upload_many always_found test_store every_file_opens ["a.txt"; "b.txt"] None
        empty_world
      = (Return bodies,
         sent empty_world (map (upload_request test_store None) ["a.txt"; "b.txt"]))
      /\ map Some bodies
         = map content (upload_answers always_found test_store None empty_world
                          ["a.txt"; "b.txt"]))
  /\ exists e,
      _upload_many always_found test_store b_txt_missing ["a.txt"; "b.txt"] None
        empty_world
      = (Raise e, empty_world).
Proof.
  split.
  - apply (proj1 (upload_many_returns_bodies_in_order always_found test_store
                    every_file_opens ["a.txt"; "b.txt"] None empty_world));
      repeat constructor.
  - apply (proj2 (upload_many_returns_bodies_in_order always_found test_store
                    b_txt_missing ["a.txt"; "b.txt"] None empty_world)).
    intro H. inversion H as [|? ? _ Hrest]. inversion Hrest as [|? ? Hb _].
    discriminate Hb.
Defined.

(** ** The bucket of the service *)

Lemma split_scan_not_empty (sep : string) (skip : nat) (cur : list ascii) (s : string) :
  PyStr.split_scan sep skip cur s <> [].
Proof.
  revert skip cur. induction s as [|x s IH]; intros skip cur;
    cbn [PyStr.split_scan]; [discriminate|].
  destruct skip; [|apply IH].
  destruct (String.prefix sep (String x s)); [discriminate | apply IH].
Qed.

(** A text that [split("/")] cuts in two is its two pieces around one
    slash, and neither piece has a slash. *)
Lemma split_in_two (b org prj : string) :
  PyStr.split "/" b = [org; prj] ->
  b = org ++ "/" ++ prj
  /\ PyStr.has_char "/" org = false /\ PyStr.has_char "/" prj = false.
Proof.
  intro H. destruct (PyStr.has_char "/" b) eqn:E.
  - destruct (last_occurrence "/" b E) as (a & q & -> & Hq).
    rewrite (split_snoc "/" a q Hq) in H.
    destruct (PyStr.split "/" a) as [|x [|y rest]] eqn:Ea.
    + elim (split_scan_not_empty "/" 0 [] a Ea).
    + injection H as -> ->. destruct (PyStr.has_char "/" a) eqn:E'.
      * destruct (last_occurrence "/" a E') as (a' & q' & -> & Hq').
        rewrite (split_snoc "/" a' q' Hq') in Ea.
        destruct (PyStr.split "/" a') as [|x' rest'] eqn:Ea'.
        -- elim (split_scan_not_empty "/" 0 [] a' Ea').
        -- destruct rest'; discriminate Ea.
      * rewrite (split_absent "/" a E') in Ea. injection Ea as ->.
        repeat split; assumption.
    + destruct rest; discriminate H.
  - rewrite (split_absent "/" b E) in H. discriminate H.
Qed.

(** X14. When the configuration of the store is read without an error,
    the organisation and the project the service is built with are the two
    parts of the bucket around its one slash, and the number of connections
    it is built with is positive. *)
Theorem initialize_service_passes_the_bucket :
  forall (new_service : ServiceConfig -> M Service) (b : string)
         (endpoint_ token : option string) (searchendpoints : option json)
         (model_context_ : option Context)
         (context_fallback namespace_fallback project_fallback deprecated_fallback : json)
         (store_config : list (string * json)) (cfg : ServiceConfig) (w : World),
    read_store_config (Some b) endpoint_ token searchendpoints model_context_
      context_fallback namespace_fallback project_fallback deprecated_fallback
      store_config
    = Return cfg ->
    b = cfg_org cfg ++ "/" ++ cfg_prj cfg
    /\ PyStr.has_char "/" (cfg_org cfg) = false
    /\ PyStr.has_char "/" (cfg_prj cfg) = false
    /\ (cfg_max_connection cfg = JBool true
        \/ exists z, cfg_max_connection cfg = JNum z /\ (0 < z)%Z)
    /\ (forall fields,
           cfg_params cfg = JObj fields ->
           _initialize_service new_service (Some b) endpoint_ token searchendpoints
             model_context_ context_fallback namespace_fallback project_fallback
             deprecated_fallback store_config w
           = new_service cfg w).
Proof.
  intros new_service b endpoint_ token se mc cf nf pf df store_config cfg w H.
  assert (I : forall fields, cfg_params cfg = JObj fields ->
              _initialize_service new_service (Some b) endpoint_ token se mc cf nf pf df
                store_config w = new_service cfg w).
  { intros fields P. unfold _initialize_service. rewrite H.
    unfold bind, lift, as_configuration_error. now rewrite P. }
  unfold read_store_config, split_bucket in H.
  destruct (PyStr.split "/" b) as [|org [|prj [|x rest]]] eqn:S; try discriminate H.
  cbn [obind] in H.
  destruct (check_max_connection _) eqn:C; [|discriminate H]. cbn [obind] in H.
  repeat match type of H with
         | obind ?o _ = _ => destruct o; [cbn [obind] in H | discriminate H]
         end.
  injection H as <-. cbn [cfg_org cfg_prj cfg_max_connection] in *.
  destruct (split_in_two b org prj S) as (Hb & Ho & Hp).
  repeat split; try assumption.
  unfold check_max_connection in C.
  destruct (config_get "max_connection" (JNum 50) store_config) as [|[]|z| | |];
    try discriminate C.
  - now left.
  - right. exists z. split; [reflexivity|].
    destruct (z <=? 0)%Z eqn:Z; [discriminate C|]. apply Z.leb_gt in Z. exact Z.
Qed.

Lemma initialize_service_passes_the_bucket_witness :
  exists cfg,
    read_store_config (Some "test/kgforge") (Some "https://nexus-instance.org") None
      None None JNull JNull JNull JNull []
    = Return cfg
    /\ "test/kgforge" = cfg_org cfg ++ "/" ++ cfg_prj cfg
    /\ cfg_max_connection cfg = JNum 50.
Proof.
  destruct (read_store_config (Some "test/kgforge") (Some "https://nexus-instance.org")
              None None None JNull JNull JNull JNull []) as [cfg|e] eqn:E;
    [|vm_compute in E; discriminate E].
  exists cfg. split; [reflexivity|].
  split.
  - exact (proj1 (initialize_service_passes_the_bucket (fun _ => ret test_service)
                    "test/kgforge" (Some "https://nexus-instance.org") None None None
                    JNull JNull JNull JNull [] cfg empty_world E)).
  - vm_compute in E. injection E as <-. reflexivity.
Defined.

(** ** Identifiers that are not addresses *)

Lemma has_char_remove_chars (c : ascii) (p : ascii -> bool) (s : string) :
  PyStr.has_char c s = false -> PyStr.has_char c (Urllib.remove_chars p s) = false.
Proof.
  induction s as [|x s IH]; simpl; [reflexivity|].
  destruct (PyStr.chr_eqb x c) eqn:E; [discriminate|]. intro H.
  destruct (p x); simpl; [|rewrite E]; exact (IH H).
Qed.

Lemma has_char_lstrip (c : ascii) (p : ascii -> bool) (s : string) :
  PyStr.has_char c s = false -> PyStr.has_char c (Urllib.lstrip p s) = false.
Proof.
  induction s as [|x s IH]; simpl; [reflexivity|].
  destruct (PyStr.chr_eqb x c) eqn:E; [discriminate|]. intro H.
  destruct (p x); simpl; [|rewrite E]; [exact (IH H) | exact H].
Qed.

(** X15. A text without a colon is never a valid URL for [is_valid_url]:
    it has no scheme.  [rewrite_uri] therefore resolves every such
    identifier against the context. *)
Theorem identifier_without_colon_is_resolved :
  forall (u : string),
    PyStr.has_char ":" u = false ->
    is_valid_url u = false
    /\ forall context, resolve_id context u = resolve_iri context u.
Proof.
  intros u H.
  assert (V : is_valid_url u = false).
  { unfold is_valid_url, Urllib.urlparse, Urllib.urlsplit, Urllib.split_scheme.
    rewrite (cut_absent ":" _
               (has_char_remove_chars ":" _ _ (has_char_lstrip ":" _ _ H))).
    destruct (Urllib.split_netloc _) as [loc rest].
    destruct (xorb _ _); [reflexivity|].
    destruct (if PyStr.has_char "[" loc && PyStr.has_char "]" loc then _ else _);
      [|reflexivity].
    destruct (Urllib.split_once "#" rest) as [rest' frag].
    destruct (Urllib.split_once "?" rest') as [rest'' qry].
    destruct (Urllib.nfkc_unsafe loc); [reflexivity|].
    cbn [Urllib.scheme Urllib.path].
    destruct (_ && _); [destruct (Urllib.splitparams rest'')|]; reflexivity. }
  split; [exact V|]. intro context. unfold resolve_id. now rewrite V.
Qed.

Lemma identifier_without_colon_is_resolved_witness :
  is_valid_url "43edd8bf-5dfe-45cd-b6d8-1a604dd6beca" = false
  /\ resolve_id test_context "43edd8bf-5dfe-45cd-b6d8-1a604dd6beca"
     = Return "http://data.net/43edd8bf-5dfe-45cd-b6d8-1a604dd6beca".
Proof.
  destruct (identifier_without_colon_is_resolved
              "43edd8bf-5dfe-45cd-b6d8-1a604dd6beca" ltac:(by_computation)) as [V R].
  split; [exact V|]. rewrite R. reflexivity.
Defined.

(** ** Downloads and the files they write *)

Lemma download_writes_only_on_success_parts
      (server : list Request -> Request -> Response) (self : Store)
      (response_content : Response -> string)
      (url path_ bucket_ : string) (store_metadata : option json)
      (w : World) (disk : Disk) :
  let resp := server (log w) (download_request self url) in
  let after := sent w [download_request self url] in
  (success resp = false ->
   _download_one server self response_content url path_ bucket_ (w, disk)
   = (Raise (Exn DownloadingError
               ("Downloading from bucket " ++ bucket_ ++ " failed: "
                  ++ _error_message (service self) resp)),
      (after, disk))
   /\ _download server self response_content (url, path_, store_metadata, bucket_)
        (w, disk)
      = (Raise (Exn DownloadingError
                  ("Downloading url " ++ url ++ " from bucket " ++ bucket_
                     ++ " failed: " ++ _error_message (service self) resp)),
         (after, disk)))
  /\ (success resp = true ->
      _download_one server self response_content url path_ bucket_ (w, disk)
      = (Return tt, (after, dict_set path_ (response_content resp) disk))
      /\ _download server self response_content (url, path_, store_metadata, bucket_)
           (w, disk)
         = (Return tt, (after, dict_set path_ (response_content resp) disk))).
Proof.
  intros resp after. subst resp after. unfold download_request.
  split; intro S; repeat split;
    unfold _download_one, _download, bind, in_world, send, lift, catch_http_error,
      write_file; cbn [fst snd log heap]; rewrite S; reflexivity.
Qed.

(** X16. A download writes its file only after the store has answered
    with a success.  [_download_one], and each task of [_download_many],
    sends one request; on a failure it raises a [DownloadingError] whose
    message names the bucket (and, in a batch, the address), and the files
    are as they were: no file is created or emptied; on a success the file
    at the path holds the bytes of the response. *)
Theorem download_writes_only_on_success :
  forall (server : list Request -> Request -> Response) (self : Store)
         (response_content : Response -> string)
         (url path_ bucket_ : string) (store_metadata : option json)
         (w : World) (disk : Disk),
    let resp := server (log w) (download_request self url) in
    let after := sent w [download_request self url] in
    (success resp = false ->
     _download_one server self response_content url path_ bucket_ (w, disk)
     = (Raise (Exn DownloadingError
                 ("Downloading from bucket " ++ bucket_ ++ " failed: "
                    ++ _error_message (service self) resp)),
        (after, disk))
     /\ _download server self response_content (url, path_, store_metadata, bucket_)
          (w, disk)
        = (Raise (Exn DownloadingError
                    ("Downloading url " ++ url ++ " from bucket " ++ bucket_
                       ++ " failed: " ++ _error_message (service self) resp)),
           (after, disk)))
    /\ (success resp = true ->
        _download_one server self response_content url path_ bucket_ (w, disk)
        = (Return tt, (after, dict_set path_ (response_content resp) disk))
        /\ _download server self response_content (url, path_, store_metadata, bucket_)
             (w, disk)
           = (Return tt, (after, dict_set path_ (response_content resp) disk))
        /\ dict_get path_ (dict_set path_ (response_content resp) disk)
           = Some (response_content resp)).
Proof.
  intros server self rc url path_ bucket_ md w disk resp after.
  destruct (download_writes_only_on_success_parts server self rc url path_ bucket_ md
              w disk) as [F S].
  split; [exact F|]. intro H. destruct (S H) as [S1 S2].
  repeat split; [exact S1 | exact S2 |].
  rewrite dict_get_set, String.eqb_refl. reflexivity.
Qed.

Lemma download_writes_only_on_success_witness :
  _download_one always_conflict test_store status_text
    "https://nexus-instance.org/files/test/kgforge/8f3a" "8f3a.bin" "test/kgforge"
    (empty_world, [("8f3a.bin", "kept")])
  = (Raise (Exn DownloadingError "Downloading from bucket test/kgforge failed: status 409"),
     (sent empty_world
        [download_request test_store "https://nexus-instance.org/files/test/kgforge/8f3a"],
      [("8f3a.bin", "kept")])).
Proof.
  exact (proj1 (proj1 (download_writes_only_on_success always_conflict test_store
                         status_text
                         "https://nexus-instance.org/files/test/kgforge/8f3a" "8f3a.bin"
                         "test/kgforge" None empty_world [("8f3a.bin", "kept")])
                  ltac:(by_computation))).
Defined.

Lemma zip4_length {A B C D : Type} (a : list A) (b : list B) (c : list C) (d : list D) :
  List.length (zip4 a b c d)
  = Nat.min (Nat.min (List.length a) (List.length b))
            (Nat.min (List.length c) (List.length d)).
Proof.
  revert b c d. induction a as [|x a IH]; intros [|y b] [|z c] [|u d]; simpl;
    try reflexivity; try lia.
  rewrite IH. reflexivity.
Qed.

(** X17. [_download_many] pairs its four lists up to the shortest of them:
    when the store accepts every download, it returns after one request for
    each address that has a path, a metadata entry and a bucket, in their
    order, and the entries of a longer list behind these are left aside
    without an error. *)
Theorem download_many_stops_at_the_shortest_list :
  forall (server : list Request -> Request -> Response) (self : Store)
         (response_content : Response -> string)
         (urls paths : list string) (store_metadata : list (option json))
         (buckets : list string) (w : World) (disk : Disk),
    let n := Nat.min (Nat.min (List.length urls) (List.length paths))
                     (Nat.min (List.length store_metadata) (List.length buckets)) in
    let reqs := map (download_request self) (firstn n urls) in
    Forall (fun a => success a = true) (answers server (log w) reqs) ->
    exists done disk',
      _download_many server self response_content urls paths store_metadata buckets
        (w, disk)
      = (Return done, (sent w reqs, disk'))
      /\ List.length done = n.
Proof.
  intros server self rc urls paths md buckets w disk n reqs. subst reqs n.
  rewrite <- zip4_length. unfold _download_many.
  revert paths md buckets w disk.
  induction urls as [|u urls IH]; intros [|p paths] [|m md] [|b buckets] w disk H;
    try (exists [], disk; split; [|reflexivity]; cbn [zip4 mapM ret List.length firstn map];
         unfold sent; rewrite app_nil_r; destruct w; reflexivity).
  cbn [zip4 List.length firstn map answers] in H |- *.
  inversion H as [|a rest Ha Hrest]; subst.
  destruct (IH paths md buckets (sent w [download_request self u])
              (dict_set p (rc (server (log w) (download_request self u))) disk) Hrest)
    as (done & disk' & E & L).
  exists (tt :: done), disk'. split; [|simpl; now rewrite L].
  cbn [mapM]. unfold bind at 1.
  destruct (proj2 (download_writes_only_on_success_parts server self rc u p b m w disk) Ha)
    as [_ D].
  rewrite D. unfold bind at 1.
  match goal with
  | |- context [mapM ?f ?l ?s] =>
      match type of E with
      | _ = ?rhs => replace (mapM f l s) with rhs by (symmetry; exact E)
      end
  end.
  unfold ret. rewrite sent_sent. reflexivity.
Qed.

Lemma download_many_stops_at_the_shortest_list_witness :
  exists done disk',
    _download_many always_found test_store status_text
      ["https://nexus-instance.org/files/test/kgforge/a";
       "https://nexus-instance.org/files/test/kgforge/b"]
      ["a.bin"] [None; None] ["test/kgforge"; "test/kgforge"] (empty_world, [])
    = (Return done,
       (sent empty_world
          [download_request test_store "https://nexus-instance.org/files/test/kgforge/a"],
        disk'))
    /\ List.length done = 1.
Proof.
  apply (download_many_stops_at_the_shortest_list always_found test_store status_text
           ["https://nexus-instance.org/files/test/kgforge/a";
            "https://nexus-instance.org/files/test/kgforge/b"]
           ["a.bin"] [None; None] ["test/kgforge"; "test/kgforge"] empty_world []).
  repeat constructor.
Defined.

(** ** The braces of a query *)

Lemma count_chr_has_char (c : ascii) (s : string) :
  PyStr.has_char c s = false -> count_chr c s = 0.
Proof.
  induction s as [|x s IH]; simpl; [reflexivity|].
  unfold PyStr.chr_eqb. destruct (Ascii.eqb x c); [discriminate|]. exact IH.
Qed.

Lemma count_chr_join (c : ascii) (sep : string) (parts : list string) :
  count_chr c sep = 0 ->
  Forall (fun v => count_chr c v = 0) parts ->
  count_chr c (PyStr.join sep parts) = 0.
Proof.
  intros Hs H. unfold PyStr.join. induction H as [|v parts Hv H IH]; [reflexivity|].
  destruct parts as [|v' parts]; simpl in *; [exact Hv|].
  rewrite !count_chr_append, Hv, Hs. exact IH.
Qed.

Lemma brace_free_counts (vars_ : list string) :
  forallb brace_free vars_ = true ->
  Forall (fun v => count_chr "{" v = 0) vars_
  /\ Forall (fun v => count_chr "}" v = 0) vars_.
Proof.
  induction vars_ as [|v vars_ IH]; simpl; [split; constructor|].
  intro H. apply andb_true_iff in H. destruct H as [Hv H].
  unfold brace_free in Hv. apply andb_true_iff in Hv. destruct Hv as [Ho Hc].
  apply negb_true_iff in Ho, Hc. destruct (IH H) as [I1 I2].
  split; constructor; try assumption; now apply count_chr_has_char.
Qed.

(** X18. The query [_create_select_query] builds from variables without
    braces has the braces of the statements and one pair more, or two with
    the [Graph] wrapper: its braces are balanced exactly when the ones of
    the statements are. *)
Theorem create_select_query_braces :
  forall (vars_ : list string) (statements : string) (distinct search_in_graph : bool),
    forallb brace_free vars_ = true ->
    let q := _create_select_query vars_ statements distinct search_in_graph in
    let pairs := if search_in_graph then 2 else 1 in
    braces q = (fst (braces statements) + pairs, snd (braces statements) + pairs)
    /\ (balanced q <-> balanced statements).
Proof.
  intros vars_ statements distinct graph H q pairs.
  destruct (brace_free_counts vars_ H) as [Ho Hc].
  assert (B : braces q
              = (fst (braces statements) + pairs, snd (braces statements) + pairs)).
  { subst q pairs. unfold braces, _create_select_query, select_vars, where_clauses.
    cbn [fst snd].
    destruct distinct, graph; rewrite !count_chr_append;
      rewrite ?(count_chr_join "{" " " vars_ eq_refl Ho),
              ?(count_chr_join "}" " " vars_ eq_refl Hc);
      cbn [count_chr Ascii.eqb Bool.eqb String.append]; f_equal; lia. }
  split; [exact B|]. unfold balanced. rewrite B. cbn [fst snd]. lia.
Qed.

Lemma create_select_query_braces_witness :
  braces (_create_select_query ["?id"; "?_rev"] "?id <p> ?v . Filter (?v = 1)" false true)
  = (2, 2).
Proof.
  exact (proj1 (create_select_query_braces ["?id"; "?_rev"]
                  "?id <p> ?v . Filter (?v = 1)" false true eq_refl)).
Defined.

(** ** The checks of [search] *)

Lemma search_accepted_facts (self : Store) (params : SearchParams) :
  search_accepted self params = true ->
  (exists c, model_context self = Some c)
  /\ negb (is_str (sparql_endpoint_type (service self))
             (get_param (p_search_endpoint params)
                (JStr (sparql_endpoint_type (service self))))
           || is_str (elastic_endpoint_type (service self))
                (get_param (p_search_endpoint params)
                   (JStr (sparql_endpoint_type (service self))))) = false
  /\ p_filters params = false
  /\ truthy (get_param (p_bucket params) JNull)
     && negb (truthy (get_param (p_cross_bucket params) (JBool false))) = false.
Proof.
  unfold search_accepted, selects_sparql, selects_elastic, selected_endpoint,
    bucket_without_cross_bucket.
  intro H. repeat (apply andb_true_iff in H; destruct H as [H ?]).
  repeat match goal with
         | H : negb _ = true |- _ => apply negb_true_iff in H
         end.
  destruct (model_context self) as [c|]; [|discriminate].
  repeat split; try assumption; [now exists c|].
  apply negb_false_iff. assumption.
Qed.

(** X19. Three more checks of [search], each of which raises a
    [ValueError] before anything is sent or changed: a store without a
    model context, whatever the call; a key ["filters"] among the
    parameters, once the endpoint is a known one; and a list of filters
    whose first entry is [None], once the checks before the reading of the
    filters pass, on either endpoint. *)
Theorem search_rejects_before_sending :
  forall (server : list Request -> Request -> Response) (self : Store)
         (filters : pyfilters) (params : SearchParams) (w : World),
    (model_context self = None ->
     search server self filters params w
     = (Raise (Exn ValueError "context model missing"), w))
    /\ (model_context self <> None ->
        selects_sparql self params || selects_elastic self params = true ->
        p_filters params = true ->
        search server self filters params w
        = (Raise (Exn ValueError
                    "A 'filters' key was provided as params. Filters should be provided as iterable."),
           w))
    /\ (forall r rest,
           search_accepted self params = true ->
           filters = FList r ->
           nth_error (heap w) r = Some (ItemNone :: rest) ->
           search server self filters params w
           = (Raise (Exn ValueError "Filters cannot be None"), w)).
Proof.
  intros server self filters params w. repeat split.
  - intro H. unfold search. now rewrite H.
  - intros Hc He Hf. unfold search.
    destruct (model_context self); [|now elim Hc].
    unfold selects_sparql, selects_elastic, selected_endpoint in He.
    rewrite He, Hf. reflexivity.
  - intros r rest Hacc -> Hl.
    destruct (search_accepted_facts self params Hacc) as ((c & Hc) & He & Hp & Hb).
    unfold search. rewrite Hc, He, Hp, Hb.
    unfold bind, normalize_filters, bind, filters_truthy, bind, deref, ret, raise.
    cbn [log heap]. rewrite (nth_of_nth_error (heap w) r _ [] Hl).
    cbv beta iota. rewrite (nth_of_nth_error (heap w) r _ [] Hl). reflexivity.
Qed.

Lemma search_rejects_before_sending_witness :
  search no_hits test_store FNone with_filters_key empty_world
  = (Raise (Exn ValueError
              "A 'filters' key was provided as params. Filters should be provided as iterable."),
     empty_world)
  /\ search no_hits test_store (FList 0) no_params (mkWorld [] [[ItemNone]])
     = (Raise (Exn ValueError "Filters cannot be None"), mkWorld [] [[ItemNone]]).
Proof.
  destruct (search_rejects_before_sending no_hits test_store FNone with_filters_key
              empty_world) as (_ & F & _).
  destruct (search_rejects_before_sending no_hits test_store (FList 0) no_params
              (mkWorld [] [[ItemNone]])) as (_ & _ & N).
  split.
  - apply F; [discriminate | by_computation | reflexivity].
  - apply (N 0 []); [by_computation | reflexivity | reflexivity].
Defined.

(** ** The address [rewrite_uri] builds and the one [retrieve] looks up *)





(** ** The contexts of the store *)

(** X21. In the context [reformat_contexts] builds, the terms of the model
    context come over the ones of the metadata context: a term both define
    has the value of the model context, a term only the metadata context
    defines is kept when that context has a document, and the prefixes and
    the vocabulary are the ones of the model context alone. *)
Theorem reformat_contexts_prefers_the_model :
  forall (document : Context -> json)
         (prefixes : Context -> option (list (string * string)))
         (vocab : Context -> option string)
         (_context_to_dict : Context -> list (string * json))
         (model_context_ : Context) (metadata_context : option Context),
    keys_unique (_context_to_dict model_context_) ->
    (forall m, metadata_context = Some m -> keys_unique (_context_to_dict m)) ->
    let result :=
      reformat_contexts document prefixes vocab _context_to_dict model_context_
        metadata_context in
    (forall k,
        dict_get k (fst (fst result))
        = match dict_get k (_context_to_dict model_context_) with
          | Some v => Some v
          | None =>
              match metadata_context with
              | Some m =>
                  if truthy (document m) then dict_get k (_context_to_dict m) else None
              | None => None
              end
          end)
    /\ snd (fst result) = prefixes model_context_
    /\ snd result = vocab model_context_.
Proof.
  intros document prefixes vocab to_dict model metadata Um Umeta result.
  subst result. unfold reformat_contexts. cbn [fst snd].
  repeat split. intro k. rewrite (dict_get_update k _ _ Um).
  destruct (dict_get k (to_dict model)); [reflexivity|].
  destruct metadata as [m|]; [|reflexivity].
  destruct (truthy (document m)); [|reflexivity].
  rewrite (dict_get_update k [] _ (Umeta m eq_refl)).
  destruct (dict_get k (to_dict m)); reflexivity.
Qed.

Lemma reformat_contexts_prefers_the_model_witness :
  dict_get "name"
    (fst (fst (reformat_contexts (fun _ => JObj [("@context", JObj [])])
                 (fun _ => None) (fun _ => None) terms_example test_context
                 (Some metadata_context_example))))
  = Some (JStr "http://schema.org/name").
Proof.
  assert (U : keys_unique (terms_example test_context)).
  { unfold keys_unique. simpl. repeat constructor; simpl; intuition discriminate. }
  assert (U' : forall m, Some metadata_context_example = Some m ->
                         keys_unique (terms_example m)).
  { intros m E. injection E as <-. unfold keys_unique. simpl.
    repeat constructor; simpl; intuition discriminate. }
  rewrite (proj1 (reformat_contexts_prefers_the_model
                    (fun _ => JObj [("@context", JObj [])])
                    (fun _ => None) (fun _ => None) terms_example test_context
                    (Some metadata_context_example) U U') "name").
  reflexivity.
Defined.

(** ** Loading from a file, an address or a text *)

(** X22. [load_file_as_byte] reads a file that exists without a request.
    For a path that cannot be examined it raises the [OSError] of the look
    at the path, again without a request: that error is raised outside the
    [try] and is not turned into an [AttributeError].  For another source
    it requests the source as an address, once, and either returns the
    body or raises an [AttributeError] whose message names the source and
    gives the reason of the failed request. *)
Theorem load_file_as_byte_outcomes :
  forall (src : Sources) (source : string) (requested : list string),
    (forall data,
        file_content src source = Some data ->
        load_file_as_byte src source requested = (Return data, requested))
    /\ (forall e,
        file_content src source = None ->
        file_error src source = Some e ->
        load_file_as_byte src source requested = (Raise e, requested))
    /\ (file_content src source = None ->
        file_error src source = None ->
        exists out,
          load_file_as_byte src source requested = (out, (requested ++ [source])%list)
          /\ match http_get src source with
             | inl reason =>
                 out = Raise (Exn AttributeError
                                ("Failed to load the configuration from " ++ source
                                   ++ ". The provided source is not a valid file path or URL: "
                                   ++ reason))
             | inr (status, body) =>
                 if (400 <=? status)%Z && (status <? 600)%Z
                 then out = Raise (Exn AttributeError
                                     ("Failed to load the configuration from " ++ source
                                        ++ ". The provided source is not a valid file path or URL: "
                                        ++ http_error src status source))
                 else out = Return body
             end).
Proof.
  intros src source requested. split; [|split].
  - intros data H. unfold load_file_as_byte, read_if_file. now rewrite H.
  - intros e H He. unfold load_file_as_byte, read_if_file. now rewrite H, He.
  - intros H He. unfold load_file_as_byte, read_if_file, get_text. rewrite H, He.
    destruct (http_get src source) as [reason|[status body]].
    + eexists. split; reflexivity.
    + destruct ((400 <=? status)%Z && (status <? 600)%Z);
        eexists; split; reflexivity.
Qed.

Lemma load_file_as_byte_outcomes_witness :
  load_file_as_byte one_file "mapping.hjson" [] = (Return "{ id: x }", [])
  /\ load_file_as_byte one_file long_name []
     = (Raise (Exn OSError ("[Errno 36] File name too long: '" ++ long_name ++ "'")), [])
  /\ load_file_as_byte one_file "forge.yml" []
     = (Raise (Exn AttributeError
                 "Failed to load the configuration from forge.yml. The provided source is not a valid file path or URL: 404 Client Error for url: forge.yml"),
        ["forge.yml"]).
Proof.
  destruct (load_file_as_byte_outcomes one_file "mapping.hjson" []) as (F & _ & _).
  destruct (load_file_as_byte_outcomes one_file long_name []) as (_ & E & _).
  destruct (load_file_as_byte_outcomes one_file "forge.yml" []) as (_ & _ & N).
  split; [|split].
  - apply F. reflexivity.
  - apply E; by_computation.
  - destruct (N eq_refl eq_refl) as (out & run & Hout).
    rewrite run. vm_compute in Hout. rewrite Hout. reflexivity.
Defined.

(** X23. [Mapping.load] without a type tries the file first: for a source
    that is a file, the mapping is made from the text of the file, nothing
    is requested, and [load_str] is not asked.  With the type [FILE], a
    source that is no file raises [FileNotFoundError], again without a
    request: the address and the text are not tried. *)
Theorem mapping_load_prefers_the_file :
  forall (Rules : Type) (_load_rules : string -> Outcome Rules)
         (load_str : string -> bool -> Outcome (option Rules))
         (src : Sources) (source : string) (requested : list string),
    (forall text,
        file_content src source = Some text ->
        Mapping.load Rules _load_rules load_str src source Mapping.TypeNone requested
        = (Mapping.cls Rules _load_rules text, requested))
    /\ (file_content src source = None ->
        Mapping.load Rules _load_rules load_str src source
          (Mapping.TypeOf Mapping.FILE) requested
        = (Mapping.Failed Mapping.FileNotFoundError, requested)).
Proof.
  intros Rules lr ls src source requested. split.
  - intros text H. unfold Mapping.load, Mapping.load_file, Mapping.or_else. rewrite H.
    unfold Mapping.cls. destruct (lr text); reflexivity.
  - intro H. unfold Mapping.load, Mapping.load_file. now rewrite H.
Qed.

Lemma mapping_load_prefers_the_file_witness :
  Mapping.load string (fun text => Return text) (fun _ _ => Return None) one_file
    "mapping.hjson" Mapping.TypeNone []
  = (Mapping.Got (Some "{ id: x }"), [])
  /\ Mapping.load string (fun text => Return text) (fun _ _ => Return None) one_file
       "other.hjson" (Mapping.TypeOf Mapping.FILE) []
     = (Mapping.Failed Mapping.FileNotFoundError, []).
Proof.
  destruct (mapping_load_prefers_the_file string (fun text => Return text)
              (fun _ _ => Return None) one_file "mapping.hjson" []) as [F _].
  destruct (mapping_load_prefers_the_file string (fun text => Return text)
              (fun _ _ => Return None) one_file "other.hjson" []) as [_ N].
  split; [exact (F _ eq_refl) | exact (N eq_refl)].
Defined.

(** X24. [Mapping.load] without a type raises [MappingLoadError] exactly
    when all three ways fail quietly: the source is no file, the request of
    the source as an address fails, and [load_str] returns [None].  It never
    raises the [FileNotFoundError] or the [RequestException] of the ways it
    tried, and it never returns [None]. *)
Theorem mapping_load_error_when_all_fail :
  forall (Rules : Type) (_load_rules : string -> Outcome Rules)
         (load_str : string -> bool -> Outcome (option Rules))
         (src : Sources) (source : string) (requested : list string),
    let out :=
      fst (Mapping.load Rules _load_rules load_str src source Mapping.TypeNone
             requested) in
    (is_mapping_load_error out
     <-> file_content src source = None
         /\ (exists reason, fst (get_text src source requested) = inl reason)
         /\ load_str source false = Return None)
    /\ out <> Mapping.Failed Mapping.FileNotFoundError
    /\ (forall reason, out <> Mapping.Failed (Mapping.RequestException reason))
    /\ out <> Mapping.Got None.
Proof.
  intros Rules lr ls src source requested out. subst out.
  unfold is_mapping_load_error, Mapping.load, Mapping.load_file, Mapping.load_url,
    Mapping.load_str_, Mapping.or_else, Mapping.cls.
  assert (others : forall o : Mapping.Loaded (option Rules),
             (exists r, o = Mapping.Got (Some r))
             \/ (exists e, o = Mapping.Failed (Mapping.Raised e))
             \/ (exists msg, o = Mapping.Failed (Mapping.MappingLoadError msg)) ->
             o <> Mapping.Failed Mapping.FileNotFoundError
             /\ (forall reason, o <> Mapping.Failed (Mapping.RequestException reason))
             /\ o <> Mapping.Got None).
  { intros o [[r ->]|[[e ->]|[msg ->]]]; repeat split; try discriminate;
      intros reason H; discriminate H. }
  destruct (file_content src source) as [text|].
  - destruct (lr text); cbn [fst]; (split; [split|apply others; eauto]).
    + intros [msg H]; discriminate H.
    + intros (H & _); discriminate H.
    + intros [msg H]; discriminate H.
    + intros (H & _); discriminate H.
  - destruct (get_text src source requested) as [[reason|text] requested'] eqn:G.
    + cbn [fst]. destruct (ls source false) as [[r|]|e]; cbn [fst];
        (split; [split|apply others; eauto]).
      * intros [msg H]; discriminate H.
      * intros (_ & _ & H); discriminate H.
      * intros _. repeat split. now exists reason.
      * intros _. now eexists.
      * intros [msg H]; discriminate H.
      * intros (_ & _ & H); discriminate H.
    + destruct (lr text); cbn [fst]; (split; [split|apply others; eauto]).
      * intros [msg H]; discriminate H.
      * intros (_ & (reason & H) & _); discriminate H.
      * intros [msg H]; discriminate H.
      * intros (_ & (reason & H) & _); discriminate H.
Qed.

(** ** Candidates for the linking of entities *)

Lemma scores_of_length (resources : list Resource) :
  List.length (scores_of resources) <= List.length resources
  /\ (all_scored resources = true ->
      List.length (scores_of resources) = List.length resources)
  /\ (all_scored resources = false ->
      List.length (scores_of resources) < List.length resources).
Proof.
  unfold scores_of, all_scored.
  induction resources as [|r resources (IH1 & IH2 & IH3)]; simpl.
  - repeat split; [lia | discriminate].
  - destruct (score_of r); simpl.
    + repeat split; [lia | |]; intro H; [rewrite (IH2 H) | specialize (IH3 H)]; lia.
    + repeat split; [lia | discriminate | intros _; lia].
Qed.

Lemma candidates_combine (scores_j rs : list json) :
  List.length scores_j = List.length rs ->
  candidates scores_j rs = Return (combine scores_j rs).
Proof.
  revert scores_j. induction rs as [|r rs IH]; intros [|s scores_j] H;
    try discriminate H; try reflexivity.
  simpl. injection H as H. now rewrite (IH scores_j H).
Qed.

Lemma candidates_short (scores_j rs : list json) :
  List.length scores_j < List.length rs ->
  candidates scores_j rs = Raise (Exn IndexError "list index out of range").
Proof.
  revert scores_j. induction rs as [|r rs IH]; intros [|s scores_j] H; simpl in *;
    try lia; try reflexivity.
  rewrite (IH scores_j) by lia. reflexivity.
Qed.

Lemma similar_found (search_similar : string -> json -> Outcome (list Resource))
      (resource_as_json : Resource -> json) (vector_field : string) (vector : json)
      (resources : list Resource) :
  search_similar vector_field vector = Return resources ->
  _similar search_similar resource_as_json vector_field vector
  = Return (match resources with
            | [] => None
            | _ => Some (map resource_as_json resources, scores_of resources)
            end).
Proof.
  intro H. unfold _similar. rewrite H. now destruct resources.
Qed.

(** The loop over labels for each of which something is found. *)
Lemma collect_found (embedding_of : string -> Outcome (option (string * json)))
      (search_similar : string -> json -> Outcome (list Resource))
      (resource_as_json : Resource -> json) (found : string -> list Resource)
      (labels : list string) :
  (forall m, In m labels -> found_for embedding_of search_similar m (found m)) ->
  collect embedding_of search_similar resource_as_json labels
  = Return (map (fun m => map resource_as_json (found m)) labels,
            map (fun m => scores_of (found m)) labels).
Proof.
  induction labels as [|m labels IH]; intro H; [reflexivity|].
  destruct (H m (or_introl eq_refl)) as (f & v & He & Hs & Hne).
  cbn [collect]. rewrite He. cbn [obind].
  rewrite (similar_found _ _ _ _ _ Hs).
  destruct (found m) as [|r rs] eqn:E; [now elim Hne|]. cbn [obind].
  rewrite IH by (intros m' I; apply H; now right).
  cbn [obind map]. now rewrite E.
Qed.

(** The loop over labels without an embedding. *)
Lemma collect_nothing (embedding_of : string -> Outcome (option (string * json)))
      (search_similar : string -> json -> Outcome (list Resource))
      (resource_as_json : Resource -> json) (labels : list string) :
  (forall m, In m labels -> embedding_of m = Return None) ->
  collect embedding_of search_similar resource_as_json labels = Return ([], []).
Proof.
  induction labels as [|m labels IH]; intro H; [reflexivity|].
  cbn [collect]. rewrite (H m (or_introl eq_refl)). cbn [obind].
  apply IH. intros m' I. apply H. now right.
Qed.

Lemma filed_found (resource_as_json : Resource -> json) (found : string -> list Resource)
      (labels : list string) (i_res : list (string * list (json * json))) :
  (forall m, In m labels -> all_scored (found m) = true) ->
  filed i_res labels (map (fun m => map resource_as_json (found m)) labels)
    (map (fun m => scores_of (found m)) labels)
  = Return (fold_left (fun d m => dict_set m (candidates_of resource_as_json (found m)) d)
              labels i_res).
Proof.
  revert i_res. induction labels as [|m labels IH]; intros i_res H; [reflexivity|].
  cbn [filed map fold_left].
  rewrite candidates_combine
    by (rewrite length_map; apply scores_of_length, H; now left).
  cbn [obind]. apply IH. intros m' I. apply H. now right.
Qed.

Lemma dict_get_filed {V : Type} (value_of : string -> V) (labels : list string)
      (d : list (string * V)) (m : string) :
  In m labels \/ dict_get m d = Some (value_of m) ->
  dict_get m (fold_left (fun d m => dict_set m (value_of m) d) labels d)
  = Some (value_of m).
Proof.
  revert d. induction labels as [|x labels IH]; intros d H; simpl.
  - destruct H as [[]|H]. exact H.
  - apply IH. destruct (String.eqb_spec x m) as [->|ne].
    + right. now rewrite dict_get_set, String.eqb_refl.
    + destruct H as [[E|I]|H]; [now elim ne | now left |].
      right. rewrite dict_get_set.
      destruct (String.eqb_spec x m) as [E|_]; [now elim ne | exact H].
Qed.

(** X25. When something is found for every label, and every resource
    found carries a score, [generate_candidates] returns one entry for each
    mention, in the order of the mentions and with their repetitions: the
    mention with its own candidates, which are the resources found for it,
    each with its score.  This in whatever order the set of the labels is
    iterated. *)
Theorem generate_candidates_files_each_mention :
  forall (embedding_of : string -> Outcome (option (string * json)))
         (search_similar : string -> json -> Outcome (list Resource))
         (resource_as_json : Resource -> json)
         (found : string -> list Resource) (labels mentions : list string),
    (forall m, In m labels ->
               found_for embedding_of search_similar m (found m)
               /\ all_scored (found m) = true) ->
    (forall m, In m mentions -> In m labels) ->
    generate_candidates embedding_of search_similar resource_as_json labels mentions
    = Return (map (fun m => (m, candidates_of resource_as_json (found m))) mentions).
Proof.
  intros emb search asjson found labels mentions H Hin.
  unfold generate_candidates.
  rewrite (collect_found emb search asjson found labels (fun m I => proj1 (H m I))).
  cbn [obind].
  rewrite (filed_found asjson found labels [] (fun m I => proj2 (H m I))).
  cbn [obind]. f_equal.
  induction mentions as [|m mentions IH]; [reflexivity|].
  cbn [flat_map map].
  rewrite (dict_get_filed (fun m => candidates_of asjson (found m)) labels [] m)
    by (left; apply Hin; now left).
  cbn [app]. f_equal. apply IH. intros m' I. apply Hin. now right.
Qed.

Lemma generate_candidates_files_each_mention_witness :
  generate_candidates embedding_example search_example json_example
    ["neuron"] ["neuron"; "neuron"]
  = Return [("neuron", [(JNum 9, JStr "http://data.net/neuron")]);
            ("neuron", [(JNum 9, JStr "http://data.net/neuron")])].
Proof.
  assert (H : forall m, In m ["neuron"] ->
              found_for embedding_example search_example m
                [scored "http://data.net/neuron" 9]
              /\ all_scored [scored "http://data.net/neuron" 9] = true).
  { intros m [<-|[]]. split; [|reflexivity].
    exists "embedding", (JStr "neuron"). repeat split. discriminate. }
  assert (I : forall m, In m ["neuron"; "neuron"] -> In m ["neuron"]).
  { intros m [<-|[<-|[]]]; now left. }
  exact (generate_candidates_files_each_mention embedding_example search_example
           json_example (fun _ => [scored "http://data.net/neuron" 9])
           ["neuron"] ["neuron"; "neuron"] H I).
Defined.

(** X26. The resources found are filed under the labels by their rank, not
    by their mention.  When the label iterated first has no embedding and
    the next one has, with resources found and scored for it, and no later
    label has an embedding, the candidates found for the second label are
    returned under the first, for each mention of the first, and the
    mentions of the second get no entry. *)
Theorem generate_candidates_files_by_rank :
  forall (embedding_of : string -> Outcome (option (string * json)))
         (search_similar : string -> json -> Outcome (list Resource))
         (resource_as_json : Resource -> json)
         (a b : string) (later mentions : list string) (resources : list Resource),
    embedding_of a = Return None ->
    found_for embedding_of search_similar b resources ->
    all_scored resources = true ->
    (forall m, In m later -> embedding_of m = Return None) ->
    a <> b
    /\ generate_candidates embedding_of search_similar resource_as_json
         (a :: b :: later) mentions
       = Return (flat_map
                   (fun m => if String.eqb m a
                             then [(m, candidates_of resource_as_json resources)]
                             else [])
                   mentions).
Proof.
  intros emb search asjson a b later mentions resources Ha (f & v & Hb & Hs & Hne)
         Hscored Hlater.
  split; [intros ->; rewrite Ha in Hb; discriminate Hb|].
  unfold generate_candidates. cbn [collect]. rewrite Ha, Hb. cbn [obind].
  rewrite (similar_found _ _ _ _ _ Hs).
  destruct resources as [|r rs] eqn:E; [now elim Hne|]. rewrite <- E in *.
  cbn [obind]. rewrite (collect_nothing emb search asjson later Hlater).
  cbn [obind filed].
  rewrite candidates_combine
    by (rewrite length_map; now apply scores_of_length).
  cbn [obind dict_set]. f_equal.
  apply flat_map_ext. intro m. cbn [dict_get]. rewrite (String.eqb_sym a m).
  destruct (String.eqb m a); reflexivity.
Qed.

Lemma generate_candidates_files_by_rank_witness :
  generate_candidates embedding_example search_example json_example
    ["unknown"; "neuron"] ["neuron"; "unknown"]
  = Return [("unknown", [(JNum 9, JStr "http://data.net/neuron")])].
Proof.
  assert (F : found_for embedding_example search_example "neuron"
                [scored "http://data.net/neuron" 9]).
  { exists "embedding", (JStr "neuron"). repeat split. discriminate. }
  exact (proj2 (generate_candidates_files_by_rank embedding_example search_example
                  json_example "unknown" "neuron" [] ["neuron"; "unknown"]
                  [scored "http://data.net/neuron" 9] eq_refl F eq_refl
                  (fun m (I : In m []) => match I with end))).
Defined.

(** The loop stops at the first label that fails. *)
Lemma collect_raises_after (embedding_of : string -> Outcome (option (string * json)))
      (search_similar : string -> json -> Outcome (list Resource))
      (resource_as_json : Resource -> json)
      (before rest : list string) (x : list (list json) * list (list json)) (e : exn) :
  collect embedding_of search_similar resource_as_json before = Return x ->
  collect embedding_of search_similar resource_as_json rest = Raise e ->
  collect embedding_of search_similar resource_as_json (before ++ rest) = Raise e.
Proof.
  intros Hb Hr. revert x Hb.
  induction before as [|m before IH]; intros x Hb; [exact Hr|].
  cbn [app collect] in *.
  destruct (embedding_of m) as [[[f v]|]|e0]; cbn [obind] in *; [| |discriminate Hb].
  - destruct (_similar search_similar resource_as_json f v) as [[[rs sc]|]|e1];
      cbn [obind] in *; try discriminate Hb.
    destruct (collect embedding_of search_similar resource_as_json before)
      as [[rs' sc']|e2] eqn:C; [|discriminate Hb].
    now rewrite (IH _ eq_refl).
  - exact (IH x Hb).
Qed.

(** X27. A mention with an embedding for which the search finds no
    resource makes [generate_candidates] raise a [TypeError], whatever was
    found for the labels before it and whatever the labels after it are:
    [_similar] returns [None] for it, which the loop cannot unpack. *)
Theorem generate_candidates_needs_a_resource :
  forall (embedding_of : string -> Outcome (option (string * json)))
         (search_similar : string -> json -> Outcome (list Resource))
         (resource_as_json : Resource -> json)
         (before : list string) (m : string) (later mentions : list string)
         (vector_field : string) (vector : json)
         (x : list (list json) * list (list json)),
    collect embedding_of search_similar resource_as_json before = Return x ->
    embedding_of m = Return (Some (vector_field, vector)) ->
    search_similar vector_field vector = Return [] ->
    _similar search_similar resource_as_json vector_field vector = Return None
    /\ generate_candidates embedding_of search_similar resource_as_json
         (before ++ m :: later) mentions
       = Raise (Exn TypeError "cannot unpack non-iterable NoneType object").
Proof.
  intros emb search asjson before m later mentions f v x Hb He Hs.
  assert (S : _similar search asjson f v = Return None)
    by (rewrite (similar_found _ _ _ _ _ Hs); reflexivity).
  split; [exact S|].
  unfold generate_candidates.
  rewrite (collect_raises_after emb search asjson before (m :: later) x
             (Exn TypeError "cannot unpack non-iterable NoneType object") Hb).
  - reflexivity.
  - cbn [collect]. rewrite He. cbn [obind]. rewrite S. reflexivity.
Qed.

Lemma generate_candidates_needs_a_resource_witness :
  generate_candidates embedding_example search_example json_example
    (["neuron"] ++ "cortex" :: []) ["neuron"; "cortex"]
  = Raise (Exn TypeError "cannot unpack non-iterable NoneType object").
Proof.
  exact (proj2 (generate_candidates_needs_a_resource embedding_example search_example
                  json_example ["neuron"] "cortex" [] ["neuron"; "cortex"]
                  "embedding" (JStr "cortex")
                  ([[JStr "http://data.net/neuron"]], [[JNum 9]])
                  eq_refl eq_refl eq_refl)).
Defined.

Lemma filed_raises (resource_as_json : Resource -> json) (found : string -> list Resource)
      (before : list string) (m : string) (later : list string)
      (i_res : list (string * list (json * json))) :
  (forall b, In b before -> all_scored (found b) = true) ->
  all_scored (found m) = false ->
  filed i_res (before ++ m :: later)
    (map (fun m => map resource_as_json (found m)) (before ++ m :: later))
    (map (fun m => scores_of (found m)) (before ++ m :: later))
  = Raise (Exn IndexError "list index out of range").
Proof.
  intros Hb Hm. revert i_res. induction before as [|b before IH]; intro i_res.
  - cbn [app map filed].
    rewrite candidates_short
      by (rewrite length_map; now apply scores_of_length).
    reflexivity.
  - cbn [app map filed].
    rewrite candidates_combine
      by (rewrite length_map; apply scores_of_length, Hb; now left).
    cbn [obind]. apply IH. intros b' I. apply Hb. now right.
Qed.

(** X28. A resource found without a score makes [generate_candidates]
    raise an [IndexError].  When something is found for every label, the
    first label among whose resources one has no score has fewer scores
    than resources, and the pairing of its resources with their scores runs
    out of scores. *)
Theorem generate_candidates_needs_every_score :
  forall (embedding_of : string -> Outcome (option (string * json)))
         (search_similar : string -> json -> Outcome (list Resource))
         (resource_as_json : Resource -> json)
         (found : string -> list Resource)
         (before : list string) (m : string) (later mentions : list string),
    (forall l, In l (before ++ m :: later) ->
               found_for embedding_of search_similar l (found l)) ->
    (forall b, In b before -> all_scored (found b) = true) ->
    all_scored (found m) = false ->
    generate_candidates embedding_of search_similar resource_as_json
      (before ++ m :: later) mentions
    = Raise (Exn IndexError "list index out of range").
Proof.
  intros emb search asjson found before m later mentions H Hb Hm.
  unfold generate_candidates.
  rewrite (collect_found emb search asjson found (before ++ m :: later) H).
  cbn [obind]. rewrite (filed_raises asjson found before m later [] Hb Hm).
  reflexivity.
Qed.

Lemma generate_candidates_needs_every_score_witness :
  generate_candidates embedding_example search_example json_example
    ([] ++ "axon" :: []) ["axon"]
  = Raise (Exn IndexError "list index out of range").
Proof.
  assert (H : forall l, In l ([] ++ "axon" :: []) ->
              found_for embedding_example search_example l [resource_a]).
  { intros l [<-|[]]. exists "embedding", (JStr "axon"). repeat split. discriminate. }
  exact (generate_candidates_needs_every_score embedding_example search_example
           json_example (fun _ => [resource_a]) [] "axon" [] ["axon"] H
           (fun b (I : In b []) => match I with end) eq_refl).
Defined.

(** ** Prefixes the context does not know *)

(** X29. An address in which [rewrite_uri] finds a prefixed schema, a
    segment [prefix:name] between two slashes, needs the prefix to be one
    the context expands: for a prefix the context does not know,
    [rewrite_uri] raises a [TypeError], for files and for resources, and
    whether or not the address starts with the base of the store. *)
Theorem rewrite_uri_unknown_prefix :
  forall (self : Store) (uri : string) (context : Context) (is_file : bool)
         (groups : list string),
    Re.re_match Re.prefixed_schema (Urllib.unquote uri) = Some groups ->
    expand context (nth 0 groups "") = None ->
    exists msg, rewrite_uri self uri context is_file = Raise (Exn TypeError msg).
Proof.
  intros self uri context is_file groups Hm He. unfold rewrite_uri.
  rewrite Hm. cbv zeta. rewrite He.
  destruct (PyStr.startswith _ _); eexists; reflexivity.
Qed.

Lemma rewrite_uri_unknown_prefix_witness :
  exists msg,
    rewrite_uri test_store "http://example.org/vocabulary/schema:Person/42"
      test_context false
    = Raise (Exn TypeError msg).
Proof.
  assert (Hm : Re.re_match Re.prefixed_schema
                 (Urllib.unquote "http://example.org/vocabulary/schema:Person/42")
               = Some ["schema"; "Person"]) by by_computation.
  exact (rewrite_uri_unknown_prefix test_store
           "http://example.org/vocabulary/schema:Person/42" test_context false
           ["schema"; "Person"] Hm eq_refl).
Defined.

(** ** A registration that succeeds *)

(** X30. When the store accepts the registration of one resource and
    answers with an object that names an [@id], [_register_one] gives the
    resource that identifier; a context the resource had is kept, a
    resource without one gets the [@context] of the payload sent; then the
    metadata of the answer are synchronized into it.  When the resource had
    no context and the payload has none either, [_register_one] raises
    after the identifier is set: the resource keeps the new identifier but
    is not synchronized. *)
Theorem register_one_success :
  forall (server : list Request -> Request -> Response) (self : Store)
         (schema_id : option string) (r : Resource) (w : World)
         (data : json) (req : Request) (fields : list (string * json)) (i : json),
    as_jsonld self r (model_or_service_context self) = Return data ->
    register_request self r schema_id data = Return req ->
    success (server (log w) req) = true ->
    content (server (log w) req) = Some (JObj fields) ->
    lookup "@id" fields = Some i ->
    let run := _register_one server self schema_id (r, w) in
    let after := sent w [req] in
    (forall c, res_context r = Some c ->
               run = (Return tt,
                      (sync_metadata (service self) (set_id r i) (JObj fields), after)))
    /\ (forall c, res_context r = None ->
                  json_getitem "@context" data = Return c ->
                  run = (Return tt,
                         (sync_metadata (service self) (set_context (set_id r i) c)
                            (JObj fields), after)))
    /\ (forall e, res_context r = None ->
                  json_getitem "@context" data = Raise e ->
                  run = (Raise e, (set_id r i, after))).
Proof.
  intros server self schema_id r w data req fields i Hd Hq Hs Hc Hi run after.
  subst run after.
  assert (common : forall k : RM unit,
             _register_one server self schema_id (r, w)
             = bind (match res_context r with
                     | Some _ => ret tt
                     | None =>
                         bind (lift (json_getitem "@context" data))
                           (fun c => modify_resource (fun r => set_context r c))
                     end)
                 (fun _ => modify_resource
                             (fun r => sync_metadata (service self) r (JObj fields)))
                 (set_id r i, sent w [req])).
  { intros _. unfold _register_one.
    unfold bind at 1, get_resource at 1. cbn [fst snd].
    unfold bind at 1, lift at 1. rewrite Hd.
    unfold bind at 1, lift at 1. rewrite Hq.
    unfold bind at 1, on_world at 1, send. cbn [fst snd log heap].
    unfold bind at 1, lift at 1, catch_http_error_nexus, catch_http_error. rewrite Hs.
    unfold bind at 1, lift at 1, response_json. rewrite Hc.
    unfold bind at 1, lift at 1. cbn [json_getitem]. rewrite Hi.
    unfold bind at 1, modify_resource at 1. cbn [fst snd].
    unfold bind at 1, get_resource at 1. cbn [fst snd res_context set_id].
    reflexivity. }
  specialize (common (ret tt)). rewrite common. clear common.
  repeat split.
  - intros c Hr. rewrite Hr. reflexivity.
  - intros c Hr Hg. rewrite Hr. unfold bind, lift. rewrite Hg. reflexivity.
  - intros e Hr Hg. rewrite Hr. unfold bind, lift. rewrite Hg. reflexivity.
Qed.

Lemma register_one_success_witness :
  _register_one always_found test_store None (blank_resource, empty_world)
  = (Return tt,
     (sync_metadata test_service
        (set_context (set_id blank_resource (JStr "http://data.net/a"))
           (JStr "http://data.net/context"))
        (JObj [("@id", JStr "http://data.net/a"); ("_rev", JNum 2)]),
      sent empty_world
        [mkRequest POST "https://nexus-instance.org/resources/test/kgforge/_" None
           (JsonBody (JObj [("@context", JStr "http://data.net/context")]))])).
Proof.
  assert (Hd : as_jsonld test_store blank_resource (model_or_service_context test_store)
               = Return (JObj [("@context", JStr "http://data.net/context")]))
    by by_computation.
  assert (Hq : register_request test_store blank_resource None
                 (JObj [("@context", JStr "http://data.net/context")])
               = Return (mkRequest POST
                           "https://nexus-instance.org/resources/test/kgforge/_" None
                           (JsonBody (JObj [("@context", JStr "http://data.net/context")]))))
    by by_computation.
  exact (proj1 (proj2 (register_one_success always_found test_store None blank_resource
                         empty_world _ _
                         [("@id", JStr "http://data.net/a"); ("_rev", JNum 2)]
                         (JStr "http://data.net/a") Hd Hq eq_refl eq_refl eq_refl))
           (JStr "http://data.net/context") eq_refl eq_refl).
Defined.

(** ** [rewrite_uri] applied to its own result (C3) *)

Lemma unquote_after_plain (a b : string) :
  PyStr.has_char "%" a = false -> Urllib.unquote (a ++ b) = a ++ Urllib.unquote b.
Proof.
  induction a as [|x a IH]; [reflexivity|]. simpl.
  destruct (PyStr.chr_eqb x "%"); [discriminate|].
  intro H. now rewrite (IH H).
Qed.

Lemma split_scan_skip (sep x rest : string) (cur : list ascii) :
  PyStr.split_scan sep (String.length x) cur (x ++ rest)
  = PyStr.split_scan sep 0 cur rest.
Proof. induction x as [|a x IH]; [reflexivity | exact IH]. Qed.

(** A text that starts with the separator: an empty piece, then the pieces
    of the rest. *)
Lemma split_at_separator (c : ascii) (sep rest : string) :
  PyStr.split (String c sep) (String c sep ++ rest)
  = "" :: PyStr.split (String c sep) rest.
Proof.
  unfold PyStr.split.
  change (String c sep ++ rest) with (String c (sep ++ rest)).
  cbn [PyStr.split_scan].
  change (String c (sep ++ rest)) with (String c sep ++ rest).
  rewrite prefix_append. cbn [String.length]. rewrite Nat.sub_succ, Nat.sub_0_r.
  now rewrite split_scan_skip.
Qed.

(** Without the separator in it, a text is one piece. *)
Lemma split_scan_without (sep s : string) (cur : list ascii) :
  PyStr.contains sep s = false ->
  PyStr.split_scan sep 0 cur s = [PyStr.rev_string cur ++ s].
Proof.
  revert cur; induction s as [|x s IH]; intros cur H.
  - simpl. now rewrite append_empty_r.
  - cbn [PyStr.contains] in H. cbn [PyStr.split_scan].
    destruct (String.prefix sep (String x s)); [discriminate H|].
    rewrite (IH (x :: cur) H). unfold PyStr.rev_string. simpl.
    rewrite string_of_list_ascii_app, append_assoc. reflexivity.
Qed.

Lemma split_without (sep s : string) :
  PyStr.contains sep s = false -> PyStr.split sep s = [s].
Proof. intro H. unfold PyStr.split. now rewrite (split_scan_without sep s [] H). Qed.

Lemma contains_at_start (a b : string) : PyStr.contains a (a ++ b) = true.
Proof.
  pose proof (prefix_append a b) as H.
  destruct (a ++ b); cbn [PyStr.contains]; now rewrite H.
Qed.

Lemma contains_later (a : string) (x : ascii) (s : string) :
  PyStr.contains a s = true -> PyStr.contains a (String x s) = true.
Proof.
  intro H. cbn [PyStr.contains].
  destruct (String.prefix a (String x s)); [reflexivity | exact H].
Qed.

Lemma contains_at_end (u a : string) : PyStr.contains u (a ++ u) = true.
Proof.
  induction a as [|x a IH].
  - pose proof (contains_at_start u "") as H. now rewrite append_empty_r in H.
  - apply contains_later, IH.
Qed.

Lemma last_part_after_empty (parts : list string) :
  parts <> [] -> PyStr.last_part ("" :: parts) = PyStr.last_part parts.
Proof. destruct parts; [now intro H; elim H | reflexivity]. Qed.

Lemma uri_base_not_empty (self : Store) (is_file : bool) :
  exists c b, uri_base self is_file = String c b.
Proof.
  unfold uri_base, PyStr.join.
  destruct is_file; destruct (endpoint self); simpl; eexists; eexists; reflexivity.
Qed.

(** The second element of the pieces of [base ++ rest] cut at [base], when
    [base] does not occur in [rest]. *)
Lemma second_after_base (base rest : string) :
  base <> "" ->
  PyStr.contains base rest = false ->
  second (PyStr.split base (base ++ rest)) = Return rest.
Proof.
  intros Hne H. destruct base as [|c b]; [now elim Hne|].
  now rewrite split_at_separator, (split_without _ _ H).
Qed.

(** C3, as the code has it.  [rewrite_uri] is idempotent on the identifiers
    that are not addresses of the store: an ASCII text [u] without a
    percent sign and without a space, which the pattern of a prefixed
    schema does not match and which does not start with the base address,
    in a store whose base address is ASCII text too, has no percent sign,
    does not occur in the part of the rewritten address after it, and gives
    no match of the pattern in front of [u].  For a resource and a [u] that is a URL without [/_/], whatever
    the context: the result is the base, [/_/] and the quoted [u], and
    [rewrite_uri] returns that result unchanged.  For a file, when the
    context resolves the last segment of [u] to a text that occurs in [u]:
    the result is the base, a slash and the quoted [u], and [rewrite_uri]
    returns that result unchanged. *)
Theorem rewrite_uri_idempotent_on_identifiers :
  forall (self : Store) (context : Context) (u : string),
    ascii_text u = true ->
    PyStr.has_char "%" u = false ->
    PyStr.has_char " " u = false ->
    Re.re_match Re.prefixed_schema u = None ->
    (let base := uri_base self false in
     let rewritten := base ++ "/_/" ++ Urllib.quote_plus u in
     ascii_text base = true ->
     is_valid_url u = true ->
     PyStr.contains "/_/" u = false ->
     PyStr.startswith u base = false ->
     PyStr.has_char "%" base = false ->
     PyStr.contains base ("/_/" ++ u) = false ->
     Re.re_match Re.prefixed_schema (base ++ "/_/" ++ u) = None ->
     rewrite_uri self u context false = Return rewritten
     /\ rewrite_uri self rewritten context false = Return rewritten)
    /\ (let base := uri_base self true in
        let rewritten := base ++ "/" ++ Urllib.quote_plus u in
        forall resolved,
          ascii_text base = true ->
          PyStr.contains "/_/" ("/" ++ u) = false ->
          PyStr.startswith u base = false ->
          PyStr.has_char "%" base = false ->
          PyStr.contains base ("/" ++ u) = false ->
          Re.re_match Re.prefixed_schema (base ++ "/" ++ u) = None ->
          resolve_id context (PyStr.last_part (PyStr.split "/" u)) = Return resolved ->
          PyStr.contains resolved u = true ->
          rewrite_uri self u context true = Return rewritten
          /\ rewrite_uri self rewritten context true = Return rewritten).
Proof.
  intros self context u _ Hpct Hsp Hre. split.
  - intros base rewritten _ Hurl Hsub Hbase Hbpct Hocc Hre2.
    assert (Hne : base <> "").
    { destruct (uri_base_not_empty self false) as (c & b & E).
      subst base. rewrite E. discriminate. }
    split.
    + unfold rewrite_uri. rewrite (unquote_plain u Hpct), Hre.
      unfold rewrite_plain. fold base. rewrite Hbase, Hsub. reflexivity.
    + assert (raw : Urllib.unquote rewritten = base ++ "/_/" ++ u).
      { subst rewritten. rewrite (unquote_after_plain base _ Hbpct).
        rewrite (unquote_after_plain "/_/" _ eq_refl), (unquote_quote_plus u Hsp).
        reflexivity. }
      unfold rewrite_uri. rewrite raw, Hre2.
      unfold rewrite_plain. fold base.
      unfold PyStr.startswith. rewrite prefix_append.
      rewrite (second_after_base base ("/_/" ++ u) Hne Hocc). cbn [obind].
      rewrite (contains_at_start "/_/" u).
      change ("/_/" ++ u) with (String "/" "_/" ++ u).
      rewrite split_at_separator, (split_without _ _ Hsub).
      cbn [PyStr.last_part last].
      unfold resolve_id. rewrite Hurl. cbn [negb obind].
      now rewrite (contains_at_end u (String "/" "_/")).
  - intros base rewritten resolved _ Hsub Hbase Hbpct Hocc Hre2 Hres Hin.
    assert (Hne : base <> "").
    { destruct (uri_base_not_empty self true) as (c & b & E).
      subst base. rewrite E. discriminate. }
    split.
    + unfold rewrite_uri. rewrite (unquote_plain u Hpct), Hre.
      unfold rewrite_plain. fold base. rewrite Hbase. reflexivity.
    + assert (raw : Urllib.unquote rewritten = base ++ "/" ++ u).
      { subst rewritten. rewrite (unquote_after_plain base _ Hbpct).
        rewrite (unquote_after_plain "/" _ eq_refl), (unquote_quote_plus u Hsp).
        reflexivity. }
      unfold rewrite_uri. rewrite raw, Hre2.
      unfold rewrite_plain. fold base.
      unfold PyStr.startswith. rewrite prefix_append.
      rewrite (second_after_base base ("/" ++ u) Hne Hocc). cbn [obind].
      rewrite Hsub.
      change ("/" ++ u) with (String "/" "" ++ u).
      rewrite split_at_separator, last_part_after_empty
        by apply split_scan_not_empty.
      rewrite Hres. cbn [obind].
      change ("/" ++ u) with (String "/" u).
      now rewrite (contains_later resolved "/" u Hin).
Qed.

Lemma rewrite_uri_idempotent_on_identifiers_witness :
  (rewrite_uri test_store "http://data.net/myverycoolid123456789" test_context false
   = Return "https://nexus-instance.org/resources/test/kgforge/_/http%3A%2F%2Fdata.net%2Fmyverycoolid123456789"
   /\ rewrite_uri test_store
        "https://nexus-instance.org/resources/test/kgforge/_/http%3A%2F%2Fdata.net%2Fmyverycoolid123456789"
        test_context false
      = Return "https://nexus-instance.org/resources/test/kgforge/_/http%3A%2F%2Fdata.net%2Fmyverycoolid123456789")
  /\ (rewrite_uri test_store "http://data.net/myverycoolid123456789" test_context true
      = Return "https://nexus-instance.org/files/test/kgforge/http%3A%2F%2Fdata.net%2Fmyverycoolid123456789"
      /\ rewrite_uri test_store
           "https://nexus-instance.org/files/test/kgforge/http%3A%2F%2Fdata.net%2Fmyverycoolid123456789"
           test_context true
         = Return "https://nexus-instance.org/files/test/kgforge/http%3A%2F%2Fdata.net%2Fmyverycoolid123456789").
Proof.
  assert (H0 : ascii_text "http://data.net/myverycoolid123456789" = true)
    by by_computation.
  assert (H1 : PyStr.has_char "%" "http://data.net/myverycoolid123456789" = false)
    by by_computation.
  assert (H2 : PyStr.has_char " " "http://data.net/myverycoolid123456789" = false)
    by by_computation.
  assert (H3 : Re.re_match Re.prefixed_schema "http://data.net/myverycoolid123456789" = None)
    by by_computation.
  destruct (rewrite_uri_idempotent_on_identifiers test_store test_context
              "http://data.net/myverycoolid123456789" H0 H1 H2 H3) as [R F].
  split.
  - apply R; by_computation.
  - apply (F "http://data.net/myverycoolid123456789"); by_computation.
Defined.
